(* ===== verification/_CoqProject ===== *)
-Q . S2P
Prelude.v
Bytes.v
Address.v
Model.v
Registry.v
Sweeper.v
Backup.v
Lookup.v
Handlers.v
Services.v
Plugin.v
System.v
Concurrency.v
Bot.v
