(* ===== verification/Prelude.v ===== *)
(** * A verification development of the cpunk DNA registry

    The program ([src/backend/], a plugin of a Cellframe node written in
    Python) keeps a registry of "DNA" names.  A wallet address owns one
    identity record, stored in a replicated key/value store (the node's
    GlobalDB group ["cpunk.dna"]) under the hex public hash of the
    address.  A record leases names for 365 days and carries profile
    data (socials, external wallets, bio, delegations, messages).

    Parts of the program and how they interact:
    - [gdb_ops.py] [GlobalDBOps]: the write path ([write_gdb_data],
      [update_gdb_data_old_name], [_is_name_taken], [_get_all_gdb_data]),
      the read path ([gdb_lookup]), and two daemon threads started by the
      constructor: the expiry sweeper ([remove_expired_gdb_entries]) and
      the backup loop ([backup_dna_data]); [restore_dna_data] writes a
      backup back.  All of them touch the store through single-key
      [get]/[set] and whole-group [items()]: nothing is atomic across keys.
    - [utils.py] [Utils]: address parsing ([wallet_addr_to_dict]),
      address building ([build_cf_address], [generate_wallet_addresses])
      and request validation ([validate_json_data], [validate_dna_name]).
    - [handlers.py]: the HTTP dispatch to the operations above.
    - [cpunk-gdb-server.py]: plugin init and the CLI restore command.
    - [src/cpunk.club/cpunkverifybot.py]: a Telegram bot that calls the
      registry over HTTP.

    Files of the development (in dependency order):
    - [Prelude] (this file): the effect monad [prog] in which every
      handler is written (store [Get]/[Put]/[Items], clock [Now], uuid
      [Fresh]), its sequential interpreter [run] on a [world], time
      constants, ASCII lower-casing, the hint database [registry] and the
      generic lemmas on maps and lists the components share.
    - [Bytes]: [bytes.hex]/[bytes.fromhex] and [int.to_bytes] as used by
      [utils.py], with their round trips and bounds, and [str.strip].
    - [Address]: [Utils.build_cf_address] over an interface [Sha3] (a
      32-byte digest) and a model of [base58.b58encode]; the base58 round
      trip, the checksum an address carries, injectivity of derivation
      (the spec's "changing any input changes the address") and the
      [OverflowError] bounds.  Digit loops take fuel [fuel_of n], the bit
      length of [n] plus one, proved enough in every base [>= 2].
    - [Model]: the data model: timestamps ([stamp], the three shapes a
      stored ISO string can have), name leases, the identity record, the
      store values, the update payload and the JSON responses
      ([send_json_response]).
    - [Registry]: [_get_public_hash], [_is_name_taken],
      [_get_all_gdb_data], [write_gdb_data] and [update_gdb_data_old_name]
      as [prog]s, every branch and every store write.  Each handler that
      reads the clock more than once has a fixed-clock twin
      ([update_record_at], [merge_fields_at]) and a lemma
      ([run_update_record], [run_create_record]) that [run] of the handler
      equals its twin: the theorems are proved on the twins.  Theorems:
      the global name-uniqueness invariant [names_unique] and the
      well-formedness invariant [store_wf] (names lower case, records
      under their own public hash) are preserved by both handlers; the
      behaviour of each branch (creation, [NameTaken], duplicate "add",
      renewal from the previous expiry, no-op update, [guuid] guard); the
      immutable fields of a record are never changed.
    - [Sweeper]: one cycle of [remove_expired_gdb_entries]; it removes
      exactly the names expired at the cycle's clock and keeps the rest
      (a refinement of [sweep_spec], a filter of every record), it
      preserves [names_unique] even when aborted, and a naive timestamp
      anywhere in the store aborts every cycle before the record holding
      it is written, so that record keeps its expired names.
    - [Backup]: one cycle of [backup_dna_data] over a model of the backup
      directory, the list [backup_files] and the thread's liveness;
      [restore_dna_data] and the CLI command that selects a backup.
      Theorems: the retention bound, de-duplication, the restore
      overwriting each key, and the two defects: with unchanged data the
      loop deletes its only backup at the 101st cycle and dies at the
      102nd; after a restart with 100 backups it removes a bare name
      relative to the working directory and dies.  The cycle counts are
      exact (the theorems quantify over the cycle times), no fuel is used.
    - [Lookup]: every mode of [gdb_lookup] (all delegations, telegram
      handle, order hash, by name, as list, by address).  Theorems: no
      single-record answer carries a [guuid]; the by-name lookup finds the
      owner of a name; the by-telegram lookup answers exactly when a
      record's Telegram profile equals the handle up to letter case; the
      by-address lookup answers records without names.
    - [Handlers]: [request_handler], [handle_post_request],
      [handle_get_request] ([handlers.py]) with [validate_json_data] and
      [validate_dna_name] ([utils.py]); [json.loads], the configuration's
      [DISALLOWED_NAMES] and the ledger query are section variables.
      Theorems: the exact language of the name rule (including Python's
      [$] before a final newline), what a successful "add" was checked
      for, that "update" bypasses every name check, that a lookup of the
      valid name ["all_delegations"] answers the delegation list whatever
      the store holds, that non-POST requests are read-only, and the
      error paths (no configuration, no body).
    - [Services]: [config.py] ([load_config], [save_config] over a map of
      files, JSON as an interface with a round-trip law), [int(s, 16)]
      ([int_hex]), [Utils.generate_wallet_addresses] reading [NET_IDS]
      from the configuration, and [Utils.is_tx_accepted] over an
      interface to the node's ledgers.  Theorems: for a record stored
      under the hex of its public hash, [generate_wallet_addresses] maps
      each configured network to the base58 encoding of the address
      bytes and their SHA3-256, the last entry of a name winning, and
      raises exactly when an entry does not parse or an id or the
      signature type is out of range; a [tx_validate] GET answers the
      ledger's verdict and is read-only.
    - [Plugin]: start-up ([GlobalDBOps.__init__], [http_server],
      [init], [deinit], the [Config] constants) over a record of what the
      node has registered, and the server's dispatch by URI and method.
      A lemma checks that the loaded plugin works on "cpunk.dna", runs
      exactly the sweeper, backup and HTTP threads that [System] has as
      actors, and hands POST and GET requests for ["/cpunk_gdb"] to
      [request_handler] and nothing else.
    - [System]: the node as a transition system [step] whose steps are
      the actors of the code (a request, a sweeper cycle, a backup cycle,
      a clock tick), each atomic; the invariant [node_inv] (names unique,
      lower case, records under their own hash) holds in every state
      reachable from an empty group, by rule induction; an expired name
      stops being found at the sweeper's next step (liveness); the CLI
      restore ([admin_step]) breaks the invariant whenever the snapshot
      holds a name that has since passed to another record.
    - [Concurrency]: the same actors as threads interleaved at single
      GlobalDB calls ([exec1], [sched]); run one after the other they
      compute what [run] computes (a lemma), and on concrete schedules
      (lists of thread indices) interleaved "add" requests give a name
      two owners and the sweeper loses a concurrent update.  The bounds
      20 and 5 on the steps of a thread exceed the primitives the
      handlers execute ([cost]).  Theorem: a sweeper cycle finishes
      within two primitives plus one per record.
    - [Bot]: the Telegram bot ([src/cpunk.club/cpunkverifybot.py]):
      [universal_handler], [process_whoami],
      [process_verification_attempt], [update_verification_status] and
      the command handlers, as programs whose HTTP calls run the
      backend's [request_handler] in the same world; the URL the bot
      builds is parsed as the server parses it ([url_query]).  Theorem:
      "whoami?" answers what a reference read off the store gives.  A
      lemma shows that, composed directly with the backend, the bot never
      changes the registry and never reports a successful verification
      (its update carries no wallet).

    Every theorem with hypotheses has a witness lemma applying it to the
    concrete worlds [demo_world] and its successors, built with the
    address parser [demo_parser] (two wallets, public hashes "abcd" and
    "0102").  Recursion is structural (over lists and strings) except the
    base58 digit loops of [Address], which take the fuel [fuel_of n]
    proved sufficient; the definitions evaluate with [vm_compute].

    Abstractions (what is not modelled, and why):
    - JSON (de)serialisation is the identity: a stored value is either a
      decoded record or [Corrupt] (bytes that fail [json.loads]).  Free
      form objects inside [delegations]/[messages] are flat maps of
      scalars.  A social entry is modelled by its [profile] field.
    - Timestamps are integers of microseconds since the epoch; the
      strings written by [datetime.isoformat()] are [Aware t]; restored or
      hand-edited data may hold naive ([Naive t]) or unparsable
      ([Malformed s]) strings, which the code treats differently.
    - The store enumeration order is the order of [map_to_list], and a
      record's names are a map: the backend relies on no order, but the
      bot's "primary" name is the first in map order where Python takes
      the first inserted; the whoami theorem is stated in map order.
    - Python strings are byte strings (UTF-8 bytes): [str.strip],
      [str.lower] and [str.isalpha] act on ASCII, slicing counts bytes;
      the bot's URL is parsed by a model of [parse_qsl] and [unquote]
      that leaves aside [requests]' re-quoting of invalid escapes.
    - Telegram's dispatch of commands ([CommandHandler]) is a parameter
      of [Bot.handle_update]; [json.dumps] of the bot's update body is a
      parameter whose decoding by the backend is a hypothesis.
    - The bot's HTTP calls are the backend's [request_handler] run in the
      same world.  [API_URL] is a deployed host, and the bot's comment
      names a [dna-proxy.php] between them that is not in the repository
      and may rewrite the update; the bot's theorems hold for the direct
      composition only.
    - [generate_wallet_addresses] is total where the lookups call it
      (the class [Model.WalletDeriver]): the [except] of [gdb_lookup]
      that answers "Error fetching data" when it raises is not modelled.
      [Services] shows when the code's derivation raises.
    - Logging, HTTP transport and the node's CLI are outside the model;
      SHA3-256 is an interface ([Address.Sha3]) and the wallet-address
      parser of [pycfhelpers] a class ([Model.AddressParser]) (see
      PROJECT.json).
    - Each handler runs atomically in [run]; [Concurrency] refines this
      to single GlobalDB calls.  The backup thread is not among the
      interleaved threads (it never writes the group).

    Not modelled: the HTTP wire format (headers, body bytes, the
    encoding of [send_json_response]'s dictionary), the bot's token
    loading and polling loop, and logging: they belong to the libraries
    ([pycfhelpers], [python-telegram-bot]) and only carry requests to
    and from the modelled handlers.  The JSON text format itself is an
    interface throughout. *)

From stdpp Require Export base gmap strings list pretty.
From Stdlib Require Export ZArith Lia Ascii String.

Set Default Goal Selector "!".

Declare Scope registry_scope.
Delimit Scope registry_scope with reg.

Create HintDb registry discriminated.
Create Rewrite HintDb registry_rw.

(** ** Time *)

(** Python [datetime] has microsecond resolution. *)
Definition USEC_PER_DAY : Z := 86400 * 1000000.

(** [timedelta(days=n)] *)
Definition days (n : Z) : Z := n * USEC_PER_DAY.

(** The lease of a name: [timedelta(days=365)]. *)
Definition LEASE : Z := days 365.


(** ** ASCII lower-casing ([str.lower] on the ASCII range) *)

Definition ascii_lower (c : ascii) : ascii :=
  let n := nat_of_ascii c in
  if (65 <=? n)%nat && (n <=? 90)%nat then ascii_of_nat (n + 32) else c.

Fixpoint str_lower (s : string) : string :=
  match s with
  | EmptyString => EmptyString
  | String c s' => String (ascii_lower c) (str_lower s')
  end.

(** ** The effect monad of the handlers *)

(** A handler of [gdb_ops.py] is a finite program over five effects:
    [self.gdb_group.get(k)], [self.gdb_group.set(k, v)],
    [self.gdb_group.items()], [datetime.now(timezone.utc)] and
    [CFGUUID.generate()].  The store holds values of type [V]. *)
Inductive prog (V A : Type) : Type :=
| Ret (a : A)
| Get (k : string) (c : option V -> prog V A)
| Put (k : string) (v : V) (c : prog V A)
| Items (c : list (string * V) -> prog V A)
| Now (c : Z -> prog V A)
| Fresh (c : string -> prog V A).
Arguments Ret {V A} a.
Arguments Get {V A} k c.
Arguments Put {V A} k v c.
Arguments Items {V A} c.
Arguments Now {V A} c.
Arguments Fresh {V A} c.

Fixpoint prog_bind {V A B} (p : prog V A) (f : A -> prog V B) : prog V B :=
  match p with
  | Ret a => f a
  | Get k c => Get k (fun o => prog_bind (c o) f)
  | Put k v c => Put k v (prog_bind c f)
  | Items c => Items (fun l => prog_bind (c l) f)
  | Now c => Now (fun t => prog_bind (c t) f)
  | Fresh c => Fresh (fun u => prog_bind (c u) f)
  end.

#[export] Instance prog_mret {V} : MRet (prog V) := fun A a => Ret a.
#[export] Instance prog_mbind {V} : MBind (prog V) := fun A B f p => prog_bind p f.

(** The primitive operations, as one-step programs. *)
Definition gdb_get {V} (k : string) : prog V (option V) := Get k Ret.
Definition gdb_set {V} (k : string) (v : V) : prog V unit := Put k v (Ret tt).
Definition gdb_items {V} : prog V (list (string * V)) := Items Ret.
Definition now_utc {V} : prog V Z := Now Ret.
Definition fresh_uuid {V} : prog V string := Fresh Ret.

(** [for x in l: body(x)] *)
Fixpoint prog_iter {V X} (body : X -> prog V unit) (l : list X) : prog V unit :=
  match l with
  | [] => Ret tt
  | x :: l' => prog_bind (body x) (fun _ => prog_iter body l')
  end.

(** [for x in l: body] *)
Notation "'for!' x 'in' l 'do' b" := (prog_iter (fun x => b) l)
  (at level 10, x binder, l at level 100, b at level 200) : registry_scope.

(** ** The world a handler runs against *)

Record world (V : Type) := World {
  w_store : gmap string V;   (** the GlobalDB group *)
  w_clock : Z;               (** [datetime.now(timezone.utc)], in microseconds *)
  w_next : N                 (** state of the uuid generator *)
}.
Arguments World {V} _ _ _.
Arguments w_store {V} _.
Arguments w_clock {V} _.
Arguments w_next {V} _.

(** [str(CFGUUID.generate()).lower()]: fresh, distinct strings. *)
Definition uuid_of (n : N) : string := "uuid-" +:+ pretty n.

Definition with_store {V} (w : world V) (s : gmap string V) : world V :=
  World s (w_clock w) (w_next w).

(** Sequential (atomic) execution of a handler. *)
Fixpoint run {V A} (p : prog V A) (w : world V) : A * world V :=
  match p with
  | Ret a => (a, w)
  | Get k c => run (c (w_store w !! k)) w
  | Put k v c => run c (with_store w (<[k:=v]> (w_store w)))
  | Items c => run (c (map_to_list (w_store w))) w
  | Now c => run (c (w_clock w)) w
  | Fresh c => run (c (uuid_of (w_next w))) (World (w_store w) (w_clock w) (N.succ (w_next w)))
  end.

(** A program that never writes. *)
Fixpoint read_only {V A} (p : prog V A) : Prop :=
  match p with
  | Ret _ => True
  | Get _ c => forall o, read_only (c o)
  | Put _ _ _ => False
  | Items c => forall l, read_only (c l)
  | Now c => forall t, read_only (c t)
  | Fresh c => forall u, read_only (c u)
  end.

(** ** Generic lemmas *)

Section ProgLemmas.
Context {V : Type}.

Lemma run_bind {A B} (p : prog V A) (f : A -> prog V B) w :
  run (prog_bind p f) w = let '(a, w') := run p w in run (f a) w'.
Proof.
  revert w; induction p; intros w; simpl; auto.
Qed.

Lemma run_mbind {A B} (p : prog V A) (f : A -> prog V B) w :
  run (p ≫= f) w = let '(a, w') := run p w in run (f a) w'.
Proof. apply run_bind. Qed.

(** A program whose result is post-processed by a pure function. *)
Lemma run_mbind_ret {A B} (p : prog V A) (g : A -> B) w :
  run (p ≫= λ a, mret (g a)) w = (g (fst (run p w)), snd (run p w)).
Proof. rewrite run_mbind. by destruct (run p w). Qed.

Lemma run_iter {X} (body : X -> prog V unit) (x : X) l w :
  run (prog_iter body (x :: l)) w = run (prog_iter body l) (snd (run (body x) w)).
Proof.
  simpl. rewrite run_bind. destruct (run (body x) w) as [[] w']. reflexivity.
Qed.

(** A read-only program leaves the store unchanged. *)
Lemma run_read_only_store {A} (p : prog V A) w :
  read_only p -> w_store (snd (run p w)) = w_store w.
Proof.
  revert w; induction p as [a|k c IH|k v c IH|c IH|c IH|c IH]; intros w Hro;
    simpl in *; try done; rewrite ?IH; auto.
Qed.

End ProgLemmas.

Lemma str_lower_idem s : str_lower (str_lower s) = str_lower s.
Proof.
  induction s as [|c s IH]; simpl; [done|]. rewrite IH. f_equal.
  unfold ascii_lower. destruct c as [[] [] [] [] [] [] [] []]; vm_compute; reflexivity.
Qed.

Lemma str_lower_app s1 s2 : str_lower (s1 +:+ s2) = str_lower s1 +:+ str_lower s2.
Proof. induction s1 as [|c s IH]; simpl; [done|]. by rewrite IH. Qed.

(** Map lemmas shared by the components. *)

Lemma lookup_insert_dec {K A} `{Countable K} (m : gmap K A) k k' v :
  <[k:=v]> m !! k' = if decide (k = k') then Some v else m !! k'.
Proof. case_decide; subst; [apply lookup_insert_eq|by apply lookup_insert_ne]. Qed.

Lemma elem_of_map_to_list_fst {K A} `{Countable K} (m : gmap K A) k :
  k ∈ (map_to_list m).*1 <-> is_Some (m !! k).
Proof.
  rewrite list_elem_of_fmap. split.
  - intros [[k' v] [-> Hin]]. apply elem_of_map_to_list in Hin. simpl. eauto.
  - intros [v Hv]. exists (k, v). split; [done|]. by apply elem_of_map_to_list.
Qed.

#[export] Hint Rewrite @run_bind @run_mbind : registry_rw.
#[export] Hint Rewrite @str_lower_idem @str_lower_app : registry_rw.
#[export] Hint Resolve run_read_only_store : registry.

(** Unfold a handler's run one primitive at a time. *)
Ltac run_steps :=
  repeat (simpl; autorewrite with registry_rw; simpl).
