(* ===== verification/Bytes.v ===== *)
(** * Byte strings of [src/backend/utils.py]

    [bytes.hex()] (used by [GlobalDBOps._get_public_hash] to turn the
    public hash of a wallet into the store key), [bytes.fromhex()] (used by
    [Utils.generate_wallet_addresses] to turn it back), and
    [int.to_bytes(n, length, byteorder)] (used by [Utils.build_cf_address]),
    with their round trips, lengths and the [OverflowError] bound.  A byte
    is an integer of [0, 256); a [bytes] object is a list of them.
    [str.strip()] (used by the bot on messages and by [int(s, 16)]) acts
    on ASCII whitespace. *)

From S2P Require Import Prelude.

Module Bytes.
Local Open Scope Z_scope.

Definition byte_ok (b : Z) : Prop := 0 <= b < 256.

(** ** [bytes.hex()]: two lower-case hex digits per byte *)

Definition hex_digit (n : Z) : ascii :=
  if n <? 10 then ascii_of_nat (48 + Z.to_nat n) else ascii_of_nat (87 + Z.to_nat n).

Fixpoint hex (l : list Z) : string :=
  match l with
  | [] => EmptyString
  | b :: l' => String (hex_digit (b / 16)) (String (hex_digit (b mod 16)) (hex l'))
  end.

(** ** [bytes.fromhex(s)] *)

(** Value of one hex digit, either case; [None] makes [fromhex] raise. *)
Definition digit_val (c : ascii) : option Z :=
  let n := nat_of_ascii c in
  if (48 <=? n)%nat && (n <=? 57)%nat then Some (Z.of_nat n - 48)
  else if (97 <=? n)%nat && (n <=? 102)%nat then Some (Z.of_nat n - 87)
  else if (65 <=? n)%nat && (n <=? 70)%nat then Some (Z.of_nat n - 55)
  else None.

(** ASCII whitespace, skipped before each pair of digits. *)
Definition is_space (c : ascii) : bool :=
  let n := nat_of_ascii c in (n =? 32)%nat || ((9 <=? n)%nat && (n <=? 13)%nat).

(** [None] is the [ValueError] of a non-hex character or an odd digit. *)
Fixpoint fromhex (s : string) : option (list Z) :=
  match s with
  | EmptyString => Some []
  | String c s' =>
      if is_space c then fromhex s'
      else match s' with
           | EmptyString => None
           | String c2 s'' =>
               match digit_val c, digit_val c2 with
               | Some hi, Some lo => cons (16 * hi + lo) <$> fromhex s''
               | _, _ => None
               end
           end
  end.

(** ** [str.strip()] *)

(** [str.isspace] on ASCII: [\t\n\v\f\r], the separators [\x1c-\x1f]
    and the space. *)
Definition py_space (c : ascii) : bool :=
  let n := nat_of_ascii c in is_space c || ((28 <=? n)%nat && (n <=? 31)%nat).

Fixpoint lstrip (s : string) : string :=
  match s with
  | EmptyString => EmptyString
  | String c s' => if py_space c then lstrip s' else s
  end.

Definition str_rev (s : string) : string :=
  string_of_list_ascii (rev (list_ascii_of_string s)).

(** [str.strip()] *)
Definition strip (s : string) : string := str_rev (lstrip (str_rev (lstrip s))).

(** ** [int.to_bytes] and [int.from_bytes] *)

Fixpoint le_split (n : nat) (z : Z) : list Z :=
  match n with
  | O => []
  | S n' => z mod 256 :: le_split n' (z / 256)
  end.

Fixpoint from_bytes_le (l : list Z) : Z :=
  match l with
  | [] => 0
  | b :: l' => b + 256 * from_bytes_le l'
  end.

(** [n.to_bytes(len, byteorder="little")]; [None] is the [OverflowError]
    raised when [n] is negative or does not fit. *)
Definition to_bytes_le (z : Z) (len : nat) : option (list Z) :=
  if (0 <=? z) && (z <? 256 ^ Z.of_nat len) then Some (le_split len z) else None.

(** [n.to_bytes(len, "big")] *)
Definition to_bytes_be (z : Z) (len : nat) : option (list Z) :=
  (@rev Z) <$> to_bytes_le z len.

(** ** Lemmas *)

Lemma hex_digit_val (n : Z) :
  0 <= n < 16 -> digit_val (hex_digit n) = Some n.
Proof.
  intros Hn. replace n with (Z.of_nat (Z.to_nat n)) by lia.
  assert (Hk : (Z.to_nat n < 16)%nat) by lia.
  generalize (Z.to_nat n) Hk. clear. intros k Hk.
  do 16 (destruct k as [|k]; [reflexivity|]). lia.
Qed.

Lemma hex_digit_not_space (n : Z) :
  0 <= n < 16 -> is_space (hex_digit n) = false.
Proof.
  intros Hn. replace n with (Z.of_nat (Z.to_nat n)) by lia.
  assert (Hk : (Z.to_nat n < 16)%nat) by lia.
  generalize (Z.to_nat n) Hk. clear. intros k Hk.
  do 16 (destruct k as [|k]; [reflexivity|]). lia.
Qed.

Lemma hex_digit_lower (n : Z) :
  0 <= n < 16 -> ascii_lower (hex_digit n) = hex_digit n.
Proof.
  intros Hn. replace n with (Z.of_nat (Z.to_nat n)) by lia.
  assert (Hk : (Z.to_nat n < 16)%nat) by lia.
  generalize (Z.to_nat n) Hk. clear. intros k Hk.
  do 16 (destruct k as [|k]; [reflexivity|]). lia.
Qed.

Lemma byte_digits (b : Z) :
  byte_ok b -> 0 <= b / 16 < 16 /\ 0 <= b mod 16 < 16 /\ 16 * (b / 16) + b mod 16 = b.
Proof.
  unfold byte_ok. intros Hb.
  pose proof (Z.div_mod b 16 ltac:(lia)). pose proof (Z.mod_pos_bound b 16 ltac:(lia)). lia.
Qed.

(** [bytes.fromhex(b.hex()) == b]. *)
Lemma fromhex_hex (l : list Z) :
  Forall byte_ok l -> fromhex (hex l) = Some l.
Proof.
  induction 1 as [|b l Hb Hl IH]; [done|].
  destruct (byte_digits b Hb) as (Hhi & Hlo & Heq).
  simpl. rewrite (hex_digit_not_space _ Hhi), (hex_digit_val _ Hhi), (hex_digit_val _ Hlo).
  rewrite IH, Heq. done.
Qed.

(** [b.hex()] has two characters per byte. *)
Lemma hex_length (l : list Z) : String.length (hex l) = (2 * List.length l)%nat.
Proof. induction l as [|b l IH]; simpl; [done|]. rewrite IH. lia. Qed.

(** [b.hex()] is already lower case, so keys derived from it are stable
    under the [.lower()] applied to names and lookups. *)
Lemma hex_lower (l : list Z) : Forall byte_ok l -> str_lower (hex l) = hex l.
Proof.
  induction 1 as [|b l Hb Hl IH]; [done|].
  destruct (byte_digits b Hb) as (Hhi & Hlo & _).
  simpl. by rewrite (hex_digit_lower _ Hhi), (hex_digit_lower _ Hlo), IH.
Qed.

Lemma le_split_length n z : List.length (le_split n z) = n.
Proof. revert z; induction n; intros z; simpl; auto. Qed.

Lemma le_split_bytes n z : Forall byte_ok (le_split n z).
Proof.
  revert z; induction n; intros z; simpl; constructor; auto.
  unfold byte_ok. pose proof (Z.mod_pos_bound z 256). lia.
Qed.

Lemma from_bytes_le_split n z :
  from_bytes_le (le_split n z) = z mod 256 ^ Z.of_nat n.
Proof.
  revert z; induction n as [|n IH]; intros z; simpl le_split; simpl from_bytes_le.
  - rewrite Z.pow_0_r, Z.mod_1_r. done.
  - rewrite IH, Nat2Z.inj_succ, Z.pow_succ_r by lia.
    rewrite Z.mul_comm, Z.rem_mul_r by lia. lia.
Qed.

Lemma from_bytes_le_bound (l : list Z) :
  Forall byte_ok l -> 0 <= from_bytes_le l < 256 ^ Z.of_nat (List.length l).
Proof.
  induction 1 as [|b l Hb Hl IH]; simpl; [lia|].
  rewrite Nat2Z.inj_succ, Z.pow_succ_r by lia. unfold byte_ok in Hb. nia.
Qed.

Lemma le_split_from_bytes (l : list Z) :
  Forall byte_ok l -> le_split (List.length l) (from_bytes_le l) = l.
Proof.
  induction 1 as [|b l Hb Hl IH]; [done|]. simpl. unfold byte_ok in Hb.
  pose proof (from_bytes_le_bound l Hl).
  f_equal.
  - rewrite Z.mul_comm, Z.mod_add by lia. apply Z.mod_small. lia.
  - rewrite Z.mul_comm, Z.div_add by lia. rewrite Z.div_small by lia.
    simpl. done.
Qed.

(** [to_bytes] raises [OverflowError] exactly on the integers that
    are negative or do not fit in [len] bytes; otherwise it gives [len]
    bytes that [int.from_bytes] reads back. *)
Theorem to_bytes_le_spec (z : Z) (len : nat) :
  match to_bytes_le z len with
  | Some l => 0 <= z < 256 ^ Z.of_nat len /\ List.length l = len /\
              Forall byte_ok l /\ from_bytes_le l = z
  | None => z < 0 \/ 256 ^ Z.of_nat len <= z
  end.
Proof.
  unfold to_bytes_le.
  destruct (Z.leb_spec 0 z), (Z.ltb_spec z (256 ^ Z.of_nat len)); simpl; try lia.
  split; [lia|]. split; [apply le_split_length|]. split; [apply le_split_bytes|].
  rewrite from_bytes_le_split. apply Z.mod_small. lia.
Qed.

End Bytes.

#[export] Hint Resolve Bytes.le_split_bytes Bytes.le_split_length : registry.
