(* ===== verification/Address.v ===== *)
(** * Address derivation: [Utils.build_cf_address] ([src/backend/utils.py])

    An address is the base58 encoding of [version (1 byte, big endian) ++
    net_id (8 bytes, little endian) ++ sign_id (4 bytes, little endian) ++
    public_hash ++ sha3_256(of all that)].  SHA3-256 comes from [hashlib]
    and is an interface here ([Sha3], with the length of its digest); the
    encoding is [base58.b58encode] of the [base58] package, modelled from
    its definition: leading zero bytes become ['1']s, the rest is the
    big-endian integer written in base 58.  [b58decode] is its inverse
    from the same package, used to state the round trip. *)

From S2P Require Import Prelude Bytes.
Import Bytes.

Module Address.
Local Open Scope Z_scope.

(** ** Positional notation *)

(** The digits of [n] in base [b], least significant first:
    [while n: n, d = divmod(n, b)]; [fuel] bounds the loop. *)
Fixpoint digits_rev (b : Z) (fuel : nat) (n : Z) : list Z :=
  match fuel with
  | O => []
  | S f => if n <=? 0 then [] else n mod b :: digits_rev b f (n / b)
  end.

(** The value of digits given least significant first. *)
Fixpoint of_digits_rev (b : Z) (ds : list Z) : Z :=
  match ds with
  | [] => 0
  | d :: ds' => d + b * of_digits_rev b ds'
  end.

(** Enough iterations of the [divmod] loop for [n] in any base [>= 2]. *)
Definition fuel_of (n : Z) : nat := Z.to_nat (Z.log2 n + 1).

(** [int.from_bytes(v, "big")] *)
Definition from_bytes_be (l : list Z) : Z := of_digits_rev 256 (rev l).

(** ** [base58.b58encode] and [base58.b58decode] *)

Definition b58_alphabet : string :=
  "123456789ABCDEFGHJKLMNPQRSTUVWXYZabcdefghijkmnopqrstuvwxyz".

(** [alphabet[d]]; the encoder only asks for [d = n mod 58], so the
    default is never taken ([b58_val_char]). *)
Definition b58_char (d : Z) : ascii :=
  match String.get (Z.to_nat d) b58_alphabet with Some c => c | None => "1"%char end.

Fixpoint index_of (c : ascii) (s : string) : option nat :=
  match s with
  | EmptyString => None
  | String c' s' => if decide (c = c') then Some O else S <$> index_of c s'
  end.

(** [alphabet.index(c)]; [None] is the [ValueError] of a foreign character. *)
Definition b58_val (c : ascii) : option Z := Z.of_nat <$> index_of c b58_alphabet.

Fixpoint b58_vals (cs : list ascii) : option (list Z) :=
  match cs with
  | [] => Some []
  | c :: cs' => d ← b58_val c; ds ← b58_vals cs'; Some (d :: ds)
  end.

(** [v.lstrip(b"\0")]: how many zero bytes were stripped, and the rest. *)
Fixpoint lstrip_zeros (l : list Z) : nat * list Z :=
  match l with
  | 0 :: l' => let '(z, r) := lstrip_zeros l' in (S z, r)
  | _ => (O, l)
  end.

(** [v.lstrip(alphabet[0:1])] *)
Fixpoint lstrip_ones (l : list ascii) : nat * list ascii :=
  match l with
  | c :: l' => if decide (c = "1"%char) then let '(z, r) := lstrip_ones l' in (S z, r)
               else (O, l)
  | [] => (O, [])
  end.

(** [b58encode(v)]: one ['1'] per leading zero byte, then
    [b58encode_int(int.from_bytes(v, "big"), default_one=False)], whose
    loop prepends [alphabet[idx]]: most significant digit first. *)
Definition b58encode (v : list Z) : string :=
  let '(z, v') := lstrip_zeros v in
  let acc := from_bytes_be v' in
  string_of_list_ascii (repeat "1"%char z ++ rev (map b58_char (digits_rev 58 (fuel_of acc) acc))).

(** [b58decode(v)]: one zero byte per leading ['1'], then the integer of
    the remaining digits written in big-endian bytes. *)
Definition b58decode (s : string) : option (list Z) :=
  let '(z, s') := lstrip_ones (list_ascii_of_string s) in
  ds ← b58_vals s';
  let acc := of_digits_rev 58 (rev ds) in
  Some (repeat 0 z ++ rev (digits_rev 256 (fuel_of acc) acc)).

(** ** The addresses *)

(** What the code needs of [hashlib.sha3_256().digest()]: 32 bytes. *)
Class Sha3 := {
  sha3_256 : list Z -> list Z;
  sha3_256_length l : List.length (sha3_256 l) = 32%nat;
  sha3_256_bytes l : Forall byte_ok (sha3_256 l)
}.

Section Addresses.
Context `{Sha3}.

(** [Utils.build_cf_address(version, net_id, sign_id, public_hash)];
    [None] is the [OverflowError] of a [to_bytes] that does not fit. *)
Definition build_cf_address (version net_id sign_id : Z) (public_hash : list Z) : option string :=
  net_id_bytes ← to_bytes_le net_id 8;
  sign_id_bytes ← to_bytes_le sign_id 4;
  version_bytes ← to_bytes_be version 1;
  let raw_address := version_bytes ++ net_id_bytes ++ sign_id_bytes ++ public_hash in
  Some (b58encode (raw_address ++ sha3_256 raw_address)).

End Addresses.

(** The bytes [build_cf_address] hashes and encodes, for arguments in
    range: [version], [net_id] in 8 and [sign_id] in 4 little-endian
    bytes, then the public hash. *)
Definition cf_raw (version net_id sign_id : Z) (public_hash : list Z) : list Z :=
  [version] ++ le_split 8 net_id ++ le_split 4 sign_id ++ public_hash.

(** The ranges in which no [to_bytes] raises. *)
Definition cf_in_range (version net_id sign_id : Z) : Prop :=
  0 <= version < 256 /\ 0 <= net_id < 256 ^ 8 /\ 0 <= sign_id < 256 ^ 4.

(** ** Concrete inputs for the witnesses *)

(** A digest function of the right shape (32 zero bytes): the theorems
    hold for every [Sha3]; this one only lets the witnesses compute. *)
#[refine] Instance demo_sha3 : Sha3 := {| sha3_256 := λ _, repeat 0 32 |}.
Proof.
  - done.
  - intros _. repeat constructor; unfold byte_ok; lia.
Defined.

(** ** Lemmas on positional notation *)

Lemma last_cons_Some {A} (x : A) l : exists y, last (x :: l) = Some y.
Proof. revert x. induction l as [|y l IH]; intros x; [by exists x|]. apply IH. Qed.

Section Digits.
Variable b : Z.
Hypothesis Hb : 2 <= b.

Lemma digits_rev_bounds f n : Forall (λ d, 0 <= d < b) (digits_rev b f n).
Proof.
  revert n. induction f as [|f IH]; intros n; simpl; [done|].
  destruct (n <=? 0); [done|]. constructor; [|apply IH].
  apply Z.mod_pos_bound. lia.
Qed.

Lemma of_digits_rev_digits f n :
  0 <= n < b ^ Z.of_nat f -> of_digits_rev b (digits_rev b f n) = n.
Proof.
  revert n. induction f as [|f IH]; intros n Hn; simpl.
  - rewrite Z.pow_0_r in Hn. lia.
  - destruct (Z.leb_spec n 0); simpl; [lia|].
    rewrite Nat2Z.inj_succ, Z.pow_succ_r in Hn by lia.
    rewrite IH; [|split; [apply Z.div_pos; lia|apply Z.div_lt_upper_bound; lia]].
    pose proof (Z.div_mod n b ltac:(lia)). lia.
Qed.

Lemma fuel_of_enough n : 0 <= n -> n < b ^ Z.of_nat (fuel_of n).
Proof.
  intros Hn. unfold fuel_of.
  destruct (Z.eq_dec n 0) as [->|Hne]; [simpl; lia|].
  pose proof (Z.log2_spec n ltac:(lia)) as [_ Hlt].
  pose proof (Z.log2_nonneg n).
  rewrite Z2Nat.id by lia.
  eapply Z.lt_le_trans; [exact Hlt|]. apply Z.pow_le_mono_l. lia.
Qed.

Lemma of_digits_rev_pos ds :
  Forall (λ d, 0 <= d < b) ds -> 0 <= of_digits_rev b ds < b ^ Z.of_nat (List.length ds).
Proof.
  induction 1 as [|d ds Hd _ IH]; simpl; [lia|].
  rewrite Nat2Z.inj_succ, Z.pow_succ_r by lia. nia.
Qed.

Lemma of_digits_rev_last_pos ds d :
  Forall (λ d, 0 <= d < b) ds -> last ds = Some d -> d <> 0 -> 0 < of_digits_rev b ds.
Proof.
  induction 1 as [|x ds Hx Hds IH]; intros Hl Hd; [done|].
  pose proof (of_digits_rev_pos ds Hds).
  destruct ds as [|y ds]; simpl in *.
  - injection Hl as ->. lia.
  - specialize (IH Hl Hd). nia.
Qed.

(** The digits of a number written without a leading zero are that
    writing. *)
Lemma digits_rev_of_digits f ds :
  Forall (λ d, 0 <= d < b) ds -> last ds <> Some 0 ->
  of_digits_rev b ds < b ^ Z.of_nat f -> digits_rev b f (of_digits_rev b ds) = ds.
Proof.
  revert f. induction ds as [|d ds IH]; intros f Hds Hlast Hlt.
  - by destruct f.
  - assert (Hp0 : 0 < of_digits_rev b (d :: ds)).
    { destruct (last_cons_Some d ds) as [l El].
      eapply of_digits_rev_last_pos; [done|exact El|congruence]. }
    apply Forall_cons in Hds as [Hd Hds].
    pose proof (of_digits_rev_pos ds Hds) as Hpos.
    simpl in Hp0. destruct f as [|f]; simpl in Hlt |- *.
    { rewrite Z.pow_0_r in Hlt. lia. }
    rewrite Nat2Z.inj_succ, Z.pow_succ_r in Hlt by lia.
    destruct (Z.leb_spec (d + b * of_digits_rev b ds) 0); [lia|].
    rewrite Z.mul_comm, Z.mod_add, Z.div_add, Z.mod_small, Z.div_small by lia.
    rewrite Z.add_0_l. f_equal.
    destruct ds as [|y ds]; [by destruct f|].
    apply IH; [done|done|nia].
Qed.

(** A positive number's most significant digit is not zero. *)
Lemma digits_rev_last f n :
  0 < n < b ^ Z.of_nat f -> exists ds d, digits_rev b f n = ds ++ [d] /\ d <> 0.
Proof.
  revert n. induction f as [|f IH]; intros n Hn.
  - rewrite Z.pow_0_r in Hn. lia.
  - simpl. destruct (Z.leb_spec n 0); [lia|].
    rewrite Nat2Z.inj_succ, Z.pow_succ_r in Hn by lia.
    destruct (Z.eq_dec (n / b) 0) as [Hz|Hz].
    + exists [], (n mod b). rewrite Hz. split; [by destruct f|].
      pose proof (Z.div_mod n b ltac:(lia)). lia.
    + destruct (IH (n / b)) as (ds & d & Hds & Hd).
      { split; [|apply Z.div_lt_upper_bound; lia].
        pose proof (Z.div_pos n b ltac:(lia) ltac:(lia)). lia. }
      exists (n mod b :: ds), d. rewrite Hds. done.
Qed.

End Digits.

(** ** Lemmas on the base58 alphabet and the strips *)

Lemma b58_val_char d : 0 <= d < 58 -> b58_val (b58_char d) = Some d.
Proof.
  intros Hd. replace d with (Z.of_nat (Z.to_nat d)) by lia.
  assert (Hk : (Z.to_nat d < 58)%nat) by lia.
  generalize (Z.to_nat d) Hk. clear. intros k Hk.
  do 58 (destruct k as [|k]; [reflexivity|]). lia.
Qed.

Lemma b58_char_one d : 0 <= d < 58 -> b58_char d = "1"%char -> d = 0.
Proof.
  intros Hd Hc. pose proof (b58_val_char d Hd) as Hv. rewrite Hc in Hv.
  vm_compute in Hv. congruence.
Qed.

Lemma b58_vals_chars ds :
  Forall (λ d, 0 <= d < 58) ds -> b58_vals (map b58_char ds) = Some ds.
Proof. induction 1 as [|d ds Hd _ IH]; simpl; [done|]. by rewrite b58_val_char, IH. Qed.

Lemma lstrip_zeros_spec l :
  let '(z, r) := lstrip_zeros l in l = repeat 0 z ++ r /\ head r <> Some 0.
Proof.
  induction l as [|x l IH]; simpl; [done|].
  destruct x as [|p|p]; simpl; [|done|done].
  destruct (lstrip_zeros l) as [z r]. destruct IH as [-> IH]. done.
Qed.

Lemma lstrip_ones_repeat z cs :
  head cs <> Some "1"%char -> lstrip_ones (repeat "1"%char z ++ cs) = (z, cs).
Proof.
  intros Hh. induction z as [|z IH]; simpl.
  - destruct cs as [|c cs]; simpl; [done|]. case_decide; [subst; done|done].
  - rewrite IH. done.
Qed.

Lemma list_ascii_of_string_of_list (l : list ascii) :
  list_ascii_of_string (string_of_list_ascii l) = l.
Proof. induction l as [|c l IH]; simpl; [done|]. by rewrite IH. Qed.

(** ** The round trip of base58 *)

Lemma b58decode_b58encode v : Forall byte_ok v -> b58decode (b58encode v) = Some v.
Proof.
  intros Hv. unfold b58encode.
  pose proof (lstrip_zeros_spec v) as Hs. destruct (lstrip_zeros v) as [z v'].
  destruct Hs as [-> Hh].
  apply Forall_app in Hv as [_ Hv'].
  assert (Hbytes : Forall (λ d, 0 <= d < 256) (rev v'))
    by (apply Forall_rev; eapply Forall_impl; [exact Hv'|]; unfold byte_ok; lia).
  set (acc := from_bytes_be v').
  assert (Hacc : 0 <= acc) by (apply (of_digits_rev_pos 256); [lia|done]).
  pose proof (fuel_of_enough 58 ltac:(lia) acc Hacc) as Hf58.
  pose proof (digits_rev_bounds 58 ltac:(lia) (fuel_of acc) acc) as Hdb.
  unfold b58decode. rewrite list_ascii_of_string_of_list, lstrip_ones_repeat; last first.
  { destruct (Z.eq_dec acc 0) as [H0|H0].
    - destruct (fuel_of acc); simpl; [done|]. by rewrite H0.
    - destruct (digits_rev_last 58 ltac:(lia) (fuel_of acc) acc) as (ds & d & Hds & Hd); [lia|].
      rewrite Hds, map_app, rev_app_distr. simpl. intros Hc. injection Hc as Hc.
      rewrite Hds in Hdb. apply Forall_app in Hdb as [_ Hdb]. apply Forall_cons in Hdb as [Hdb _].
      by apply Hd, b58_char_one. }
  rewrite <- map_rev, b58_vals_chars by (by apply Forall_rev). simpl.
  rewrite rev_involutive, of_digits_rev_digits by (lia || done).
  f_equal. f_equal.
  rewrite <- (rev_involutive v'). f_equal. unfold acc, from_bytes_be.
  apply digits_rev_of_digits; [lia|done| |by apply fuel_of_enough; [lia|]].
  destruct v' as [|x v'']; [done|]. simpl. rewrite last_snoc. simpl in Hh. congruence.
Qed.

(** ** Lemmas on [build_cf_address] *)

Section AddressProofs.
Context `{Sha3}.

Lemma build_cf_address_eq v n sid ph :
  build_cf_address v n sid ph =
  if bool_decide (cf_in_range v n sid)
  then Some (b58encode (cf_raw v n sid ph ++ sha3_256 (cf_raw v n sid ph)))
  else None.
Proof.
  unfold build_cf_address, to_bytes_be, to_bytes_le, cf_in_range, cf_raw.
  case_bool_decide as Hr.
  - destruct Hr as (Hv & Hn & Hs). simpl Z.of_nat.
    assert (E : forall z len, 0 <= z < 256 ^ Z.of_nat len ->
                              (0 <=? z) && (z <? 256 ^ Z.of_nat len) = true).
    { intros z len Hz. apply andb_true_iff. split; [apply Z.leb_le|apply Z.ltb_lt]; lia. }
    rewrite !E by (simpl; lia). simpl. rewrite Z.mod_small by lia. done.
  - destruct (Z.leb_spec 0 n), (Z.ltb_spec n (256 ^ Z.of_nat 8)); simpl; try done;
      destruct (Z.leb_spec 0 sid), (Z.ltb_spec sid (256 ^ Z.of_nat 4)); simpl; try done;
      destruct (Z.leb_spec 0 v), (Z.ltb_spec v (256 ^ Z.of_nat 1)); simpl; try done.
    exfalso. apply Hr. simpl in *. lia.
Qed.

Lemma cf_raw_bytes v n sid ph :
  0 <= v < 256 -> Forall byte_ok ph -> Forall byte_ok (cf_raw v n sid ph).
Proof.
  intros Hv Hph. unfold cf_raw.
  apply Forall_app_2; [repeat constructor; unfold byte_ok; lia|].
  apply Forall_app_2; [apply le_split_bytes|]. apply Forall_app_2; [apply le_split_bytes|done].
Qed.

Lemma cf_raw_length v n sid ph :
  List.length (cf_raw v n sid ph) = (13 + List.length ph)%nat.
Proof. unfold cf_raw. rewrite !length_app, !le_split_length. simpl. lia. Qed.

Lemma le_split_inj len z z' :
  0 <= z < 256 ^ Z.of_nat len -> 0 <= z' < 256 ^ Z.of_nat len ->
  le_split len z = le_split len z' -> z = z'.
Proof.
  intros Hz Hz' Heq. apply (f_equal from_bytes_le) in Heq.
  rewrite !from_bytes_le_split, !Z.mod_small in Heq by lia. done.
Qed.

Lemma cf_encoded_bytes v n sid ph :
  cf_in_range v n sid -> Forall byte_ok ph ->
  Forall byte_ok (cf_raw v n sid ph ++ sha3_256 (cf_raw v n sid ph)).
Proof.
  intros (Hv & _) Hph. apply Forall_app_2; [by apply cf_raw_bytes|apply sha3_256_bytes].
Qed.

(** ** Properties of address derivation *)

(** C31: an address decodes back to the raw bytes the code assembled
    followed by their SHA3-256 digest: the last 32 bytes are the checksum
    of the others. *)
Theorem build_cf_address_checksum v n sid ph a :
  Forall byte_ok ph -> build_cf_address v n sid ph = Some a ->
  b58decode a = Some (cf_raw v n sid ph ++ sha3_256 (cf_raw v n sid ph)).
Proof.
  intros Hph. rewrite build_cf_address_eq. case_bool_decide as Hr; [|done].
  intros [= <-]. by apply b58decode_b58encode, cf_encoded_bytes.
Qed.

(** C32: address derivation is injective: two derivations that give the
    same address had the same version, network id, signature type and
    public hash (changing any input changes the address). *)
Theorem build_cf_address_injective v n sid ph v' n' sid' ph' a :
  Forall byte_ok ph -> Forall byte_ok ph' ->
  build_cf_address v n sid ph = Some a -> build_cf_address v' n' sid' ph' = Some a ->
  v = v' /\ n = n' /\ sid = sid' /\ ph = ph'.
Proof.
  intros Hph Hph'. rewrite !build_cf_address_eq.
  case_bool_decide as Hr; [|done]. case_bool_decide as Hr'; [|done]. intros Ha Ha'.
  assert (Heq : cf_raw v n sid ph ++ sha3_256 (cf_raw v n sid ph) =
                cf_raw v' n' sid' ph' ++ sha3_256 (cf_raw v' n' sid' ph')).
  { apply (inj Some). rewrite <- (b58decode_b58encode (cf_raw v n sid ph ++ _)),
      <- (b58decode_b58encode (cf_raw v' n' sid' ph' ++ _)) by (by apply cf_encoded_bytes).
    congruence. }
  pose proof (f_equal List.length Heq) as Hl.
  rewrite !length_app, !cf_raw_length, !sha3_256_length in Hl.
  apply app_inj_1 in Heq as [Hraw _]; [|rewrite !cf_raw_length; lia].
  unfold cf_raw in Hraw. apply app_inj_1 in Hraw as [Hv Hraw]; [|done].
  injection Hv as ->.
  apply app_inj_1 in Hraw as [H8 Hraw]; [|by rewrite !le_split_length].
  apply app_inj_1 in Hraw as [H4 ->]; [|by rewrite !le_split_length].
  destruct Hr as (_ & Hn & Hs), Hr' as (_ & Hn' & Hs').
  apply le_split_inj in H8; [|simpl; lia..]. apply le_split_inj in H4; [|simpl; lia..].
  done.
Qed.

(** C33: [build_cf_address] raises [OverflowError] exactly when the
    version is not a byte, the network id does not fit in 64 bits or the
    signature type in 32 bits (negative values included). *)
Theorem build_cf_address_overflow v n sid ph :
  build_cf_address v n sid ph = None <->
  ~ (0 <= v < 256 /\ 0 <= n < 2 ^ 64 /\ 0 <= sid < 2 ^ 32).
Proof.
  rewrite build_cf_address_eq. unfold cf_in_range.
  replace (256 ^ 8) with (2 ^ 64) by reflexivity. replace (256 ^ 4) with (2 ^ 32) by reflexivity.
  case_bool_decide; split; done || tauto.
Qed.

End AddressProofs.

(** ** Witnesses *)

Lemma build_cf_address_checksum_witness :
  Forall byte_ok [171; 205] /\
  match build_cf_address 1 1 3 [171; 205] with
  | Some a => b58decode a = Some (cf_raw 1 1 3 [171; 205] ++ repeat 0 32)
  | None => False
  end.
Proof.
  assert (Hb : Forall byte_ok [171; 205]) by (repeat constructor; unfold byte_ok; lia).
  split; [exact Hb|].
  destruct (build_cf_address 1 1 3 [171; 205]) as [a|] eqn:E; [|vm_compute in E; discriminate].
  exact (build_cf_address_checksum 1 1 3 [171; 205] a Hb E).
Defined.

Lemma build_cf_address_injective_witness :
  match build_cf_address 1 1 3 [171; 205] with
  | Some a => 1 = 1 /\ 1 = 1 /\ 3 = 3 /\ [171; 205] = [171; 205]
  | None => False
  end.
Proof.
  assert (Hb : Forall byte_ok [171; 205]) by (repeat constructor; unfold byte_ok; lia).
  destruct (build_cf_address 1 1 3 [171; 205]) as [a|] eqn:E; [|vm_compute in E; discriminate].
  exact (build_cf_address_injective 1 1 3 [171; 205] 1 1 3 [171; 205] a Hb Hb E E).
Defined.

End Address.
