(* ===== verification/Model.v ===== *)
(** * The data model of [src/backend/gdb_ops.py]

    The JSON objects the registry stores and exchanges, as typed Rocq data:
    timestamps, name leases, the identity record written by
    [GlobalDBOps.write_gdb_data], the values of the GlobalDB group, the
    request payload ([data] of the handlers), the wallet-address parser the
    code imports from [pycfhelpers], and the JSON responses built by
    [response_helpers.send_json_response], with the messages of
    [handlers.py] and [Utils.validate_json_data]. *)

From S2P Require Import Prelude Bytes.

Module Model.
Local Open Scope Z_scope.

(** ** Timestamps *)

(** A timestamp string as found in a stored record.  The code writes
    [datetime.now(timezone.utc).isoformat()] ([Aware t]); a restored backup
    may also hold an ISO string without offset ([Naive t]: [fromisoformat]
    accepts it, but comparing it with an aware time raises [TypeError]) or
    an unparsable string ([Malformed s]: [fromisoformat] raises
    [ValueError]). *)
Inductive stamp :=
| Aware (t : Z)
| Naive (t : Z)
| Malformed (s : string).

#[export] Instance stamp_eq_dec : EqDecision stamp.
Proof. solve_decision. Defined.

(** [datetime.fromisoformat(s)]; [None] is the [ValueError]. *)
Definition fromisoformat (s : stamp) : option stamp :=
  match s with
  | Malformed _ => None
  | _ => Some s
  end.

(** [d + timedelta(microseconds=n)] on a parsed datetime. *)
Definition stamp_add (s : stamp) (n : Z) : stamp :=
  match s with
  | Aware t => Aware (t + n)
  | Naive t => Naive (t + n)
  | Malformed x => Malformed x
  end.

(** [d < current_time] with an aware [current_time]; [None] is the
    [TypeError] of comparing a naive with an aware datetime. *)
Definition stamp_lt (s : stamp) (now : Z) : option bool :=
  match s with
  | Aware t => Some (t <? now)
  | _ => None
  end.

(** ** Name leases: [registered_names[name]] *)

Record lease := Lease {
  created_at : stamp;
  expires_on : stamp;
  tx_hash : option string      (** [None] is JSON [null] *)
}.

#[export] Instance lease_eq_dec : EqDecision lease.
Proof. solve_decision. Defined.

(** ** Free-form JSON objects ([delegations], [messages]) *)

Inductive jval :=
| JNull
| JBool (b : bool)
| JNum (z : Z)
| JStr (s : string)
| JTime (t : stamp).

#[export] Instance jval_eq_dec : EqDecision jval.
Proof. solve_decision. Defined.

Abbreviation jobj := (gmap string jval).

(** ** The identity record *)

(** The object written by [write_gdb_data] (lines 71-102) plus the
    [modified_at] key added by [update_gdb_data_old_name]. *)
Record identity := Identity {
  public_hash : string;
  guuid : string;
  sign_id : Z;
  registered_names : gmap string lease;
  socials : gmap string string;          (** platform -> [profile] *)
  bio : string;
  dinosaur_wallets : gmap string string;
  nft_images : list string;
  profile_picture : string;
  delegations : list jobj;
  messages : list jobj;
  modified_at : option stamp
}.

#[export] Instance identity_eq_dec : EqDecision identity.
Proof. solve_decision. Defined.

(** A value of the GlobalDB group: a record that [json.loads] decodes, or
    bytes it rejects. *)
Inductive sval :=
| Stored (r : identity)
| Corrupt (raw : string).

#[export] Instance sval_eq_dec : EqDecision sval.
Proof. solve_decision. Defined.

Abbreviation store := (gmap string sval).
Abbreviation gprog := (prog sval).
Abbreviation gworld := (world sval).

(** ** The request payload [data] *)

(** Each field is [None] when the key is absent from the request. *)
Record payload := Payload {
  p_name : option string;
  p_wallet : option string;
  p_tx_hash : option (option string);         (** [Some None]: [null] *)
  p_guuid : option string;
  p_socials : option (gmap string (option string)); (** [details.get("profile")] *)
  p_nft_images : option (list string);
  p_bio : option string;
  p_profile_picture : option string;
  p_dinosaur_wallets : option (gmap string string);
  p_delegations : option (list jobj);
  p_messages : option (list jobj)
}.

(** A payload with only the given keys. *)
Definition empty_payload : payload :=
  Payload None None None None None None None None None None None.

(** [{"wallet": a}] *)
Definition wallet_payload (a : string) : payload :=
  Payload None (Some a) None None None None None None None None None.

(** [data.get("name", "")] *)
Definition get_name (d : payload) : string :=
  match p_name d with Some n => n | None => "" end.

(** ** The wallet-address parser of [pycfhelpers] *)

(** [parse_cf_v1_address] returns the tuple (version, net_id, sign_id,
    public_hash, summary_hash, control_hash) that [wallet_addr_to_dict]
    turns into a dict. *)
Record cf_address := CfAddress {
  addr_version : Z;
  addr_net_id : Z;
  addr_sign_id : Z;
  addr_public_hash : list Z;
  addr_summary_hash : list Z;
  addr_control_hash : list Z
}.

(** What the registry needs of the parser; [None] is the exception that
    [wallet_addr_to_dict] catches. *)
Class AddressParser := parse_cf_v1_address : string -> option cf_address.

(** What the lookups need of [Utils.generate_wallet_addresses(sign_id,
    public_hash)]: the network name to address map attached to answers
    (its construction is [Services.generate_wallet_addresses]).  The class
    is total: when the derivation raises, [gdb_lookup]'s [except] answers
    "Error fetching data for ..." (gdb_ops.py lines 294-297), a path
    the lookups leave out. *)
Class WalletDeriver := generate_wallet_addresses : Z -> string -> gmap string string.

(** ** Responses: [send_json_response(message, desc, status_code, response_data)] *)

Inductive status_msg := MsgOK | MsgNOK.

(** The messages [Utils.validate_json_data] returns ([utils.py] lines
    32-56). *)
Inductive verr :=
| VJsonDecode                     (** "Failed to decode JSON data!" *)
| VNoAction                       (** "Action is not provided!" *)
| VMissingName                    (** "Missing DNA name!" *)
| VInvalidName (n : string)       (** "Invalid DNA name: {name}. DNA name must be ..." *)
| VDisallowed (n : string)        (** "Invalid DNA name : {name}. Name is on disallowed list." *)
| VMissingWallet                  (** "Missing wallet address!" *)
| VInvalidWallet (a : string).    (** "Invalid wallet address: {address}" *)

(** The descriptions the handlers pass, one constructor per message
    template of [gdb_ops.py] and [handlers.py]. *)
Inductive desc :=
| DNameMissing                     (** "Name is missing from data!" *)
| DWalletParse                     (** "Failed to parse wallet address!" *)
| DAlreadyRegistered (n : string)  (** "You have already registered {name}, use update method!" *)
| DNameTaken (n : string)          (** "Name '{name}' is already taken!" *)
| DWritten                         (** "Data was written to GlobalDB!" *)
| DWriteFailed                     (** "Failed to write data to GlobalDB" *)
| DNoExisting (k : string)         (** "No existing data found for {public_hash}" *)
| DGuuidChange                     (** "Changing GUUID is not possible!" *)
| DUpdated (k : string)            (** "Updated {public_hash} in GlobalDB" *)
| DNoChanges                       (** "No changes detected, data was not updated." *)
| DUpdateFailed                    (** "Failed to update GlobalDB" *)
| DTelegramNotFound (l : string)   (** "Telegram username {lookup} not found" *)
| DOrderNotFound (l : string)      (** "Order hash {lookup} not found" *)
| DNameNotFound (l : string)       (** "Name or GUUID '{lookup}' not found" *)
| DNoWallet (l : string)           (** "No wallet address found for {lookup}" *)
| DFetchError (l : string)         (** "Error fetching data for {lookup}" *)
| DValidation (e : verr)           (** the message of [validate_json_data] *)
| DInvalidJSON                     (** "Invalid JSON data!" *)
| DInvalidMethod                   (** "Invalid request method!" *)
| DActionMissing                   (** "Action not provided" *)
| DInvalidAction                   (** "Invalid action" *)
| DProcessingError                 (** "Error while processing action" *)
| DMissingQuery                    (** "Missing or invalid query parameter!" *)
| DRequestFailed                   (** "Failed to process request!" *)
| DTxNotAccepted                   (** "Transaction not accepted!" *)
| DTxNotFound                      (** "Transaction not found!" *)
| DSystemExploded.                 (** "System exploded!" *)

(** A record as returned by a lookup: [guuid] deleted when present and
    non-empty, [wallet_addresses] attached. *)
Record view := View {
  v_record : identity;
  v_has_guuid : bool;
  v_wallet_addresses : gmap string string
}.

(** An entry of the [all_delegations] answer: [delegation.copy()] with
    [public_hash], [sign_id] and [registered_names] set. *)
Record enriched := Enriched {
  e_delegation : jobj;
  e_public_hash : string;
  e_sign_id : Z;
  e_registered_names : gmap string lease
}.

Inductive rdata :=
| RRecord (r : identity)
| RView (v : view)
| RNames (l : list string)
| RDelegations (l : list enriched).

Record response := Response {
  status_code : Z;
  message : option status_msg;
  description : option desc;
  response_data : option rdata
}.

(** [if response_data:] -- an empty list is falsy and left out. *)
Definition truthy (d : rdata) : bool :=
  match d with
  | RNames [] | RDelegations [] => false
  | _ => true
  end.

Definition send_json_response (m : option status_msg) (ds : option desc) (code : Z)
    (d : option rdata) : response :=
  Response code m ds (match d with Some x => if truthy x then Some x else None | None => None end).

(** The two shapes the handlers use. *)
Definition nok (ds : desc) : response := send_json_response (Some MsgNOK) (Some ds) (-1) None.
Definition ok (ds : desc) (d : rdata) : response := send_json_response (Some MsgOK) (Some ds) 0 (Some d).

(** A response reports success. *)
Definition is_ok (r : response) : bool := bool_decide (status_code r = 0).

End Model.
