(* ===== verification/Registry.v ===== *)
(** * The write path of [src/backend/gdb_ops.py]

    [GlobalDBOps._get_public_hash], [_is_name_taken], [_get_all_gdb_data],
    [write_gdb_data] (action "add") and [update_gdb_data_old_name] (action
    "update"), each a [prog] over the GlobalDB group, with the global name
    uniqueness invariant, its preservation by both handlers, and the
    behaviour of every branch: the errors, the creation of a record, the
    renewal of a lease, the field merges, the no-op update and the
    [guuid] guard. *)

From S2P Require Import Prelude Bytes Model.
Import Model.

Module Registry.
Local Open Scope Z_scope.

Section Registry.
Context {AP : AddressParser}.

(** ** Helpers *)

(** [Utils.wallet_addr_to_dict(data.get("wallet"))]: a missing wallet
    makes the parser raise, which the function turns into [None]. *)
Definition wallet_addr_to_dict (addr : option string) : option cf_address :=
  match addr with
  | Some a => parse_cf_v1_address a
  | None => None
  end.

(** [_get_public_hash(data)]: the hex public hash and the sign id. *)
Definition get_public_hash (d : payload) : option (string * Z) :=
  match wallet_addr_to_dict (p_wallet d) with
  | Some w => Some (Bytes.hex (addr_public_hash w), addr_sign_id w)
  | None => None
  end.

(** [if not public_hash]: [None] and the empty string are falsy. *)
Definition truthy_hash (o : option (string * Z)) : option (string * Z) :=
  match o with
  | Some (ph, sid) => if decide (ph = "") then None else Some (ph, sid)
  | None => None
  end.

(** [_get_all_gdb_data()]: every decodable value, by key; undecodable
    values are logged and skipped. *)
Fixpoint decode_all (l : list (string * sval)) : list (string * identity) :=
  match l with
  | [] => []
  | (k, Stored r) :: l' => (k, r) :: decode_all l'
  | (k, Corrupt _) :: l' => decode_all l'
  end.

Definition get_all_gdb_data : gprog (list (string * identity)) :=
  l ← gdb_items; mret (decode_all l).

(** [_is_name_taken(name, all_data, exclude_hash)] *)
Definition is_name_taken (name : string) (all : list (string * identity))
    (exclude_hash : string) : bool :=
  existsb (fun '(k, v) =>
             if decide (k = exclude_hash) then false
             else bool_decide (is_Some (registered_names v !! name))) all.

(** The default sub-structures of a new record. *)
Definition default_socials : gmap string string :=
  {[ "telegram" := ""; "x" := ""; "facebook" := ""; "instagram" := "" ]}.

Definition default_dinosaur_wallets : gmap string string :=
  {[ "BTC" := ""; "ETH" := ""; "SOL" := ""; "QEVM" := "" ]}.

(** [data_to_write] of [write_gdb_data]: [t1] and [t2] are the two calls
    of [datetime.now] for [created_at] and [expires_on]. *)
Definition new_record (ph uuid : string) (sid : Z) (name : string) (t1 t2 : Z)
    (tx : option string) : identity :=
  {| public_hash := ph;
     guuid := str_lower uuid;
     sign_id := sid;
     registered_names := {[ name := Lease (Aware t1) (Aware (t2 + LEASE)) tx ]};
     socials := default_socials;
     bio := "";
     dinosaur_wallets := default_dinosaur_wallets;
     nft_images := [];
     profile_picture := "";
     delegations := [];
     messages := [];
     modified_at := None |}.

(** ** [update_gdb_data_old_name] *)

(** [data.get("tx_hash", "")] *)
Definition new_tx (d : payload) : option string :=
  match p_tx_hash d with Some t => t | None => Some "" end.

(** Renewal of a name the caller owns (lines 141-146): the new expiry is
    the old one plus 365 days; [None] is the [ValueError] of
    [fromisoformat]. *)
Definition renew_lease (l : lease) (tx : option (option string)) : option lease :=
  exp ← fromisoformat (expires_on l);
  Some {| created_at := created_at l;
          expires_on := stamp_add exp LEASE;
          tx_hash := match tx with Some t => t | None => tx_hash l end |}.

(** The name step (lines 131-152), once the name is known to be free:
    renew the caller's lease or add a new one. *)
Definition merge_name (name : string) (d : payload) (names : gmap string lease)
    : gprog (option (gmap string lease)) :=
  match names !! name with
  | Some l => mret ((λ l', <[name := l']> names) <$> renew_lease l (p_tx_hash d))
  | None =>
      t1 ← now_utc; t2 ← now_utc;
      mret (Some (<[name := Lease (Aware t1) (Aware (t2 + LEASE)) (new_tx d)]> names))
  end.

(** [existing_data["socials"]]: [setdefault(platform, {"profile": ""})],
    then the profile if the request gives one. *)
Definition merge_socials (old : gmap string string) (upd : gmap string (option string))
    : gmap string string :=
  merge (λ o n, match n with
                | Some (Some p) => Some p
                | Some None => Some (default "" o)
                | None => o
                end) old upd.

(** [obj.setdefault(key, datetime.now(timezone.utc).isoformat())] for
    every object of the request, in order; [now] is evaluated for each. *)
Fixpoint stamp_objs (key : string) (l : list jobj) : gprog (list jobj) :=
  match l with
  | [] => mret []
  | o :: l' =>
      t ← now_utc;
      rest ← stamp_objs key l';
      mret ((if decide (is_Some (o !! key)) then o else <[key := JTime (Aware t)]> o) :: rest)
  end.

(** [delegations] and [messages]: an empty list clears, otherwise the
    stamped objects are appended. *)
Definition merge_objs (key : string) (old : list jobj) (upd : option (list jobj))
    : gprog (list jobj) :=
  match upd with
  | None => mret old
  | Some [] => mret []
  | Some l => l' ← stamp_objs key l; mret (old ++ l')
  end.

(** The field merges of lines 154-192, applied to a record whose names
    are already merged. *)
Definition merge_fields (d : payload) (e : identity) (names : gmap string lease)
    : gprog identity :=
  dels ← merge_objs "delegation_time" (delegations e) (p_delegations d);
  msgs ← merge_objs "timestamp" (messages e) (p_messages d);
  mret {| public_hash := public_hash e;
          guuid := guuid e;
          sign_id := sign_id e;
          registered_names := names;
          socials := match p_socials d with
                     | Some u => merge_socials (socials e) u
                     | None => socials e
                     end;
          bio := default (bio e) (p_bio d);
          dinosaur_wallets := match p_dinosaur_wallets d with
                              | Some u => u ∪ dinosaur_wallets e
                              | None => dinosaur_wallets e
                              end;
          nft_images := match p_nft_images d with
                        | Some l => nft_images e ++ l
                        | None => nft_images e
                        end;
          profile_picture := default (profile_picture e) (p_profile_picture d);
          delegations := dels;
          messages := msgs;
          modified_at := modified_at e |}.

Definition set_modified_at (e : identity) (t : Z) : identity :=
  {| public_hash := public_hash e; guuid := guuid e; sign_id := sign_id e;
     registered_names := registered_names e; socials := socials e; bio := bio e;
     dinosaur_wallets := dinosaur_wallets e; nft_images := nft_images e;
     profile_picture := profile_picture e; delegations := delegations e;
     messages := messages e; modified_at := Some (Aware t) |}.

Definition set_public_hash (e : identity) (ph : string) : identity :=
  {| public_hash := ph; guuid := guuid e; sign_id := sign_id e;
     registered_names := registered_names e; socials := socials e; bio := bio e;
     dinosaur_wallets := dinosaur_wallets e; nft_images := nft_images e;
     profile_picture := profile_picture e; delegations := delegations e;
     messages := messages e; modified_at := modified_at e |}.

(** [if data.get("guuid"):] *)
Definition guuid_given (d : payload) : bool :=
  match p_guuid d with
  | Some g => negb (bool_decide (g = ""))
  | None => false
  end.

(** The body of [update_gdb_data_old_name] once the record [e] stored
    under [ph] is decoded (lines 126-202). *)
Definition update_record (d : payload) (ph : string) (e : identity) : gprog response :=
  if guuid_given d then mret (nok DGuuidChange) else
  let new_name := str_lower (get_name d) in
  names ←
    (if decide (new_name = "") then mret (inr (registered_names e))
     else all ← get_all_gdb_data;
          if is_name_taken new_name all ph then mret (inl (Some (DNameTaken new_name)))
          else r ← merge_name new_name d (registered_names e);
               mret (match r with Some m => inr m | None => inl None end));
  match names with
  | inl (Some err) => mret (nok err)
  | inl None => mret (nok DUpdateFailed)
  | inr m =>
      e' ← merge_fields d e m;
      if decide (e' = e) then mret (ok DNoChanges (RRecord e))
      else t ← now_utc;
           let e'' := set_modified_at e' t in
           gdb_set ph (Stored e'');;
           mret (ok (DUpdated ph) (RRecord (set_public_hash e'' ph)))
  end.

(** [update_gdb_data_old_name(data)] *)
Definition update_gdb_data_old_name (d : payload) : gprog response :=
  match truthy_hash (get_public_hash d) with
  | None => mret (nok DWalletParse)
  | Some (ph, _) =>
      existing ← gdb_get ph;
      match existing with
      | None => mret (nok (DNoExisting ph))
      | Some (Corrupt raw) =>
          (* empty bytes are falsy; other undecodable bytes raise in json.loads *)
          if decide (raw = "") then mret (nok (DNoExisting ph)) else mret (nok DUpdateFailed)
      | Some (Stored e) => update_record d ph e
      end
  end.

(** ** [write_gdb_data] *)

(** Lines 67-108: the name is free of other owners and no record exists. *)
Definition create_record (name : string) (tx : option string) (ph : string) (sid : Z)
    (all : list (string * identity)) : gprog response :=
  if is_name_taken name all ph then mret (nok (DNameTaken name))
  else u ← fresh_uuid; t1 ← now_utc; t2 ← now_utc;
       let r := new_record ph u sid name t1 t2 tx in
       gdb_set ph (Stored r);;
       mret (ok DWritten (RRecord r)).

(** [write_gdb_data(data)] *)
Definition write_gdb_data (d : payload) : gprog response :=
  let name := str_lower (get_name d) in
  let tx := match p_tx_hash d with Some t => t | None => None end in
  if decide (name = "") then mret (nok DNameMissing) else
  match truthy_hash (get_public_hash d) with
  | None => mret (nok DWalletParse)
  | Some (ph, sid) =>
      existing ← gdb_get ph;
      all ← get_all_gdb_data;
      match existing with
      | Some (Stored e) =>
          if decide (is_Some (registered_names e !! name))
          then mret (nok (DAlreadyRegistered name))
          else update_gdb_data_old_name d
      | Some (Corrupt raw) =>
          if decide (raw = "") then create_record name tx ph sid all
          else mret (nok DWriteFailed)
      | None => create_record name tx ph sid all
      end
  end.

(** ** The handlers at a fixed clock *)

(** In a sequential run every [datetime.now] of a handler returns the same
    time [t]; these are the values the effectful merges then compute. *)
Definition stamp_with (key : string) (t : Z) (l : list jobj) : list jobj :=
  map (λ o, if decide (is_Some (o !! key)) then o else <[key := JTime (Aware t)]> o) l.

Definition merge_objs_at (key : string) (t : Z) (old : list jobj) (upd : option (list jobj))
    : list jobj :=
  match upd with
  | None => old
  | Some [] => []
  | Some l => old ++ stamp_with key t l
  end.

Definition merge_name_at (name : string) (d : payload) (t : Z) (names : gmap string lease)
    : option (gmap string lease) :=
  match names !! name with
  | Some l => (λ l', <[name := l']> names) <$> renew_lease l (p_tx_hash d)
  | None => Some (<[name := Lease (Aware t) (Aware (t + LEASE)) (new_tx d)]> names)
  end.

Definition merge_fields_at (d : payload) (t : Z) (e : identity) (names : gmap string lease)
    : identity :=
  {| public_hash := public_hash e;
     guuid := guuid e;
     sign_id := sign_id e;
     registered_names := names;
     socials := match p_socials d with
                | Some u => merge_socials (socials e) u
                | None => socials e
                end;
     bio := default (bio e) (p_bio d);
     dinosaur_wallets := match p_dinosaur_wallets d with
                         | Some u => u ∪ dinosaur_wallets e
                         | None => dinosaur_wallets e
                         end;
     nft_images := match p_nft_images d with
                   | Some l => nft_images e ++ l
                   | None => nft_images e
                   end;
     profile_picture := default (profile_picture e) (p_profile_picture d);
     delegations := merge_objs_at "delegation_time" t (delegations e) (p_delegations d);
     messages := merge_objs_at "timestamp" t (messages e) (p_messages d);
     modified_at := modified_at e |}.

(** The name step and the whole of [update_record] at a fixed store [s]
    and clock [t]: the response, and the record written (if any). *)
Definition name_step_at (d : payload) (ph : string) (e : identity) (s : store) (t : Z)
    : option desc + gmap string lease :=
  let n := str_lower (get_name d) in
  if decide (n = "") then inr (registered_names e)
  else if is_name_taken n (decode_all (map_to_list s)) ph then inl (Some (DNameTaken n))
  else match merge_name_at n d t (registered_names e) with
       | Some m => inr m
       | None => inl None
       end.

Definition update_record_at (d : payload) (ph : string) (e : identity) (s : store) (t : Z)
    : response * option identity :=
  if guuid_given d then (nok DGuuidChange, None) else
  match name_step_at d ph e s t with
  | inl (Some err) => (nok err, None)
  | inl None => (nok DUpdateFailed, None)
  | inr m =>
      let e' := merge_fields_at d t e m in
      if decide (e' = e) then (ok DNoChanges (RRecord e), None)
      else let e'' := set_modified_at e' t in
           (ok (DUpdated ph) (RRecord (set_public_hash e'' ph)), Some e'')
  end.

(** Writing back the record, if there is one to write. *)
Definition commit (w : gworld) (ph : string) (o : option identity) : gworld :=
  match o with
  | Some e => with_store w (<[ph := Stored e]> (w_store w))
  | None => w
  end.

(** ** The invariant *)

(** Global name uniqueness: a name is a key of the [registered_names] of
    at most one record of the store. *)
Definition names_unique (s : store) : Prop :=
  forall k1 k2 r1 r2 n,
    s !! k1 = Some (Stored r1) -> s !! k2 = Some (Stored r2) ->
    is_Some (registered_names r1 !! n) -> is_Some (registered_names r2 !! n) ->
    k1 = k2.

(** No record other than the one under [ph] holds a name of [m]. *)
Definition claims_free (s : store) (ph : string) (m : gmap string lease) : Prop :=
  forall n k r, is_Some (m !! n) -> s !! k = Some (Stored r) -> k <> ph ->
                registered_names r !! n = None.

(** Records keep the key they are stored under in [public_hash]. *)
Definition keys_consistent (s : store) : Prop :=
  forall k r, s !! k = Some (Stored r) -> public_hash r = k.

(** Every stored name is lower case (the handlers lower-case requests). *)
Definition names_lower (s : store) : Prop :=
  forall k r n, s !! k = Some (Stored r) -> is_Some (registered_names r !! n) ->
                str_lower n = n.

(** The shape the write path keeps: lower-case names, records under their
    own public hash. *)
Definition store_wf (s : store) : Prop := names_lower s /\ keys_consistent s.

(** A decision procedure for [store_wf]. *)
Definition store_wfb (s : store) : bool :=
  forallb (λ '(k, r),
    bool_decide (public_hash r = k) &&
    forallb (λ n, bool_decide (str_lower n = n)) (map fst (map_to_list (registered_names r))))
    (decode_all (map_to_list s)).

(** A decision procedure for [names_unique], to check concrete stores. *)
Definition names_uniqueb (s : store) : bool :=
  let l := decode_all (map_to_list s) in
  forallb (λ '(k1, r1),
    forallb (λ '(k2, r2),
      bool_decide (k1 = k2) ||
      forallb (λ n, bool_decide (registered_names r2 !! n = None))
              (map fst (map_to_list (registered_names r1)))) l) l.

(** The record under [k] holds the name [n]. *)
Definition holds_name (s : store) (k n : string) : bool :=
  match s !! k with
  | Some (Stored r) => bool_decide (is_Some (registered_names r !! n))
  | _ => false
  end.

(** A request that asks for nothing the record does not already have:
    no name, no [guuid], and every given field equal to the stored one
    (for the merged maps: already present with that value; for the
    appended lists: nothing to append). *)
Definition noop_payload (d : payload) (e : identity) : Prop :=
  str_lower (get_name d) = "" /\
  guuid_given d = false /\
  (forall b, p_bio d = Some b -> b = bio e) /\
  (forall p, p_profile_picture d = Some p -> p = profile_picture e) /\
  (forall u, p_socials d = Some u -> forall k o, u !! k = Some o ->
     match o with
     | Some p => socials e !! k = Some p
     | None => is_Some (socials e !! k)
     end) /\
  (forall u, p_dinosaur_wallets d = Some u -> u ⊆ dinosaur_wallets e) /\
  (forall l, p_nft_images d = Some l -> l = []) /\
  (p_delegations d = None \/ (p_delegations d = Some [] /\ delegations e = [])) /\
  (p_messages d = None \/ (p_messages d = Some [] /\ messages e = [])).

(** The fields the code never changes once a record exists. *)
Definition same_identity (r r' : identity) : Prop :=
  guuid r' = guuid r /\ public_hash r' = public_hash r /\ sign_id r' = sign_id r.

End Registry.

(** ** Concrete inputs for the witnesses *)

(** A parser that knows two wallets, with public hashes [ab cd] and
    [01 02]. *)
Definition demo_parser : AddressParser := λ s,
  if decide (s = "W1") then Some (CfAddress 1 1 3 [171; 205] [] [])
  else if decide (s = "W2") then Some (CfAddress 1 1 3 [1; 2] [] [])
  else None.

Definition demo_request (name wallet : string) : payload :=
  Payload (Some name) (Some wallet) None None None None None None None None None.

(** The record of "W1" after it registered "alice" at time 100. *)
Definition demo_alice : identity := new_record "abcd" (uuid_of 0) 3 "alice" 100 100 None.

(** The world after "W1" registered "alice" at time 100. *)
Definition demo_world : gworld :=
  snd (run (write_gdb_data (AP:=demo_parser) (demo_request "Alice" "W1")) (World ∅ 100 0)).

Section RegistryProofs.
Context {AP : AddressParser}.

(** ** Lemmas: the primitives of a run *)

Lemma run_get_all (w : gworld) :
  run get_all_gdb_data w = (decode_all (map_to_list (w_store w)), w).
Proof. reflexivity. Qed.

Lemma elem_of_decode_all (l : list (string * sval)) k r :
  (k, r) ∈ decode_all l <-> (k, Stored r) ∈ l.
Proof.
  induction l as [|[k' [r'|raw]] l IH]; simpl.
  - split; intros Hin; inversion Hin.
  - rewrite !elem_of_cons, IH. split; intros [Heq|Hin]; auto; left; congruence.
  - rewrite elem_of_cons, IH. split; [auto|]. intros [Heq|Hin]; [congruence|done].
Qed.

Lemma is_name_taken_false (n ex : string) (s : store) :
  is_name_taken n (decode_all (map_to_list s)) ex = false <->
  forall k r, s !! k = Some (Stored r) -> k <> ex -> registered_names r !! n = None.
Proof.
  unfold is_name_taken. rewrite <- not_true_iff_false, existsb_exists. split.
  - intros Hno k r Hk Hne. destruct (registered_names r !! n) eqn:Hn; [|done].
    exfalso. apply Hno. exists (k, r). split.
    + apply list_elem_of_In, elem_of_decode_all, elem_of_map_to_list. done.
    + rewrite decide_False by done. apply bool_decide_eq_true. eauto.
  - intros Hall [[k r] [Hin Htk]]. apply list_elem_of_In, elem_of_decode_all,
      elem_of_map_to_list in Hin.
    destruct (decide (k = ex)); [done|]. apply bool_decide_eq_true in Htk.
    rewrite (Hall k r) in Htk by done. by destruct Htk.
Qed.


Lemma run_stamp_objs key (l : list jobj) (w : gworld) :
  run (stamp_objs key l) w = (stamp_with key (w_clock w) l, w).
Proof.
  induction l as [|o l IH]; [done|]. simpl. rewrite ?run_bind, ?run_mbind, IH. done.
Qed.

Lemma run_merge_objs key old upd (w : gworld) :
  run (merge_objs key old upd) w = (merge_objs_at key (w_clock w) old upd, w).
Proof.
  destruct upd as [[|o l]|]; [done| |done].
  cbn -[stamp_objs]. rewrite run_mbind, run_stamp_objs. done.
Qed.

(** Refinement: at a fixed clock the effectful merge computes
    [merge_fields_at] and does not touch the store. *)
Lemma run_merge_fields d e names (w : gworld) :
  run (merge_fields d e names) w = (merge_fields_at d (w_clock w) e names, w).
Proof.
  unfold merge_fields. rewrite run_mbind, run_merge_objs, run_mbind, run_merge_objs. done.
Qed.

Lemma run_merge_name name d names (w : gworld) :
  run (merge_name name d names) w = (merge_name_at name d (w_clock w) names, w).
Proof. unfold merge_name, merge_name_at. by destruct (names !! name). Qed.

#[local] Hint Rewrite run_get_all run_stamp_objs run_merge_objs run_merge_fields
  run_merge_name : registry_rw.

Lemma run_update_record d ph e (w : gworld) :
  run (update_record d ph e) w =
  let '(r, o) := update_record_at d ph e (w_store w) (w_clock w) in (r, commit w ph o).
Proof.
  unfold update_record, update_record_at, name_step_at.
  destruct (guuid_given d); [done|].
  rewrite run_mbind.
  destruct (decide (str_lower (get_name d) = "")).
  - simpl. rewrite run_mbind, run_merge_fields.
    case_decide; [done|]. reflexivity.
  - rewrite run_mbind, run_get_all.
    destruct (is_name_taken _ _ _); [done|].
    rewrite run_mbind, run_merge_name.
    destruct (merge_name_at _ _ _ _); [|done].
    simpl. rewrite run_mbind, run_merge_fields. case_decide; [done|]. reflexivity.
Qed.

Lemma run_create_record name tx ph sid all (w : gworld) :
  run (create_record name tx ph sid all) w =
  if is_name_taken name all ph then (nok (DNameTaken name), w)
  else let r := new_record ph (uuid_of (w_next w)) sid name (w_clock w) (w_clock w) tx in
       (ok DWritten (RRecord r),
        World (<[ph := Stored r]> (w_store w)) (w_clock w) (N.succ (w_next w))).
Proof. unfold create_record. by destruct (is_name_taken _ _ _). Qed.

(** ** Lemmas: the invariant *)

Lemma names_unique_claims (s : store) ph e :
  names_unique s -> s !! ph = Some (Stored e) -> claims_free s ph (registered_names e).
Proof.
  intros U Hph n k r Hn Hk Hne. destruct (registered_names r !! n) eqn:E; [|done].
  exfalso. apply Hne. eapply U; eauto.
Qed.

Lemma names_unique_insert (s : store) ph e :
  names_unique s -> claims_free s ph (registered_names e) ->
  names_unique (<[ph := Stored e]> s).
Proof.
  intros U C k1 k2 r1 r2 n H1 H2 N1 N2.
  rewrite lookup_insert_dec in H1, H2.
  destruct (decide (ph = k1)), (decide (ph = k2)); simplify_eq; [done| | |].
  - rewrite (C n k2 r2 N1 H2) in N2 by done. by destruct N2.
  - rewrite (C n k1 r1 N2 H1) in N1 by done. by destruct N1.
  - eapply U; eauto.
Qed.

Lemma claims_free_insert (s : store) ph (m : gmap string lease) n l :
  claims_free s ph m ->
  (forall k r, s !! k = Some (Stored r) -> k <> ph -> registered_names r !! n = None) ->
  claims_free s ph (<[n := l]> m).
Proof.
  intros C Hn n' k r Hin Hk Hne. rewrite lookup_insert_dec in Hin.
  case_decide; subst; [by eapply Hn|by eapply C].
Qed.

Lemma merge_name_at_claims (s : store) ph n d t names m :
  claims_free s ph names ->
  (forall k r, s !! k = Some (Stored r) -> k <> ph -> registered_names r !! n = None) ->
  merge_name_at n d t names = Some m -> claims_free s ph m.
Proof.
  unfold merge_name_at. intros C Hn Hm.
  destruct (names !! n); [destruct (renew_lease _ _)|]; simplify_eq/=;
    by apply claims_free_insert.
Qed.

Lemma update_record_at_claims (s : store) d ph e t r e'' :
  names_unique s -> s !! ph = Some (Stored e) ->
  update_record_at d ph e s t = (r, Some e'') ->
  claims_free s ph (registered_names e'').
Proof.
  intros U Hph. unfold update_record_at, name_step_at.
  destruct (guuid_given d); [done|].
  destruct (decide (str_lower (get_name d) = "")) as [_|Hne].
  - case_decide; [done|]. intros [= _ <-]. simpl. by eapply names_unique_claims.
  - destruct (is_name_taken _ _ _) eqn:Ht; [done|].
    destruct (merge_name_at _ _ _ _) as [m|] eqn:Hm; [|done].
    case_decide; [done|]. intros [= _ <-]. simpl.
    eapply merge_name_at_claims; [by eapply names_unique_claims| |done].
    by apply is_name_taken_false.
Qed.

Lemma new_record_claims (s : store) n ph u sid t1 t2 tx :
  is_name_taken n (decode_all (map_to_list s)) ph = false ->
  claims_free s ph (registered_names (new_record ph u sid n t1 t2 tx)).
Proof.
  intros Ht n' k r Hin Hk Hne. simpl in Hin.
  rewrite lookup_singleton in Hin. case_decide; [subst|by destruct Hin].
  by eapply is_name_taken_false.
Qed.

Lemma in_decode_all_store (s : store) k r :
  s !! k = Some (Stored r) -> In (k, r) (decode_all (map_to_list s)).
Proof. intros Hk. apply list_elem_of_In, elem_of_decode_all, elem_of_map_to_list. done. Qed.

Lemma in_decode_all_lookup (s : store) k v :
  In (k, v) (decode_all (map_to_list s)) -> s !! k = Some (Stored v).
Proof. intros Hin. by apply list_elem_of_In, elem_of_decode_all, elem_of_map_to_list in Hin. Qed.

Lemma names_uniqueb_sound (s : store) : names_uniqueb s = true -> names_unique s.
Proof.
  unfold names_uniqueb. intros Hb k1 k2 r1 r2 n H1 H2 [l1 N1] N2.
  rewrite forallb_forall in Hb. specialize (Hb _ (in_decode_all_store _ _ _ H1)).
  simpl in Hb. rewrite forallb_forall in Hb. specialize (Hb _ (in_decode_all_store _ _ _ H2)).
  simpl in Hb. apply orb_true_iff in Hb as [Hk|Hn]; [by apply bool_decide_eq_true in Hk|].
  rewrite forallb_forall in Hn.
  assert (Hin : In n (map fst (map_to_list (registered_names r1)))).
  { apply in_map_iff. exists (n, l1). split; [done|].
    apply list_elem_of_In, elem_of_map_to_list. done. }
  specialize (Hn n Hin). apply bool_decide_eq_true in Hn. rewrite Hn in N2. by destruct N2.
Qed.

(** ** Update: the record written and the invariant *)

Lemma run_update_cases d (w : gworld) :
  run (update_gdb_data_old_name d) w = (fst (run (update_gdb_data_old_name d) w), w) \/
  exists ph sid e r e'',
    truthy_hash (get_public_hash d) = Some (ph, sid) /\
    w_store w !! ph = Some (Stored e) /\
    update_record_at d ph e (w_store w) (w_clock w) = (r, Some e'') /\
    run (update_gdb_data_old_name d) w = (r, with_store w (<[ph := Stored e'']> (w_store w))).
Proof.
  unfold update_gdb_data_old_name.
  destruct (truthy_hash _) as [[ph sid]|] eqn:Hh; [|by left].
  rewrite run_mbind. simpl.
  destruct (w_store w !! ph) as [[e|raw]|] eqn:Hph; [|by left; case_decide|by left].
  rewrite run_update_record.
  destruct (update_record_at _ _ _ _ _) as [r [e''|]] eqn:E; [|by left].
  right. eauto 10.
Qed.

Lemma run_update_names_unique d (w : gworld) :
  names_unique (w_store w) ->
  names_unique (w_store (snd (run (update_gdb_data_old_name d) w))).
Proof.
  intros U. destruct (run_update_cases d w) as [->|(ph & sid & e & r & e'' & _ & Hph & E & ->)];
    [done|]. simpl.
  apply names_unique_insert; [done|]. by eapply update_record_at_claims.
Qed.

(** ** Properties of the write path *)

Lemma run_write_names_unique d (w : gworld) :
  names_unique (w_store w) ->
  names_unique (w_store (snd (run (write_gdb_data d) w))).
Proof.
  intros U. unfold write_gdb_data. case_decide; [done|].
  destruct (truthy_hash _) as [[ph sid]|]; [|done].
  rewrite !run_mbind. simpl.
  destruct (w_store w !! ph) as [[e|raw]|] eqn:Hph.
  - case_decide; [done|]. by apply run_update_names_unique.
  - case_decide; [|done]. rewrite run_create_record.
    destruct (is_name_taken _ _ _) eqn:Ht; [done|]. simpl.
    apply names_unique_insert; [done|]. by apply new_record_claims.
  - rewrite run_create_record.
    destruct (is_name_taken _ _ _) eqn:Ht; [done|]. simpl.
    apply names_unique_insert; [done|]. by apply new_record_claims.
Qed.

(** C1: both write handlers preserve global name uniqueness. *)
Theorem handlers_preserve_names_unique d (w : gworld) :
  names_unique (w_store w) ->
  names_unique (w_store (snd (run (write_gdb_data d) w))) /\
  names_unique (w_store (snd (run (update_gdb_data_old_name d) w))).
Proof.
  intros U. split; [by apply run_write_names_unique|by apply run_update_names_unique].
Qed.

Lemma is_name_taken_intro (s : store) n ex k r :
  s !! k = Some (Stored r) -> k <> ex -> is_Some (registered_names r !! n) ->
  is_name_taken n (decode_all (map_to_list s)) ex = true.
Proof.
  intros Hk Hne Hn. destruct (is_name_taken _ _ _) eqn:E; [done|].
  rewrite is_name_taken_false in E. rewrite (E k r) in Hn by done. by destruct Hn.
Qed.

Lemma merge_fields_at_noop d t e :
  noop_payload d e -> merge_fields_at d t e (registered_names e) = e.
Proof.
  destruct e as [ph g sid names soc b dw nft pp dels msgs md].
  intros (_ & _ & Hb & Hp & Hs & Hd & Hn & Hdel & Hmsg). simpl in *.
  unfold merge_fields_at; simpl. f_equal.
  - destruct (p_socials d) as [u|]; [|done]. specialize (Hs u eq_refl).
    apply map_eq. intros k. unfold merge_socials. rewrite lookup_merge.
    destruct (u !! k) as [o|] eqn:Hu; [|by destruct (soc !! k)].
    specialize (Hs k o Hu).
    destruct o as [p|]; destruct (soc !! k) eqn:Hk; simpl in *; try congruence.
    by destruct Hs.
  - destruct (p_bio d) eqn:E; simpl; [by apply Hb|done].
  - destruct (p_dinosaur_wallets d) as [u|]; [|done]. by apply map_subseteq_union, Hd.
  - destruct (p_nft_images d) as [l|]; [|done]. rewrite (Hn l eq_refl). apply app_nil_r.
  - destruct (p_profile_picture d) eqn:E; simpl; [by apply Hp|done].
  - unfold merge_objs_at. destruct Hdel as [->|[-> ->]]; done.
  - unfold merge_objs_at. destruct Hmsg as [->|[-> ->]]; done.
Qed.

Lemma update_record_at_same d ph e s t r e'' :
  update_record_at d ph e s t = (r, Some e'') -> same_identity e e''.
Proof.
  unfold update_record_at.
  destruct (guuid_given d); [done|].
  destruct (name_step_at _ _ _ _ _) as [[?|]|m]; [done|done|].
  case_decide; [done|]. intros [= _ <-]. done.
Qed.

Lemma run_update_same d (w : gworld) k r :
  w_store w !! k = Some (Stored r) ->
  exists r', w_store (snd (run (update_gdb_data_old_name d) w)) !! k = Some (Stored r') /\
             same_identity r r'.
Proof.
  intros Hk. destruct (run_update_cases d w) as [->|(ph & sid & e & r0 & e'' & _ & Hph & E & ->)].
  - exists r. split; [done|]. repeat split.
  - simpl. rewrite lookup_insert_dec. case_decide as Heq.
    + subst. rewrite Hk in Hph. simplify_eq. exists e''. split; [done|].
      by eapply update_record_at_same.
    + exists r. split; [done|]. repeat split.
Qed.

(** C2: registering a free name with a wallet that has no record creates
    the record: a fresh [guuid], the name leased for exactly 365 days from
    now, empty sub-structures; nothing else changes. *)
Theorem write_creates_record d (w : gworld) ph sid :
  str_lower (get_name d) <> "" ->
  truthy_hash (get_public_hash d) = Some (ph, sid) ->
  w_store w !! ph = None ->
  (forall k r, w_store w !! k = Some (Stored r) ->
               registered_names r !! str_lower (get_name d) = None) ->
  run (write_gdb_data d) w =
  (let r := {| public_hash := ph;
               guuid := str_lower (uuid_of (w_next w));
               sign_id := sid;
               registered_names :=
                 {[ str_lower (get_name d) :=
                      Lease (Aware (w_clock w)) (Aware (w_clock w + LEASE))
                            (match p_tx_hash d with Some t => t | None => None end) ]};
               socials := default_socials;
               bio := "";
               dinosaur_wallets := default_dinosaur_wallets;
               nft_images := [];
               profile_picture := "";
               delegations := [];
               messages := [];
               modified_at := None |} in
   (ok DWritten (RRecord r), World (<[ph := Stored r]> (w_store w)) (w_clock w) (N.succ (w_next w)))).
Proof.
  intros Hn Hh Hph Hfree. unfold write_gdb_data.
  rewrite decide_False by done. rewrite Hh, !run_mbind. simpl. rewrite Hph, run_create_record.
  rewrite (proj2 (is_name_taken_false _ _ _)); [done|]. intros k r Hk _. eauto.
Qed.

(** C3: a name held by another record cannot be registered: the request
    fails with [NameTaken] and the world is unchanged. *)
Theorem write_name_taken d (w : gworld) ph sid k r :
  str_lower (get_name d) <> "" ->
  truthy_hash (get_public_hash d) = Some (ph, sid) ->
  w_store w !! ph = None ->
  w_store w !! k = Some (Stored r) ->
  is_Some (registered_names r !! str_lower (get_name d)) ->
  run (write_gdb_data d) w = (nok (DNameTaken (str_lower (get_name d))), w).
Proof.
  intros Hn Hh Hph Hk Hr. unfold write_gdb_data.
  rewrite decide_False by done. rewrite Hh, !run_mbind. simpl. rewrite Hph, run_create_record.
  rewrite (is_name_taken_intro _ _ _ k r); [done|done| |done]. congruence.
Qed.

(** C4: re-registering a name the caller owns extends its expiry by
    exactly 365 days from the previous expiry (not from now), keeps its
    creation time, and takes the new [tx_hash] when one is given. *)
Theorem update_renews_from_previous_expiry d (w : gworld) ph sid e l t :
  names_unique (w_store w) ->
  truthy_hash (get_public_hash d) = Some (ph, sid) ->
  w_store w !! ph = Some (Stored e) ->
  guuid_given d = false ->
  str_lower (get_name d) <> "" ->
  registered_names e !! str_lower (get_name d) = Some l ->
  expires_on l = Aware t ->
  exists e'', w_store (snd (run (update_gdb_data_old_name d) w)) !! ph = Some (Stored e'') /\
    registered_names e'' !! str_lower (get_name d) =
      Some (Lease (created_at l) (Aware (t + LEASE))
                  (match p_tx_hash d with Some tx => tx | None => tx_hash l end)).
Proof.
  intros U Hh Hph Hg Hn Hl Ht. unfold update_gdb_data_old_name.
  rewrite Hh, run_mbind. simpl. rewrite Hph, run_update_record.
  unfold update_record_at, name_step_at. rewrite Hg, decide_False by done.
  rewrite (proj2 (is_name_taken_false _ _ _)); last first.
  { intros k r Hk Hne. eapply (names_unique_claims _ ph e); eauto. }
  unfold merge_name_at, renew_lease. rewrite Hl, Ht. simpl.
  case_decide as Heq.
  - exfalso. apply (f_equal (λ r, registered_names r !! str_lower (get_name d))) in Heq.
    simpl in Heq. rewrite lookup_insert_eq, Hl in Heq. simplify_eq.
    apply (f_equal expires_on) in Heq. rewrite Ht in Heq. simpl in Heq. injection Heq as Heq. unfold LEASE, days, USEC_PER_DAY in Heq. lia.
  - simpl. rewrite lookup_insert_eq. eexists. split; [done|]. simpl.
    rewrite lookup_insert_eq. done.
Qed.

(** C5: an update whose payload asks for nothing new answers "No changes
    detected", writes nothing and leaves [modified_at] as it was. *)
Theorem update_noop_no_write d (w : gworld) ph sid e :
  truthy_hash (get_public_hash d) = Some (ph, sid) ->
  w_store w !! ph = Some (Stored e) ->
  noop_payload d e ->
  run (update_gdb_data_old_name d) w = (ok DNoChanges (RRecord e), w).
Proof.
  intros Hh Hph Hnoop. unfold update_gdb_data_old_name.
  rewrite Hh, run_mbind. simpl. rewrite Hph, run_update_record.
  pose proof Hnoop as [Hn [Hg _]].
  unfold update_record_at, name_step_at. rewrite Hg, Hn, decide_True by done.
  rewrite merge_fields_at_noop by done. rewrite decide_True by done. done.
Qed.

(** C6: an update carrying a (non-empty) [guuid] always fails, whatever
    else it carries, and leaves the world unchanged. *)
Theorem update_guuid_rejected d (w : gworld) :
  guuid_given d = true ->
  status_code (fst (run (update_gdb_data_old_name d) w)) = -1 /\
  snd (run (update_gdb_data_old_name d) w) = w.
Proof.
  intros Hg. unfold update_gdb_data_old_name.
  destruct (truthy_hash _) as [[ph sid]|]; [|done].
  rewrite run_mbind. simpl.
  destruct (w_store w !! ph) as [[e|raw]|]; [|by case_decide|done].
  rewrite run_update_record. unfold update_record_at. by rewrite Hg.
Qed.

(** C8: neither handler changes the [guuid], [public_hash] or [sign_id]
    of a stored record, nor removes it. *)
Theorem handlers_keep_identity d (w : gworld) k r :
  w_store w !! k = Some (Stored r) ->
  (exists r', w_store (snd (run (write_gdb_data d) w)) !! k = Some (Stored r') /\
              same_identity r r') /\
  (exists r', w_store (snd (run (update_gdb_data_old_name d) w)) !! k = Some (Stored r') /\
              same_identity r r').
Proof.
  intros Hk. split; [|by apply run_update_same].
  assert (Hid : exists r', w_store w !! k = Some (Stored r') /\ same_identity r r')
    by (exists r; repeat split; done).
  unfold write_gdb_data. case_decide; [done|].
  destruct (truthy_hash _) as [[ph sid]|]; [|done].
  rewrite !run_mbind. simpl.
  destruct (w_store w !! ph) as [[e|raw]|] eqn:Hph.
  - case_decide; [done|]. by apply run_update_same.
  - case_decide; [|done]. rewrite run_create_record.
    destruct (is_name_taken _ _ _); [done|]. simpl. rewrite lookup_insert_ne; [done|congruence].
  - rewrite run_create_record.
    destruct (is_name_taken _ _ _); [done|]. simpl. rewrite lookup_insert_ne; [done|congruence].
Qed.

(** "add" for a name the caller already holds fails with
    [DuplicateRegistration] and leaves the world unchanged. *)
Theorem write_already_registered d (w : gworld) ph sid e :
  str_lower (get_name d) <> "" ->
  truthy_hash (get_public_hash d) = Some (ph, sid) ->
  w_store w !! ph = Some (Stored e) ->
  is_Some (registered_names e !! str_lower (get_name d)) ->
  run (write_gdb_data d) w = (nok (DAlreadyRegistered (str_lower (get_name d))), w).
Proof.
  intros Hn Hh Hph He. unfold write_gdb_data.
  rewrite decide_False by done. rewrite Hh, !run_mbind. simpl. rewrite Hph.
  by rewrite decide_True.
Qed.

Lemma update_record_at_names d ph e s t r e'' n :
  update_record_at d ph e s t = (r, Some e'') ->
  is_Some (registered_names e'' !! n) ->
  is_Some (registered_names e !! n) \/ n = str_lower (get_name d).
Proof.
  unfold update_record_at, name_step_at.
  destruct (guuid_given d); [done|].
  destruct (decide (str_lower (get_name d) = "")).
  - case_decide; [done|]. intros [= _ <-]. simpl. auto.
  - destruct (is_name_taken _ _ _); [done|].
    unfold merge_name_at.
    destruct (registered_names e !! _) as [l|] eqn:Hl;
      [destruct (renew_lease _ _) as [l'|]; [|done]|]; simpl;
      (case_decide; [done|]); intros [= _ <-]; simpl;
      rewrite lookup_insert_dec; case_decide; auto.
Qed.

Lemma run_update_wf d (w : gworld) :
  store_wf (w_store w) -> store_wf (w_store (snd (run (update_gdb_data_old_name d) w))).
Proof.
  intros [Hl Hk]. destruct (run_update_cases d w) as [->|(ph & sid & e & r & e'' & _ & Hph & E & ->)];
    [done|]. simpl.
  pose proof (update_record_at_same _ _ _ _ _ _ _ E) as (_ & Hph' & _).
  split.
  - intros k r' n Hk' Hn. rewrite lookup_insert_dec in Hk'. case_decide; [|by eapply Hl].
    simplify_eq. destruct (update_record_at_names _ _ _ _ _ _ _ n E Hn) as [He | ->].
    + by eapply Hl.
    + apply str_lower_idem.
  - intros k r' Hk'. rewrite lookup_insert_dec in Hk'. case_decide; [|by apply Hk].
    simplify_eq. rewrite Hph'. by apply Hk.
Qed.

Lemma run_write_wf d (w : gworld) :
  store_wf (w_store w) -> store_wf (w_store (snd (run (write_gdb_data d) w))).
Proof.
  intros Hwf.
  assert (Hnew : forall ph u sid t1 t2 tx,
             store_wf (<[ph := Stored (new_record ph u sid (str_lower (get_name d)) t1 t2 tx)]>
                         (w_store w))).
  { destruct Hwf as [Hl Hk]. intros ph u sid t1 t2 tx. split.
    - intros k r n Hk' Hn. rewrite lookup_insert_dec in Hk'. case_decide; [|by eapply Hl].
      simplify_eq. simpl in Hn. rewrite lookup_singleton in Hn.
      case_decide; [subst; apply str_lower_idem|by destruct Hn].
    - intros k r Hk'. rewrite lookup_insert_dec in Hk'. case_decide; [|by apply Hk].
      by simplify_eq. }
  unfold write_gdb_data. case_decide; [done|].
  destruct (truthy_hash _) as [[ph sid]|]; [|done].
  rewrite !run_mbind. simpl.
  destruct (w_store w !! ph) as [[e|raw]|] eqn:Hph.
  - case_decide; [done|]. by apply run_update_wf.
  - case_decide; [|done]. rewrite run_create_record.
    destruct (is_name_taken _ _ _); [done|]. apply Hnew.
  - rewrite run_create_record. destruct (is_name_taken _ _ _); [done|]. apply Hnew.
Qed.

(** C7: both write handlers keep every stored name lower case and every
    record under the key of its own public hash. *)
Theorem handlers_preserve_wf d (w : gworld) :
  store_wf (w_store w) ->
  store_wf (w_store (snd (run (write_gdb_data d) w))) /\
  store_wf (w_store (snd (run (update_gdb_data_old_name d) w))).
Proof. intros Hwf. split; [by apply run_write_wf|by apply run_update_wf]. Qed.

Lemma store_wfb_sound (s : store) : store_wfb s = true -> store_wf s.
Proof.
  unfold store_wfb. rewrite forallb_forall. intros Hb. split.
  - intros k r n Hk [l Hn]. specialize (Hb _ (in_decode_all_store _ _ _ Hk)).
    simpl in Hb. apply andb_true_iff in Hb as [_ Hb]. rewrite forallb_forall in Hb.
    apply (bool_decide_eq_true (str_lower n = n)), Hb, in_map_iff. exists (n, l). split; [done|].
    apply list_elem_of_In, elem_of_map_to_list. done.
  - intros k r Hk. specialize (Hb _ (in_decode_all_store _ _ _ Hk)).
    simpl in Hb. apply andb_true_iff in Hb as [Hb _]. by apply bool_decide_eq_true in Hb.
Qed.

Lemma is_name_taken_absent (s : store) n ex :
  is_name_taken n (decode_all (map_to_list s)) ex = false -> s !! ex = None ->
  forall k r, s !! k = Some (Stored r) -> registered_names r !! n = None.
Proof.
  intros Ht Hex k r Hk. eapply is_name_taken_false; [exact Ht|exact Hk|congruence].
Qed.

(** Two records holding one name refute [names_unique]. *)
Lemma not_names_unique_intro (s : store) k1 k2 n :
  k1 <> k2 -> holds_name s k1 n = true -> holds_name s k2 n = true -> ~ names_unique s.
Proof.
  unfold holds_name. intros Hne H1 H2 U.
  destruct (s !! k1) as [[r1|]|] eqn:E1; [|done|done].
  destruct (s !! k2) as [[r2|]|] eqn:E2; [|done|done].
  apply bool_decide_eq_true in H1, H2. apply Hne. eapply U; eauto.
Qed.

End RegistryProofs.

(** ** Witnesses: the properties at concrete inputs *)

Lemma handlers_preserve_names_unique_witness :
  names_unique (w_store demo_world) /\
  names_unique (w_store (snd (run (write_gdb_data (AP:=demo_parser) (demo_request "bob" "W2")) demo_world))) /\
  names_unique (w_store (snd (run (update_gdb_data_old_name (AP:=demo_parser) (demo_request "bob" "W2")) demo_world))).
Proof.
  assert (U : names_unique (w_store demo_world)) by (apply names_uniqueb_sound; vm_compute; reflexivity).
  split; [exact U|]. exact (handlers_preserve_names_unique (AP:=demo_parser) _ _ U).
Defined.

Lemma write_creates_record_witness :
  str_lower (get_name (demo_request "Bob" "W2")) <> "" /\
  truthy_hash (get_public_hash (AP:=demo_parser) (demo_request "Bob" "W2")) = Some ("0102", 3) /\
  w_store demo_world !! "0102" = None /\
  run (write_gdb_data (AP:=demo_parser) (demo_request "Bob" "W2")) demo_world =
  (ok DWritten (RRecord (new_record "0102" (uuid_of 1) 3 "bob" 100 100 None)),
   World (<["0102" := Stored (new_record "0102" (uuid_of 1) 3 "bob" 100 100 None)]>
            (w_store demo_world)) 100 2).
Proof.
  split; [vm_compute; congruence|]. split; [reflexivity|]. split; [reflexivity|].
  etransitivity.
  { apply (write_creates_record (AP:=demo_parser)); [vm_compute; congruence|reflexivity|reflexivity|].
    apply (is_name_taken_absent _ _ "0102"); vm_compute; reflexivity. }
  reflexivity.
Defined.

Lemma write_name_taken_witness :
  w_store demo_world !! "abcd" = Some (Stored demo_alice) /\
  run (write_gdb_data (AP:=demo_parser) (demo_request "ALICE" "W2")) demo_world =
  (nok (DNameTaken "alice"), demo_world).
Proof.
  split; [vm_compute; reflexivity|].
  etransitivity.
  { apply (write_name_taken (AP:=demo_parser) _ _ "0102" 3 "abcd" demo_alice);
    [vm_compute; congruence|reflexivity|reflexivity|vm_compute; reflexivity|by eexists]. }
  reflexivity.
Defined.

Lemma update_renews_from_previous_expiry_witness :
  names_unique (w_store demo_world) /\
  exists e'', w_store (snd (run (update_gdb_data_old_name (AP:=demo_parser) (demo_request "Alice" "W1"))
                             demo_world)) !! "abcd" = Some (Stored e'') /\
    registered_names e'' !! "alice" =
      Some (Lease (Aware 100) (Aware (100 + LEASE + LEASE)) None).
Proof.
  assert (U : names_unique (w_store demo_world)) by (apply names_uniqueb_sound; vm_compute; reflexivity).
  split; [exact U|].
  exact (update_renews_from_previous_expiry (AP:=demo_parser) (demo_request "Alice" "W1") demo_world
           "abcd" 3 demo_alice (Lease (Aware 100) (Aware (100 + LEASE)) None) (100 + LEASE)
           U eq_refl eq_refl eq_refl ltac:(vm_compute; congruence) eq_refl eq_refl).
Defined.

Lemma update_noop_no_write_witness :
  run (update_gdb_data_old_name (AP:=demo_parser)
         (Payload None (Some "W1") None None None None (Some "") None None None None)) demo_world =
  (ok DNoChanges (RRecord demo_alice), demo_world).
Proof.
  apply (update_noop_no_write (AP:=demo_parser) _ _ "abcd" 3); [reflexivity|vm_compute; reflexivity|].
  repeat split; simpl; try (intros; simplify_eq; done); auto.
Defined.

Lemma update_guuid_rejected_witness :
  guuid_given (Payload (Some "bob") (Some "W1") None (Some "other") None None None None None None None) = true /\
  status_code (fst (run (update_gdb_data_old_name (AP:=demo_parser)
    (Payload (Some "bob") (Some "W1") None (Some "other") None None None None None None None)) demo_world)) = -1 /\
  snd (run (update_gdb_data_old_name (AP:=demo_parser)
    (Payload (Some "bob") (Some "W1") None (Some "other") None None None None None None None)) demo_world) = demo_world.
Proof. split; [reflexivity|]. by apply (update_guuid_rejected (AP:=demo_parser)). Defined.

Lemma handlers_preserve_wf_witness :
  store_wf (w_store demo_world) /\
  store_wf (w_store (snd (run (write_gdb_data (AP:=demo_parser) (demo_request "Bob" "W2")) demo_world))) /\
  store_wf (w_store (snd (run (update_gdb_data_old_name (AP:=demo_parser) (demo_request "Bob" "W2")) demo_world))).
Proof.
  assert (Hwf : store_wf (w_store demo_world)) by (apply store_wfb_sound; vm_compute; reflexivity).
  split; [exact Hwf|]. exact (handlers_preserve_wf (AP:=demo_parser) _ _ Hwf).
Defined.

Lemma handlers_keep_identity_witness :
  w_store demo_world !! "abcd" = Some (Stored demo_alice) /\
  (exists r', w_store (snd (run (write_gdb_data (AP:=demo_parser) (demo_request "Bob" "W1")) demo_world))
                !! "abcd" = Some (Stored r') /\ same_identity demo_alice r').
Proof.
  assert (Hk : w_store demo_world !! "abcd" = Some (Stored demo_alice)) by (vm_compute; reflexivity).
  split; [exact Hk|]. apply (handlers_keep_identity (AP:=demo_parser) _ _ _ _ Hk).
Defined.

Lemma write_already_registered_witness :
  run (write_gdb_data (AP:=demo_parser) (demo_request "Alice" "W1")) demo_world =
  (nok (DAlreadyRegistered "alice"), demo_world).
Proof.
  etransitivity.
  { apply (write_already_registered (AP:=demo_parser) _ _ "abcd" 3 demo_alice);
    [vm_compute; congruence|reflexivity|vm_compute; reflexivity|by eexists]. }
  reflexivity.
Defined.

End Registry.
