(* ===== verification/Sweeper.v ===== *)
(** * The expiry sweeper: [GlobalDBOps.remove_expired_gdb_entries]

    One iteration of the daemon's [while True] loop (lines 300-329 of
    [src/backend/gdb_ops.py]): read the clock, enumerate the group, and for
    every record drop the names whose [expires_on] has passed, writing the
    record back when it lost a name.  An unparsable [expires_on] is logged
    and skipped ([ValueError]); a naive one makes the comparison raise
    [TypeError], which leaves both loops: the cycle is aborted and the
    records after it in enumeration order are not swept in that cycle. *)

From S2P Require Import Prelude Bytes Model Registry.
Import Model Registry.

Module Sweeper.
Local Open Scope Z_scope.

(** How a cycle ended: normally (then [sleep(1)]), or through the
    [except Exception] of the loop body. *)
Inductive outcome := Completed | Aborted.

(** The names of one record whose lease has expired at [now], in
    iteration order; [None] is the [TypeError] of a naive timestamp. *)
Fixpoint scan_expired (now : Z) (l : list (string * lease)) : option (list string) :=
  match l with
  | [] => Some []
  | (n, ls) :: l' =>
      match fromisoformat (expires_on ls) with
      | None => scan_expired now l'                      (* ValueError: logged *)
      | Some exp =>
          match stamp_lt exp now with
          | None => None                                 (* TypeError *)
          | Some true => cons n <$> scan_expired now l'
          | Some false => scan_expired now l'
          end
      end
  end.

Definition set_names (r : identity) (m : gmap string lease) : identity :=
  {| public_hash := public_hash r; guuid := guuid r; sign_id := sign_id r;
     registered_names := m; socials := socials r; bio := bio r;
     dinosaur_wallets := dinosaur_wallets r; nft_images := nft_images r;
     profile_picture := profile_picture r; delegations := delegations r;
     messages := messages r; modified_at := modified_at r |}.

(** [for expired_key in expired_keys: del value["registered_names"][expired_key]] *)
Definition remove_names (ex : list string) (r : identity) : identity :=
  set_names r (foldr delete (registered_names r) ex).

(** The loop over [all_data.items()]. *)
Fixpoint sweep_items (now : Z) (l : list (string * identity)) : gprog outcome :=
  match l with
  | [] => mret Completed
  | (k, v) :: l' =>
      match scan_expired now (map_to_list (registered_names v)) with
      | None => mret Aborted
      | Some [] => sweep_items now l'
      | Some ex => gdb_set k (Stored (remove_names ex v));; sweep_items now l'
      end
  end.

(** One cycle: [current_time], [all_data], [if all_data: ...]. *)
Definition sweep_cycle : gprog outcome :=
  now ← now_utc;
  all ← get_all_gdb_data;
  match all with
  | [] => mret Completed
  | _ => sweep_items now all
  end.

(** ** Specification *)

(** A lease is expired at [now] when its expiry parses to an aware time
    before [now]; unparsable expiries are kept. *)
Definition expired_at (now : Z) (l : lease) : bool :=
  match expires_on l with
  | Aware t => t <? now
  | _ => false
  end.

(** No record holds a naive expiry (true of every record the handlers
    write: they only write [Aware] times). *)
Definition no_naive (s : store) : Prop :=
  forall k r n l t, s !! k = Some (Stored r) -> registered_names r !! n = Some l ->
                    expires_on l <> Naive t.

(** The record a completed cycle leaves: exactly its unexpired names. *)
Definition swept (now : Z) (r : identity) : identity :=
  set_names r (filter (λ nl, expired_at now nl.2 = false) (registered_names r)).

Definition sweep_spec (now : Z) (s : store) : store :=
  (λ v, match v with
        | Stored r => Stored (swept now r)
        | Corrupt raw => Corrupt raw
        end) <$> s.

(** The current store only holds records of [s0], with the same public
    hash and fewer names. *)
Definition shrinks (s0 s : store) : Prop :=
  forall k r, s !! k = Some (Stored r) ->
  exists r0, s0 !! k = Some (Stored r0) /\ public_hash r = public_hash r0 /\
             forall n, is_Some (registered_names r !! n) -> is_Some (registered_names r0 !! n).

(** A decision procedure for [no_naive]. *)
Definition no_naiveb (s : store) : bool :=
  forallb (λ '(_, r),
    forallb (λ '(_, l), match expires_on l with Naive _ => false | _ => true end)
            (map_to_list (registered_names r)))
    (decode_all (map_to_list s)).

(** ** Concrete inputs for the witnesses *)

Definition demo_identity (ph : string) (names : gmap string lease) : identity :=
  set_names (new_record ph "u" 3 "x" 0 0 None) names.

(** "bob" expired at time 10; "carol" is live until 5000. *)
Definition demo_sweep_world : gworld :=
  World {[ "abcd" := Stored (demo_identity "abcd"
                               {[ "bob" := Lease (Aware 0) (Aware 10) None;
                                  "carol" := Lease (Aware 0) (Aware 5000) None ]}) ]}
        100 0.

(** A record whose lease has a naive expiry, as a restored backup may
    contain, beside one whose name expired. *)
Definition demo_naive_world : gworld :=
  World {[ "abcd" := Stored (demo_identity "abcd"
                               {[ "bob" := Lease (Aware 0) (Aware 10) None ]});
           "cdef" := Stored (demo_identity "cdef"
                               {[ "dave" := Lease (Naive 0) (Naive 20) None ]}) ]}
        100 0.

(** ** Lemmas *)

Lemma set_names_id r : set_names r (registered_names r) = r.
Proof. by destruct r. Qed.

Lemma scan_expired_no_naive now (l : list (string * lease)) :
  (forall n ls t, In (n, ls) l -> expires_on ls <> Naive t) ->
  scan_expired now l = Some (map fst (List.filter (λ nl, expired_at now nl.2) l)).
Proof.
  induction l as [|[n ls] l IH]; intros Hnv; [done|]. simpl.
  rewrite IH by (intros; eapply Hnv; right; eauto).
  unfold expired_at. destruct (expires_on ls) as [t|t|x] eqn:Hexp; simpl.
  - by destruct (t <? now).
  - exfalso. eapply Hnv; [left; done|done].
  - done.
Qed.

Lemma lookup_foldr_delete (m : gmap string lease) ks k :
  foldr delete m ks !! k = if decide (k ∈ ks) then None else m !! k.
Proof.
  induction ks as [|k' ks IH]; cbn [foldr].
  - case_decide as Hin; [by apply not_elem_of_nil in Hin|done].
  - rewrite lookup_delete, IH. repeat case_decide; try done; exfalso; set_solver.
Qed.

Lemma remove_names_lookup ex r n :
  registered_names (remove_names ex r) !! n =
  if decide (n ∈ ex) then None else registered_names r !! n.
Proof. apply lookup_foldr_delete. Qed.

(** Deleting the expired keys one by one is filtering the map. *)
Lemma remove_names_swept now r :
  remove_names (map fst (List.filter (λ nl, expired_at now nl.2)
                                     (map_to_list (registered_names r)))) r = swept now r.
Proof.
  unfold remove_names, swept. f_equal. apply map_eq. intros n.
  rewrite lookup_foldr_delete, map_lookup_filter.
  destruct (registered_names r !! n) as [l|] eqn:Hn; simpl.
  - case_decide as Hin.
    + apply list_elem_of_In, in_map_iff in Hin as [[n' l'] [Heq Hin]]. simpl in Heq. subst n'.
      apply filter_In in Hin as [Hin Hexp]. apply list_elem_of_In, elem_of_map_to_list in Hin.
      rewrite Hn in Hin. simplify_eq. simpl in Hexp.
      rewrite option_guard_False; [done|]. simpl. congruence.
    + rewrite option_guard_True; [done|]. simpl.
      destruct (expired_at now l) eqn:He; [|done]. exfalso. apply Hin.
      apply list_elem_of_In, in_map_iff. exists (n, l). split; [done|].
      apply filter_In. split; [|done]. apply list_elem_of_In, elem_of_map_to_list. done.
  - case_decide; done.
Qed.

(** The names a completed cycle leaves in a record. *)
Lemma swept_lookup now r n :
  registered_names (swept now r) !! n =
  registered_names r !! n ≫= λ l, if expired_at now l then None else Some l.
Proof.
  unfold swept. simpl. rewrite map_lookup_filter.
  destruct (registered_names r !! n) as [l|]; simpl; [|done].
  case_guard as Hg; destruct (expired_at _ l); simpl in *; done.
Qed.

Lemma sweep_spec_lookup now (s : store) k r' :
  sweep_spec now s !! k = Some (Stored r') ->
  exists r, s !! k = Some (Stored r) /\ r' = swept now r.
Proof.
  unfold sweep_spec. rewrite lookup_fmap.
  destruct (s !! k) as [[r|raw]|]; simpl; intros; simplify_eq; eauto.
Qed.

(** After a completed cycle, no record holds a name that had expired in a
    store with unique names. *)
Lemma swept_name_gone (s : store) now k r nm l :
  names_unique s -> s !! k = Some (Stored r) -> registered_names r !! nm = Some l ->
  expired_at now l = true ->
  forall k' r', sweep_spec now s !! k' = Some (Stored r') -> registered_names r' !! nm = None.
Proof.
  intros U Hk Hn He k' r' Hk'. apply sweep_spec_lookup in Hk' as (r0 & Hk0 & ->).
  rewrite swept_lookup. destruct (registered_names r0 !! nm) as [l0|] eqn:H0; simpl; [|done].
  assert (k' = k) as -> by (eapply U; eauto). rewrite Hk in Hk0. simplify_eq.
  by rewrite He.
Qed.

Lemma decode_all_fst_sub (l : list (string * sval)) k :
  k ∈ (decode_all l).*1 -> k ∈ l.*1.
Proof.
  induction l as [|[k' [r|raw]] l IH]; simpl; [done| |].
  - rewrite !elem_of_cons. intuition.
  - rewrite elem_of_cons. intuition.
Qed.

Lemma NoDup_decode_all (l : list (string * sval)) :
  NoDup l.*1 -> NoDup (decode_all l).*1.
Proof.
  induction l as [|[k [r|raw]] l IH]; simpl; [done| |].
  - intros [Hk Hnd]%NoDup_cons. constructor; [|by apply IH].
    intros Hin. by apply Hk, decode_all_fst_sub.
  - intros [_ Hnd]%NoDup_cons. by apply IH.
Qed.

Lemma run_sweep_items now l (w : gworld) (T : store) :
  (forall k v, In (k, v) l -> forall n ls t, registered_names v !! n = Some ls ->
                                           expires_on ls <> Naive t) ->
  NoDup l.*1 ->
  (forall k v, In (k, v) l -> w_store w !! k = Some (Stored v) /\
                              T !! k = Some (Stored (swept now v))) ->
  (forall k, k ∉ l.*1 -> w_store w !! k = T !! k) ->
  run (sweep_items now l) w = (Completed, with_store w T).
Proof.
  revert w. induction l as [|[k v] l IH]; intros w Hnv Hnd Hin Hout.
  - simpl. destruct w as [s c n]. unfold with_store. simpl in *. do 3 f_equal.
    apply map_eq. intros k. apply Hout, not_elem_of_nil.
  - simpl in Hnd. apply NoDup_cons in Hnd as [Hk Hnd].
    destruct (Hin k v (or_introl eq_refl)) as [Hs HT].
    pose proof (remove_names_swept now v) as Hsw.
    simpl sweep_items. rewrite scan_expired_no_naive; last first.
    { intros n ls t Hi. apply list_elem_of_In, elem_of_map_to_list in Hi.
      eapply Hnv; [left; done|done]. }
    destruct (map fst _) as [|x xs] eqn:Hex.
    + apply IH; auto.
      * intros. eapply Hnv; [right|]; eauto.
      * intros k' v' Hi. apply Hin. by right.
      * intros k' Hk'. destruct (decide (k' = k)) as [->|Hne].
        -- rewrite Hs, HT, <- Hsw. simpl. unfold remove_names. simpl.
           by rewrite set_names_id.
        -- apply Hout. simpl. rewrite elem_of_cons. intuition.
    + simpl. rewrite IH; [done| |done| |]; simpl.
      * intros. eapply Hnv; [right|]; eauto.
      * intros k' v' Hi. rewrite lookup_insert_ne; [by apply Hin; right|].
        intros ->. apply Hk, list_elem_of_fmap. exists (k', v'). split; [done|].
        by apply list_elem_of_In.
      * intros k' Hk'. rewrite lookup_insert_dec. case_decide as Heq.
        -- subst. by rewrite HT, Hsw.
        -- apply Hout. simpl. rewrite elem_of_cons. intuition.
Qed.

Lemma run_sweep_cycle (w : gworld) :
  no_naive (w_store w) ->
  run sweep_cycle w = (Completed, with_store w (sweep_spec (w_clock w) (w_store w))).
Proof.
  intros Hnv. unfold sweep_cycle. rewrite run_mbind. simpl. rewrite ?run_mbind, ?run_get_all.
  simpl.
  assert (Hrun : run (sweep_items (w_clock w) (decode_all (map_to_list (w_store w)))) w =
                 (Completed, with_store w (sweep_spec (w_clock w) (w_store w)))).
  { apply run_sweep_items.
    - intros k v Hi n ls t Hn. eapply Hnv; [|done]. by apply in_decode_all_lookup.
    - apply NoDup_decode_all, NoDup_fst_map_to_list.
    - intros k v Hi. apply in_decode_all_lookup in Hi. unfold sweep_spec.
      rewrite lookup_fmap, Hi. done.
    - intros k Hk. unfold sweep_spec. rewrite lookup_fmap.
      destruct (w_store w !! k) as [[r|raw]|] eqn:E; [|done|done].
      exfalso. apply Hk, list_elem_of_fmap. exists (k, r). split; [done|].
      apply list_elem_of_In, in_decode_all_store, E. }
  destruct (decode_all _); exact Hrun.
Qed.

(** A naive expiry anywhere in a record makes its scan raise. *)
Lemma scan_expired_naive now (l : list (string * lease)) n ls t :
  In (n, ls) l -> expires_on ls = Naive t -> scan_expired now l = None.
Proof.
  induction l as [|[n' ls'] l IH]; intros Hin Ht; [done|]. simpl.
  destruct Hin as [Heq|Hin].
  - simplify_eq. by rewrite Ht.
  - rewrite IH by done. destruct (fromisoformat _) as [e|]; [|done].
    by destruct (stamp_lt e now) as [[]|].
Qed.

(** The loop stops at a record whose scan raises, and until then it only
    writes the records it has passed. *)
Lemma run_sweep_items_aborts now l (w : gworld) k v :
  In (k, v) l -> NoDup l.*1 -> scan_expired now (map_to_list (registered_names v)) = None ->
  fst (run (sweep_items now l) w) = Aborted /\
  w_store (snd (run (sweep_items now l) w)) !! k = w_store w !! k.
Proof.
  revert w. induction l as [|[k' v'] l IH]; intros w Hin Hnd Hs; [done|].
  simpl in Hnd. apply NoDup_cons in Hnd as [Hk' Hnd]. simpl sweep_items.
  destruct Hin as [Heq|Hin].
  - simplify_eq. by rewrite Hs.
  - assert (Hne : k' <> k).
    { intros ->. apply Hk', list_elem_of_fmap. exists (k, v). split; [done|].
      by apply list_elem_of_In. }
    destruct (scan_expired now (map_to_list (registered_names v'))) as [[|x xs]|]; [by apply IH| |done].
    simpl. destruct (IH (with_store w (<[k':=Stored (remove_names (x :: xs) v')]> (w_store w))) Hin Hnd Hs) as [Ha Hs'].
    split; [done|]. rewrite Hs'. simpl. by rewrite lookup_insert_ne.
Qed.

Lemma names_unique_shrinks (s0 s : store) :
  names_unique s0 -> shrinks s0 s -> names_unique s.
Proof.
  intros U Sh k1 k2 r1 r2 n H1 H2 N1 N2.
  destruct (Sh _ _ H1) as (r1' & H1' & _ & S1), (Sh _ _ H2) as (r2' & H2' & _ & S2).
  eapply U; eauto.
Qed.

Lemma store_wf_shrinks (s0 s : store) :
  store_wf s0 -> shrinks s0 s -> store_wf s.
Proof.
  intros [Hl Hk] Sh. split.
  - intros k r n Hr Hn. destruct (Sh _ _ Hr) as (r0 & H0 & _ & S). eapply Hl; eauto.
  - intros k r Hr. destruct (Sh _ _ Hr) as (r0 & H0 & -> & _). by apply Hk.
Qed.

Lemma run_sweep_items_shrinks now l (s0 : store) (w : gworld) :
  (forall k v, In (k, v) l -> s0 !! k = Some (Stored v)) ->
  shrinks s0 (w_store w) ->
  shrinks s0 (w_store (snd (run (sweep_items now l) w))).
Proof.
  revert w. induction l as [|[k v] l IH]; intros w Hin Sh; [done|].
  simpl sweep_items.
  destruct (scan_expired _ _) as [[|x xs]|]; [| |done].
  - apply IH; [|done]. intros. apply Hin. by right.
  - simpl. apply IH; [intros; apply Hin; by right|]. simpl.
    intros k' r' Hk'. rewrite lookup_insert_dec in Hk'. case_decide; [|by apply Sh].
    simplify_eq. exists v. split; [apply Hin; by left|]. split; [done|].
    intros n. rewrite remove_names_lookup. case_decide; [intros []; done|done].
Qed.

Lemma run_sweep_cycle_shrinks (w : gworld) :
  shrinks (w_store w) (w_store (snd (run sweep_cycle w))).
Proof.
  unfold sweep_cycle. rewrite run_mbind. simpl. rewrite ?run_mbind, ?run_get_all.
  assert (Hsh : shrinks (w_store w)
           (w_store (snd (run (sweep_items (w_clock w) (decode_all (map_to_list (w_store w)))) w)))).
  { apply run_sweep_items_shrinks; [intros; by apply in_decode_all_lookup|].
    intros k r Hk. exists r. done. }
  destruct (decode_all _); [|exact Hsh]. simpl. intros k r Hk. exists r. done.
Qed.

Lemma no_naiveb_sound (s : store) : no_naiveb s = true -> no_naive s.
Proof.
  unfold no_naiveb. intros Hb k r n l t Hk Hn Ht.
  rewrite forallb_forall in Hb. specialize (Hb _ (in_decode_all_store _ _ _ Hk)).
  simpl in Hb. rewrite forallb_forall in Hb.
  assert (Hin : In (n, l) (map_to_list (registered_names r)))
    by (apply list_elem_of_In, elem_of_map_to_list; done).
  specialize (Hb _ Hin). simpl in Hb. by rewrite Ht in Hb.
Qed.

(** ** Properties of the sweeper *)

(** C9: a completed sweep removes exactly the names whose expiry has
    passed and leaves every live name, and every other field, as it was. *)
Theorem sweep_removes_expired_keeps_live (w : gworld) k r :
  no_naive (w_store w) ->
  w_store w !! k = Some (Stored r) ->
  fst (run sweep_cycle w) = Completed /\
  exists r', w_store (snd (run sweep_cycle w)) !! k = Some (Stored r') /\
    r' = set_names r (registered_names r') /\
    forall n, registered_names r' !! n =
              registered_names r !! n ≫= λ l, if expired_at (w_clock w) l then None else Some l.
Proof.
  intros Hnv Hk. rewrite run_sweep_cycle by done. split; [done|].
  exists (swept (w_clock w) r). simpl. unfold sweep_spec. rewrite lookup_fmap, Hk.
  split; [done|]. split; [done|]. apply swept_lookup.
Qed.

(** C10: a sweep cycle, completed or aborted, preserves global name
    uniqueness: it only ever removes names. *)
Theorem sweep_preserves_names_unique (w : gworld) :
  names_unique (w_store w) -> names_unique (w_store (snd (run sweep_cycle w))).
Proof.
  intros U. eapply names_unique_shrinks; [exact U|]. apply run_sweep_cycle_shrinks.
Qed.

(** C11: a record holding a naive expiry, wherever the enumeration puts
    it, makes every sweep cycle abort before that record is written: the
    record keeps all its names, also those whose expiry passed long ago,
    although the code means to log and skip unusable timestamps. *)
Theorem sweep_naive_stamp_blocks_sweep (w : gworld) k r n l t :
  w_store w !! k = Some (Stored r) -> registered_names r !! n = Some l ->
  expires_on l = Naive t ->
  fst (run sweep_cycle w) = Aborted /\
  w_store (snd (run sweep_cycle w)) !! k = Some (Stored r).
Proof.
  intros Hk Hn Ht. unfold sweep_cycle. rewrite run_mbind. simpl. rewrite ?run_mbind, ?run_get_all.
  pose proof (in_decode_all_store _ _ _ Hk) as Hin.
  destruct (run_sweep_items_aborts (w_clock w) _ w k r Hin
              (NoDup_decode_all _ (NoDup_fst_map_to_list _))
              (scan_expired_naive _ _ n l t ltac:(by apply list_elem_of_In, elem_of_map_to_list) Ht))
    as [Ha Hs].
  destruct (decode_all _); [done|]. by rewrite Ha, Hs.
Qed.

(** ** Witnesses *)

Lemma sweep_removes_expired_keeps_live_witness :
  no_naive (w_store demo_sweep_world) /\
  fst (run sweep_cycle demo_sweep_world) = Completed /\
  exists r', w_store (snd (run sweep_cycle demo_sweep_world)) !! "abcd" = Some (Stored r') /\
    r' = set_names (demo_identity "abcd" {[ "bob" := Lease (Aware 0) (Aware 10) None;
                                           "carol" := Lease (Aware 0) (Aware 5000) None ]})
                   (registered_names r') /\
    forall n, registered_names r' !! n =
      (registered_names (demo_identity "abcd" {[ "bob" := Lease (Aware 0) (Aware 10) None;
                                                 "carol" := Lease (Aware 0) (Aware 5000) None ]}))
        !! n ≫= λ l, if expired_at 100 l then None else Some l.
Proof.
  assert (Hnv : no_naive (w_store demo_sweep_world)) by (apply no_naiveb_sound; vm_compute; reflexivity).
  split; [exact Hnv|].
  exact (sweep_removes_expired_keeps_live demo_sweep_world "abcd" _ Hnv eq_refl).
Defined.

Lemma sweep_preserves_names_unique_witness :
  names_unique (w_store demo_naive_world) /\
  names_unique (w_store (snd (run sweep_cycle demo_naive_world))).
Proof.
  assert (U : names_unique (w_store demo_naive_world)) by (apply names_uniqueb_sound; vm_compute; reflexivity).
  split; [exact U|]. exact (sweep_preserves_names_unique demo_naive_world U).
Defined.

Lemma sweep_naive_stamp_blocks_sweep_witness :
  fst (run sweep_cycle demo_naive_world) = Aborted /\
  w_store (snd (run sweep_cycle demo_naive_world)) !! "cdef" =
    Some (Stored (demo_identity "cdef" {[ "dave" := Lease (Naive 0) (Naive 20) None ]})).
Proof.
  exact (sweep_naive_stamp_blocks_sweep demo_naive_world "cdef" _ "dave" _ 20 eq_refl eq_refl eq_refl).
Defined.

End Sweeper.
