(* ===== verification/Backup.v ===== *)
(** * Snapshots: [GlobalDBOps.backup_dna_data], [restore_dna_data] and the
      CLI command [restore_dna_data_from_file]

    The backup daemon of [src/backend/gdb_ops.py] (lines 331-368) keeps a
    list [backup_files] and the text of the last backup, and every ten
    minutes dumps the whole group to [backups/backup_<time>.json] when the
    dump differs from the last one, then trims the list to 100 entries by
    deleting the oldest file.  Its state is modelled explicitly: the backup
    directory (file name, i.e. the second of [strftime], to content), the
    list [backup_files], [last_backup] and whether the thread is still
    running (an exception anywhere in the loop ends the thread: the [try]
    is outside the [while]).  [restore_dna_data] (lines 370-377) writes a
    snapshot back key by key; the CLI command of
    [src/backend/cpunk-gdb-server.py] (lines 10-42) picks a backup by
    index, newest first. *)

From S2P Require Import Prelude Bytes Model Registry.
Import Model Registry.

Module Backup.
Local Open Scope Z_scope.

(** A dump: [json.dumps(all_data, indent=2)] is determined by the decoded
    records in enumeration order. *)
Abbreviation snapshot := (list (string * identity)).

(** An entry of [backup_files]: the bare names listed at start-up
    ([os.listdir]) or the joined paths appended by the loop. *)
Inductive bpath :=
| Bare (n : Z)
| InDir (n : Z).

Record bstate := BState {
  b_dir : gmap Z snapshot;    (** backups/backup_<n>.json *)
  b_files : list bpath;       (** [backup_files] *)
  b_last : option snapshot;   (** [last_backup] *)
  b_alive : bool;             (** the daemon thread is running *)
  b_cwd_is_dir : bool         (** the process runs inside backups/ *)
}.

(** [strftime("%Y%m%d_%H%M%S")]: the name has a resolution of a second. *)
Definition file_name (t : Z) : Z := t / 1000000.

(** [os.remove(path)]; [None] is [FileNotFoundError].  A bare name is
    resolved against the working directory of the node. *)
Definition os_remove (cwd_is_dir : bool) (p : bpath) (dir : gmap Z snapshot)
    : option (gmap Z snapshot) :=
  match p with
  | InDir n => if decide (is_Some (dir !! n)) then Some (delete n dir) else None
  | Bare n =>
      if cwd_is_dir && bool_decide (is_Some (dir !! n)) then Some (delete n dir) else None
  end.

(** Start-up, lines 332-345: the existing backups sorted by modification
    time, and the content of the newest. *)
Definition backup_init (by_mtime : list Z) (dir : gmap Z snapshot) (cwd_is_dir : bool)
    : bstate :=
  BState dir (map Bare by_mtime)
         (match last by_mtime with Some n => dir !! n | None => None end)
         true cwd_is_dir.

(** One iteration of [while True], lines 348-364, at time [t] with the
    decoded group [all]. *)
Definition backup_step (st : bstate) (t : Z) (all : snapshot) : bstate :=
  if negb (b_alive st) then st else
  match all with
  | [] => st
  | _ =>
      let '(dir, last) :=
        if decide (Some all = b_last st) then (b_dir st, b_last st)
        else (<[file_name t := all]> (b_dir st), Some all) in
      let files := b_files st ++ [InDir (file_name t)] in
      if bool_decide (100 < List.length files)%nat then
        match files with
        | oldest :: rest =>
            match os_remove (b_cwd_is_dir st) oldest dir with
            | Some dir' => BState dir' rest last true (b_cwd_is_dir st)
            | None => BState dir rest last false (b_cwd_is_dir st)
            end
        | [] => BState dir files last true (b_cwd_is_dir st)
        end
      else BState dir files last true (b_cwd_is_dir st)
  end.

(** The same iteration reading the clock and the group. *)
Definition backup_cycle (st : bstate) : gprog bstate :=
  t ← now_utc; all ← get_all_gdb_data; mret (backup_step st t all).

(** Successive iterations with the group content [all] at times [ts]. *)
Definition backup_cycles (st : bstate) (ts : list Z) (all : snapshot) : bstate :=
  fold_left (λ st t, backup_step st t all) ts st.

(** [restore_dna_data(data)]: every entry is written, verbatim. *)
Definition restore_dna_data (data : snapshot) : gprog unit :=
  prog_iter (λ kv, gdb_set kv.1 (Stored kv.2)) data.

(** The replies of the CLI command. *)
Inductive cli_reply :=
| RNoIndex                 (** "Please provide the index of the backup." *)
| RNoBackups               (** "No backups found." *)
| RInvalidValue            (** "Invalid value!" *)
| RInvalidIndex (n : nat)  (** "Invalid index. Available range: 0-{n-1}" *)
| RRestored (f : Z)        (** "Restored backup from {backup_file}" *)
| RFailed.                 (** "Failed to restore backup: {e}" *)

(** [restore_dna_data_from_file(index, reply)]: [index] is [None] when
    not given and [Some None] when it is not an integer; [by_mtime] lists
    the backups by modification time. *)
Definition restore_dna_data_from_file (index : option (option Z)) (by_mtime : list Z)
    (dir : gmap Z snapshot) : gprog cli_reply :=
  match index with
  | None => mret RNoIndex
  | Some idx =>
      let files := rev by_mtime in
      match files with
      | [] => mret RNoBackups
      | _ =>
          match idx with
          | None => mret RInvalidValue
          | Some i =>
              if bool_decide (i < 0 \/ Z.of_nat (List.length files) <= i)
              then mret (RInvalidIndex (List.length files))
              else match files !! Z.to_nat i with
                   | Some f =>
                       match dir !! f with
                       | Some data => restore_dna_data data;; mret (RRestored f)
                       | None => mret RFailed      (* open() raises *)
                       end
                   | None => mret RFailed
                   end
          end
      end
  end.

(** ** Concrete inputs for the witnesses *)

Definition demo_snapshot : snapshot := [("abcd", demo_alice)].

(** Cycles ten minutes apart. *)
Definition demo_times : list Z := map (λ i, Z.of_nat i * 600000000) (seq 1 99).

(** ** Lemmas *)

Lemma backup_cycles_snoc st ts t all :
  backup_cycles st (ts ++ [t]) all = backup_step (backup_cycles st ts all) t all.
Proof. unfold backup_cycles. by rewrite fold_left_app. Qed.

(** From an empty directory, with content that never changes, the first
    cycle writes the only backup file and the next 99 only grow the list
    [backup_files] with names of files that are never written. *)
Lemma backup_cycles_constant c all t0 ts :
  all <> [] -> (List.length ts <= 99)%nat ->
  backup_cycles (backup_init [] ∅ c) (t0 :: ts) all =
  BState {[ file_name t0 := all ]} (map (λ t, InDir (file_name t)) (t0 :: ts))
         (Some all) true c.
Proof.
  intros Hne. induction ts as [|t ts IH] using rev_ind; intros Hlen.
  - unfold backup_cycles, backup_init, backup_step. simpl.
    destruct all as [|x all]; [done|]. simpl. by rewrite insert_empty.
  - rewrite app_comm_cons, backup_cycles_snoc, IH by (rewrite length_app in Hlen; simpl in Hlen; lia).
    unfold backup_step. simpl. destruct all as [|x all']; [done|].
    rewrite decide_True by done.
    rewrite bool_decide_false; last first.
    { rewrite length_app, length_map. rewrite length_app in Hlen. simpl in *. lia. }
    rewrite map_app. done.
Qed.

(** [restore_dna_data] writes the entries in order. *)
Lemma run_restore (data : snapshot) (w : gworld) :
  run (restore_dna_data data) w =
  (tt, with_store w (foldl (λ s kv, <[kv.1 := Stored kv.2]> s) (w_store w) data)).
Proof.
  revert w. induction data as [|[k v] data IH]; intros w.
  - by destruct w.
  - unfold restore_dna_data. rewrite run_iter. simpl. apply IH.
Qed.

Lemma lookup_foldl_insert (data : snapshot) (s : store) k :
  NoDup data.*1 ->
  foldl (λ s kv, <[kv.1 := Stored kv.2]> s) s data !! k =
  match list_to_map (M := gmap string identity) data !! k with
  | Some v => Some (Stored v)
  | None => s !! k
  end.
Proof.
  revert s. induction data as [|[k' v] data IH]; intros s Hnd; simpl; [done|].
  apply NoDup_cons in Hnd as [Hk Hnd]. rewrite IH by done.
  rewrite lookup_insert_dec, lookup_insert_dec.
  destruct (decide (k' = k)) as [->|Hne]; [|done].
  rewrite not_elem_of_list_to_map_1; [done|]. done.
Qed.

(** ** Properties of the backup loop and the restore *)

(** C12: with content that never changes, the 101st cycle deletes the
    only backup ever written (the list [backup_files] also holds the names
    of the 100 files never written), leaving no backup at all, and the
    102nd tries to delete a file that does not exist: [FileNotFoundError]
    ends the thread for good.  This holds whatever the 102 cycle times. *)
Theorem backup_deletes_only_backup_then_stops c all t0 ts t t' :
  all <> [] -> List.length ts = 99%nat ->
  b_dir (backup_cycles (backup_init [] ∅ c) (t0 :: ts ++ [t]) all) = ∅ /\
  b_alive (backup_cycles (backup_init [] ∅ c) (t0 :: ts ++ [t]) all) = true /\
  b_alive (backup_cycles (backup_init [] ∅ c) (t0 :: ts ++ [t; t']) all) = false.
Proof.
  intros Hne Hlen.
  assert (Hst : backup_cycles (backup_init [] ∅ c) (t0 :: ts ++ [t]) all =
                BState ∅ (map (λ t, InDir (file_name t)) (ts ++ [t])) (Some all) true c).
  { rewrite app_comm_cons, backup_cycles_snoc, backup_cycles_constant by (done || lia).
    unfold backup_step. simpl. destruct all as [|x all']; [done|].
    rewrite decide_True by done.
    rewrite bool_decide_true; last first.
    { rewrite ?length_app, ?length_map, ?length_app. simpl. lia. }
    simpl. rewrite lookup_singleton_eq. simpl. rewrite delete_singleton_eq.
    rewrite map_app. done. }
  split; [by rewrite Hst|]. split; [by rewrite Hst|].
  replace (t0 :: ts ++ [t; t']) with ((t0 :: ts ++ [t]) ++ [t'])
    by (simpl; by rewrite <- app_assoc).
  rewrite backup_cycles_snoc, Hst. unfold backup_step. simpl.
  destruct all as [|x all']; [done|]. rewrite decide_True by done.
  rewrite bool_decide_true; last first.
  { rewrite ?length_app, ?length_map, ?length_app. simpl. lia. }
  destruct ts as [|t1 ts]; [simpl in Hlen; lia|]. simpl. done.
Qed.

(** C13: a cycle never makes [backup_files] longer than 100 entries, or
    than it already was. *)
Theorem backup_files_bounded st t all :
  (List.length (b_files (backup_step st t all)) <= Nat.max 100 (List.length (b_files st)))%nat.
Proof.
  unfold backup_step. destruct (b_alive st); simpl; [|lia].
  destruct all as [|x all']; [lia|].
  destruct (if decide _ then _ else _) as [dir last].
  case_bool_decide as Hlt.
  - destruct (b_files st ++ _) as [|p rest] eqn:Hf; [simpl; lia|].
    assert (Hl : List.length (p :: rest) = S (List.length (b_files st)))
      by (rewrite <- Hf, length_app; simpl; lia).
    simpl in Hl. destruct (os_remove _ _ _); simpl; lia.
  - simpl. rewrite length_app. simpl in *. rewrite length_app in Hlt. simpl in Hlt. lia.
Qed.

(** A dump equal to the last one is not written: no file appears,
    at most the oldest one is deleted. *)
Theorem backup_dedup st t all :
  b_last st = Some all ->
  b_dir (backup_step st t all) ⊆ b_dir st /\ b_last (backup_step st t all) = b_last st.
Proof.
  intros Hl. unfold backup_step. destruct (b_alive st); simpl; [|done].
  destruct all as [|x all']; [done|]. rewrite decide_True by (by rewrite Hl).
  case_bool_decide; [|done].
  destruct (b_files st ++ _) as [|p rest]; [done|].
  destruct (os_remove _ p _) as [dir'|] eqn:Hr; simpl; [|done].
  split; [|done].
  destruct p; simpl in Hr; repeat case_match; simplify_eq; apply delete_subseteq.
Qed.

(** C15: after a restart with 100 or more backups on disk, the first
    cycle that has data pops a bare file name (as listed by
    [os.listdir]) and removes it relative to the working directory of the
    node instead of [backups/]: the thread stops at once. *)
Theorem backup_restart_stops by_mtime dir t all :
  all <> [] -> (100 <= List.length by_mtime)%nat ->
  b_alive (backup_step (backup_init by_mtime dir false) t all) = false.
Proof.
  intros Hne Hlen. unfold backup_step, backup_init. simpl.
  destruct all as [|x all']; [done|].
  destruct (if decide _ then _ else _) as [d last].
  rewrite bool_decide_true; last first.
  { rewrite length_app, length_map. simpl. lia. }
  destruct by_mtime as [|n ns]; [simpl in Hlen; lia|]. done.
Qed.

(** A restore overwrites every key of the snapshot with its value,
    verbatim, and leaves every other key as it was. *)
Theorem restore_overwrites (data : snapshot) (w : gworld) k :
  NoDup data.*1 ->
  w_store (snd (run (restore_dna_data data) w)) !! k =
  match list_to_map (M := gmap string identity) data !! k with
  | Some v => Some (Stored v)
  | None => w_store w !! k
  end.
Proof. intros Hnd. rewrite run_restore. simpl. by apply lookup_foldl_insert. Qed.

(** ** Witnesses *)

Lemma backup_deletes_only_backup_then_stops_witness :
  demo_snapshot <> [] /\ List.length demo_times = 99%nat /\
  b_dir (backup_cycles (backup_init [] ∅ false) (0 :: demo_times ++ [60000000000]) demo_snapshot) = ∅ /\
  b_alive (backup_cycles (backup_init [] ∅ false) (0 :: demo_times ++ [60000000000]) demo_snapshot) = true /\
  b_alive (backup_cycles (backup_init [] ∅ false)
             (0 :: demo_times ++ [60000000000; 60600000000]) demo_snapshot) = false.
Proof.
  split; [discriminate|]. split; [reflexivity|].
  apply backup_deletes_only_backup_then_stops; [discriminate|reflexivity].
Defined.

Lemma backup_dedup_witness :
  b_last (backup_cycles (backup_init [] ∅ false) [0] demo_snapshot) = Some demo_snapshot /\
  b_dir (backup_step (backup_cycles (backup_init [] ∅ false) [0] demo_snapshot) 600000000 demo_snapshot)
    ⊆ b_dir (backup_cycles (backup_init [] ∅ false) [0] demo_snapshot).
Proof.
  assert (Hl : b_last (backup_cycles (backup_init [] ∅ false) [0] demo_snapshot) = Some demo_snapshot)
    by (vm_compute; reflexivity).
  split; [exact Hl|]. apply (backup_dedup _ _ _ Hl).
Defined.

Lemma backup_restart_stops_witness :
  (100 <= List.length (seq 1 100))%nat /\
  b_alive (backup_step (backup_init (map Z.of_nat (seq 1 100)) ∅ false) 0 demo_snapshot) = false.
Proof.
  split; [rewrite length_seq; lia|].
  apply backup_restart_stops; [discriminate|rewrite length_map, length_seq; lia].
Defined.

Lemma restore_overwrites_witness :
  NoDup demo_snapshot.*1 /\
  w_store (snd (run (restore_dna_data demo_snapshot) (World ∅ 0 0))) !! "abcd" = Some (Stored demo_alice).
Proof.
  assert (Hnd : NoDup demo_snapshot.*1) by (apply (bool_decide_unpack _); vm_compute; reflexivity).
  split; [exact Hnd|]. rewrite (restore_overwrites _ _ "abcd" Hnd). vm_compute. reflexivity.
Defined.

End Backup.
