(* ===== verification/Lookup.v ===== *)
(** * The read path: [GlobalDBOps.gdb_lookup]

    Lines 209-297 of [src/backend/gdb_ops.py], reached from
    [handlers.handle_get_request] with the query parameters [lookup]
    (by name or by wallet address), [lookup2] (name substring, as a list),
    [by_telegram], [by_order] and [all_delegations].  Every answer that
    carries one record strips its [guuid] and attaches the wallet
    addresses derived from its [sign_id] and [public_hash]. *)

From S2P Require Import Prelude Bytes Model Registry Sweeper.
Import Model Registry Sweeper.

Module Lookup.
Local Open Scope Z_scope.

Section Lookup.
Context {AP : AddressParser} {WD : WalletDeriver}.

(** [needle in hay] on strings. *)
Fixpoint str_contains (needle hay : string) : bool :=
  String.prefix needle hay ||
  match hay with
  | EmptyString => false
  | String _ hay' => str_contains needle hay'
  end.

(** [Utils.validate_address(address)]: the parser accepts it. *)
Definition validate_address (a : string) : bool :=
  bool_decide (is_Some (parse_cf_v1_address a)).

(** A successful answer: [send_json_response(status_code=0, response_data=...)]. *)
Definition found (d : rdata) : response := send_json_response None None 0 (Some d).

(** The record as answered: [wallet_addresses] attached, [guuid] deleted
    when it is truthy. *)
Definition view_of (ph : string) (pd : identity) : view :=
  View pd (bool_decide (guuid pd = "")) (generate_wallet_addresses (sign_id pd) ph).

(** [all_delegations]: every delegation, enriched with its owner. *)
Definition enrich_all (all : list (string * identity)) : list enriched :=
  flat_map (λ '(ph, pd), map (λ dl, Enriched dl ph (sign_id pd) (registered_names pd))
                             (delegations pd)) all.

(** [parsed_data.get("socials", {}).get("telegram", {}).get("profile", "").lower()] *)
Definition telegram_profile (pd : identity) : string :=
  str_lower (default "" (socials pd !! "telegram")).

Definition telegram_match (l : string) (pd : identity) : bool :=
  bool_decide (telegram_profile pd <> "") && bool_decide (telegram_profile pd = str_lower l).

(** [delegation.get("order_hash", "") == lookup] *)
Definition order_hash_match (l : string) (dl : jobj) : bool :=
  match dl !! "order_hash" with
  | None => bool_decide (l = "")
  | Some (JStr s) => bool_decide (s = l)
  | Some _ => false
  end.

(** [matched_names]: the record's names equal to, or containing, the
    lookup, both lower-cased. *)
Definition matched_names (as_list : bool) (l : string) (pd : identity) : list string :=
  List.filter (λ n, if as_list then str_contains (str_lower l) (str_lower n)
                    else bool_decide (str_lower l = str_lower n))
              (map fst (map_to_list (registered_names pd))).

(** The first record (in enumeration order) satisfying [p]. *)
Definition first_record (p : identity -> bool) (all : list (string * identity))
    : option (string * identity) :=
  List.find (λ kv, p kv.2) all.

(** The by-address branch, lines 279-292. *)
Definition lookup_by_address (lookup : string) : gprog response :=
  match truthy_hash (get_public_hash (wallet_payload lookup)) with
  | None => mret (nok DWalletParse)
  | Some (ph, _) =>
      info ← gdb_get ph;
      match info with
      | Some (Stored r) => mret (found (RView (view_of ph r)))
      | Some (Corrupt raw) =>
          if decide (raw = "") then mret (nok (DNoWallet lookup)) else mret (nok (DFetchError lookup))
      | None => mret (nok (DNoWallet lookup))
      end
  end.

(** [gdb_lookup(lookup, by_telegram_name, by_order_hash, as_list)] *)
Definition gdb_lookup (lookup : string) (by_telegram_name by_order_hash as_list : bool)
    : gprog response :=
  all ← get_all_gdb_data;
  if decide (lookup = "all_delegations") then mret (found (RDelegations (enrich_all all)))
  else if by_telegram_name then
    mret (match first_record (telegram_match lookup) all with
          | Some (ph, pd) => found (RView (view_of ph pd))
          | None => nok (DTelegramNotFound lookup)
          end)
  else if by_order_hash then
    mret (match first_record (λ pd, existsb (order_hash_match lookup) (delegations pd)) all with
          | Some (ph, pd) => found (RView (View pd false (generate_wallet_addresses (sign_id pd) ph)))
          | None => nok (DOrderNotFound lookup)
          end)
  else if negb (validate_address lookup) then
    mret (if as_list then
            match flat_map (λ kv, matched_names true lookup kv.2) all with
            | [] => nok (DNameNotFound lookup)
            | res => found (RNames res)
            end
          else
            match first_record (λ pd, negb (bool_decide (matched_names false lookup pd = []))) all with
            | Some (ph, pd) => found (RView (view_of ph pd))
            | None => nok (DNameNotFound lookup)
            end)
  else lookup_by_address lookup.

End Lookup.

Arguments found : simpl never.

(** ** Concrete inputs for the witnesses *)

(** One network, whose address is written as the public hash itself. *)
Definition demo_deriver : WalletDeriver := λ sid ph, {[ "Backbone" := ph ]}.

(** "W1" (public hash [abcd]) set its Telegram profile to "alice_tg". *)
Definition demo_tg_world : gworld :=
  snd (run (update_gdb_data_old_name (AP:=demo_parser)
              (Payload None (Some "W1") None None (Some {[ "telegram" := Some "alice_tg" ]})
                       None None None None None None)) demo_world).

(** A year and a day later, the sweeper removed "alice". *)
Definition demo_swept_world : gworld :=
  snd (run sweep_cycle (World (w_store demo_world) (100 + LEASE + 1) 1)).

Section LookupProofs.
Context {AP : AddressParser} {WD : WalletDeriver}.

(** ** Lemmas *)

Lemma first_record_some p (all : list (string * identity)) k r :
  first_record p all = Some (k, r) -> In (k, r) all /\ p r = true.
Proof. intros Hf. apply find_some in Hf. done. Qed.

Lemma first_record_none p (all : list (string * identity)) k r :
  first_record p all = None -> In (k, r) all -> p r = false.
Proof. intros Hf Hin. apply (find_none _ _ Hf _ Hin). Qed.

Lemma found_data d v : response_data (found d) = Some (RView v) -> d = RView v.
Proof. unfold found, send_json_response. simpl. case_match; congruence. Qed.

Lemma view_of_guuid ph pd :
  v_has_guuid (view_of ph pd) = false \/ guuid (v_record (view_of ph pd)) = "".
Proof. unfold view_of. simpl. case_bool_decide; auto. Qed.

Lemma run_gdb_lookup l bt bo al (w : gworld) :
  run (gdb_lookup l bt bo al) w =
  run (if decide (l = "all_delegations")
       then mret (found (RDelegations (enrich_all (decode_all (map_to_list (w_store w))))))
       else if bt then
         mret (match first_record (telegram_match l) (decode_all (map_to_list (w_store w))) with
               | Some (ph, pd) => found (RView (view_of ph pd))
               | None => nok (DTelegramNotFound l)
               end)
       else if bo then
         mret (match first_record (λ pd, existsb (order_hash_match l) (delegations pd))
                                  (decode_all (map_to_list (w_store w))) with
               | Some (ph, pd) =>
                   found (RView (View pd false (generate_wallet_addresses (sign_id pd) ph)))
               | None => nok (DOrderNotFound l)
               end)
       else if negb (validate_address l) then
         mret (if al then
                 match flat_map (λ kv, matched_names true l kv.2)
                                (decode_all (map_to_list (w_store w))) with
                 | [] => nok (DNameNotFound l)
                 | res => found (RNames res)
                 end
               else
                 match first_record (λ pd, negb (bool_decide (matched_names false l pd = [])))
                                    (decode_all (map_to_list (w_store w))) with
                 | Some (ph, pd) => found (RView (view_of ph pd))
                 | None => nok (DNameNotFound l)
                 end)
       else lookup_by_address l) w.
Proof. unfold gdb_lookup. rewrite run_mbind, run_get_all. done. Qed.

Lemma lookup_read_only l bt bo al (w : gworld) : snd (run (gdb_lookup l bt bo al) w) = w.
Proof.
  rewrite run_gdb_lookup.
  repeat (case_decide || case_match); try done.
  unfold lookup_by_address. destruct (truthy_hash _) as [[ph sid]|]; [|done].
  rewrite run_mbind. simpl. repeat case_match; done.
Qed.

Lemma matched_names_exact l pd n :
  In n (matched_names false l pd) <->
  is_Some (registered_names pd !! n) /\ str_lower l = str_lower n.
Proof.
  unfold matched_names. rewrite filter_In, in_map_iff. split.
  - intros [[[n' x] [<- Hin]] Hb]. apply list_elem_of_In, elem_of_map_to_list in Hin.
    simpl in *. apply bool_decide_eq_true in Hb. eauto.
  - intros [[x Hx] Heq]. split; [|by apply bool_decide_eq_true].
    exists (n, x). split; [done|]. apply list_elem_of_In, elem_of_map_to_list. done.
Qed.

Lemma str_lower_nonempty p : p <> "" -> str_lower p <> "".
Proof. by destruct p. Qed.

(** The profile test of [by_telegram_name], on the record's socials. *)
Lemma telegram_match_spec l pd :
  telegram_match l pd = true <->
  exists p, socials pd !! "telegram" = Some p /\ p <> "" /\ str_lower p = str_lower l.
Proof.
  unfold telegram_match, telegram_profile. rewrite andb_true_iff, !bool_decide_eq_true.
  destruct (socials pd !! "telegram") as [p|]; simpl.
  - split; [intros [Hp Heq]; exists p; split; [done|]; split; [by intros ->|done]|].
    intros (p' & [= <-] & Hp & Heq). split; [by apply str_lower_nonempty|done].
  - split; [by intros []|]. by intros (p & ? & _).
Qed.

(** ** Properties of the lookups *)

(** C16: no single-record answer of any lookup mode exposes a non-empty
    [guuid]. *)
Theorem lookup_never_exposes_guuid l bt bo al (w : gworld) v :
  response_data (fst (run (gdb_lookup l bt bo al) w)) = Some (RView v) ->
  v_has_guuid v = false \/ guuid (v_record v) = "".
Proof.
  rewrite run_gdb_lookup.
  destruct (decide _); cbn -[found]; [by intros ?%found_data|].
  destruct bt; cbn -[found].
  { destruct (first_record _ _) as [[ph pd]|]; cbn -[found]; [|done].
    intros ?%found_data. simplify_eq. apply view_of_guuid. }
  destruct bo; cbn -[found].
  { destruct (first_record _ _) as [[ph pd]|]; cbn -[found]; [|done].
    intros ?%found_data. simplify_eq. by left. }
  destruct (validate_address l); cbn -[found].
  - unfold lookup_by_address. destruct (truthy_hash _) as [[ph sid]|]; cbn -[found]; [|done].
    rewrite ?run_mbind. cbn -[found].
    destruct (w_store w !! ph) as [[r|raw]|]; cbn -[found]; [|by case_decide|done].
    intros ?%found_data. simplify_eq. apply view_of_guuid.
  - destruct al.
    + destruct (flat_map _ _); cbn -[found]; [done|]. by intros ?%found_data.
    + destruct (first_record _ _) as [[ph pd]|]; cbn -[found]; [|done].
      intros ?%found_data. simplify_eq. apply view_of_guuid.
Qed.

(** C17: in a well-formed store with unique names, looking up a name
    (in any letter case) answers the record that owns it. *)
Theorem lookup_by_name_finds_owner (w : gworld) k r n l :
  names_unique (w_store w) -> names_lower (w_store w) ->
  w_store w !! k = Some (Stored r) -> is_Some (registered_names r !! n) ->
  str_lower l = n -> l <> "all_delegations" -> validate_address l = false ->
  fst (run (gdb_lookup l false false false) w) = found (RView (view_of k r)).
Proof.
  intros U Hlow Hk Hn Hln Hne Hv. rewrite run_gdb_lookup, decide_False by done. rewrite Hv.
  simpl.
  destruct (first_record _ _) as [[k' r']|] eqn:Hf.
  - apply first_record_some in Hf as [Hin Hp]. apply in_decode_all_lookup in Hin.
    destruct (matched_names false l r') as [|n' ns] eqn:Hm; [done|].
    assert (Hn' : In n' (matched_names false l r')) by (rewrite Hm; left; done).
    apply matched_names_exact in Hn' as [Hsome Heq].
    rewrite (Hlow _ _ _ Hin Hsome) in Heq. subst n'.
    rewrite Hln in Hsome. assert (k' = k) as -> by (eapply U; eauto).
    rewrite Hk in Hin. simplify_eq. done.
  - exfalso. pose proof (first_record_none _ _ _ _ Hf (in_decode_all_store _ _ _ Hk)) as Hp.
    simpl in Hp. apply negb_false_iff, bool_decide_eq_true in Hp.
    assert (Hin : In n (matched_names false l r)).
    { apply matched_names_exact. split; [done|]. rewrite Hln.
      symmetry. by eapply Hlow. }
    rewrite Hp in Hin. done.
Qed.

(** C18: a lookup by wallet address answers the stored record with
    status 0 even when it holds no name at all (after the sweeper removed
    its last one), where the spec expects NotFound. *)
Theorem lookup_by_address_answers_nameless (w : gworld) l ph sid r :
  l <> "all_delegations" -> validate_address l = true ->
  truthy_hash (get_public_hash (wallet_payload l)) = Some (ph, sid) ->
  w_store w !! ph = Some (Stored r) -> registered_names r = ∅ ->
  fst (run (gdb_lookup l false false false) w) = found (RView (view_of ph r)).
Proof.
  intros Hne Hv Hh Hph _. rewrite run_gdb_lookup, decide_False by done. rewrite Hv. simpl.
  unfold lookup_by_address. rewrite Hh, run_mbind. simpl. rewrite Hph. done.
Qed.

(** C19: a lookup by Telegram handle answers status 0 exactly when some
    stored record has a non-empty Telegram profile equal to the handle up
    to ASCII letter case, and then it answers one such record. *)
Theorem lookup_by_telegram_spec (w : gworld) l :
  l <> "all_delegations" ->
  (status_code (fst (run (gdb_lookup l true false false) w)) = 0 ->
   exists k pd p, w_store w !! k = Some (Stored pd) /\ socials pd !! "telegram" = Some p /\
     p <> "" /\ str_lower p = str_lower l /\
     response_data (fst (run (gdb_lookup l true false false) w)) = Some (RView (view_of k pd))) /\
  ((exists k pd p, w_store w !! k = Some (Stored pd) /\ socials pd !! "telegram" = Some p /\
     p <> "" /\ str_lower p = str_lower l) ->
   status_code (fst (run (gdb_lookup l true false false) w)) = 0).
Proof.
  intros Hne. rewrite run_gdb_lookup, decide_False by done. simpl.
  destruct (first_record _ _) as [[k pd]|] eqn:Hf.
  - apply first_record_some in Hf as [Hin (p & Hp)%telegram_match_spec].
    apply in_decode_all_lookup in Hin. split; [|done]. intros _. destruct Hp as (? & ? & ?). by exists k, pd, p.
  - split; [done|]. intros (k & pd & p & Hk & Hp).
    pose proof (first_record_none _ _ _ _ Hf (in_decode_all_store _ _ _ Hk)) as Hm. simpl in Hm.
    assert (telegram_match l pd = true) by (apply telegram_match_spec; eauto). congruence.
Qed.

End LookupProofs.

(** ** Witnesses *)

Lemma lookup_never_exposes_guuid_witness :
  response_data (fst (run (gdb_lookup (AP:=demo_parser) (WD:=demo_deriver) "Alice" false false false)
                          demo_world)) = Some (RView (view_of (WD:=demo_deriver) "abcd" demo_alice)) /\
  (v_has_guuid (view_of (WD:=demo_deriver) "abcd" demo_alice) = false \/
   guuid (v_record (view_of (WD:=demo_deriver) "abcd" demo_alice)) = "").
Proof.
  assert (H : response_data (fst (run (gdb_lookup (AP:=demo_parser) (WD:=demo_deriver) "Alice"
                false false false) demo_world)) = Some (RView (view_of (WD:=demo_deriver) "abcd" demo_alice)))
    by (vm_compute; reflexivity).
  split; [exact H|]. exact (lookup_never_exposes_guuid _ _ _ _ _ _ H).
Defined.

Lemma lookup_by_name_finds_owner_witness :
  names_unique (w_store demo_world) /\ names_lower (w_store demo_world) /\
  fst (run (gdb_lookup (AP:=demo_parser) (WD:=demo_deriver) "ALICE" false false false) demo_world) =
  found (RView (view_of (WD:=demo_deriver) "abcd" demo_alice)).
Proof.
  assert (U : names_unique (w_store demo_world)) by (apply names_uniqueb_sound; vm_compute; reflexivity).
  assert (L : names_lower (w_store demo_world)) by (apply store_wfb_sound; vm_compute; reflexivity).
  split; [exact U|]. split; [exact L|].
  apply (lookup_by_name_finds_owner (AP:=demo_parser) _ _ _ "alice" _ U L);
    [vm_compute; reflexivity|by eexists|reflexivity|discriminate|reflexivity].
Defined.

Lemma lookup_by_address_answers_nameless_witness :
  w_store demo_swept_world !! "abcd" = Some (Stored (set_names demo_alice ∅)) /\
  fst (run (gdb_lookup (AP:=demo_parser) (WD:=demo_deriver) "W1" false false false) demo_swept_world) =
  found (RView (view_of (WD:=demo_deriver) "abcd" (set_names demo_alice ∅))).
Proof.
  assert (Hk : w_store demo_swept_world !! "abcd" = Some (Stored (set_names demo_alice ∅)))
    by (vm_compute; reflexivity).
  split; [exact Hk|].
  apply (lookup_by_address_answers_nameless (AP:=demo_parser) _ _ _ 3);
    [discriminate|reflexivity|reflexivity|exact Hk|reflexivity].
Defined.

Lemma lookup_by_telegram_spec_witness :
  "ALICE_TG" <> "all_delegations" /\
  status_code (fst (run (gdb_lookup (AP:=demo_parser) (WD:=demo_deriver) "ALICE_TG" true false false)
                        demo_tg_world)) = 0 /\
  ((status_code (fst (run (gdb_lookup (AP:=demo_parser) (WD:=demo_deriver) "ALICE_TG" true false false)
                          demo_tg_world)) = 0 ->
    exists k pd p, w_store demo_tg_world !! k = Some (Stored pd) /\ socials pd !! "telegram" = Some p /\
      p <> "" /\ str_lower p = str_lower "ALICE_TG" /\
      response_data (fst (run (gdb_lookup (AP:=demo_parser) (WD:=demo_deriver) "ALICE_TG" true false false)
                              demo_tg_world)) = Some (RView (view_of (WD:=demo_deriver) k pd))) /\
   ((exists k pd p, w_store demo_tg_world !! k = Some (Stored pd) /\ socials pd !! "telegram" = Some p /\
      p <> "" /\ str_lower p = str_lower "ALICE_TG") ->
    status_code (fst (run (gdb_lookup (AP:=demo_parser) (WD:=demo_deriver) "ALICE_TG" true false false)
                          demo_tg_world)) = 0)).
Proof.
  split; [discriminate|]. split; [vm_compute; reflexivity|].
  apply lookup_by_telegram_spec. discriminate.
Defined.

End Lookup.
