(* ===== verification/Handlers.v ===== *)
(** * Request validation and dispatch: [src/backend/handlers.py]

    [request_handler] decodes the body and dispatches on the method;
    [handle_post_request] validates the JSON body with
    [Utils.validate_json_data] (which calls [Utils.validate_dna_name] and
    [Utils.validate_address], [src/backend/utils.py]) and calls
    [write_gdb_data] ("add") or [update_gdb_data_old_name] ("update");
    [handle_get_request] routes the first query parameter it recognises to
    [gdb_lookup] or to [Utils.is_tx_accepted].

    JSON decoding ([json.loads]), the configuration file
    ([Config.load_config]) and the ledger query ([is_tx_accepted]) are
    collaborators the sources only call: they are section variables. *)

From S2P Require Import Prelude Bytes Model Registry Sweeper Lookup.
Import Model Registry Sweeper Lookup.

Module Handlers.
Local Open Scope Z_scope.

(** A decoded POST body: the ["action"] key and the rest of the object
    (a JSON object that is not a dict is not modelled). *)
Record request := Request {
  rq_action : option string;
  rq_data : payload
}.

(** The body of an HTTP request: absent or [b""] (falsy), bytes that are
    not UTF-8, or a decoded text. *)
Inductive body := NoBody | BadUtf8 | Text (s : string).

Record http_request := HttpRequest {
  method : string;
  req_body : body;
  query : list (string * string)   (** the [key=value] pairs of the query string *)
}.

(** How [Utils.validate_json_data] ends: [False]/[None] (valid), an error
    message, or an exception that escapes it. *)
Inductive vresult := Valid | Invalid (e : verr) | VRaise.

(** ** [Utils.validate_dna_name] *)

(** The class [[a-zA-Z0-9\.\_\-]]. *)
Definition name_char (c : ascii) : bool :=
  let n := nat_of_ascii c in
  ((97 <=? n) && (n <=? 122))%nat || ((65 <=? n) && (n <=? 90))%nat
  || ((48 <=? n) && (n <=? 57))%nat
  || bool_decide (c = "."%char) || bool_decide (c = "_"%char) || bool_decide (c = "-"%char).

(** The rest of a match of [[...]+$] after its first character: more
    class characters up to the end, where [$] also matches just before a
    final newline. *)
Fixpoint name_run (s : string) : bool :=
  match s with
  | EmptyString => true
  | String c s' => (name_char c && name_run s')
                   || (bool_decide (c = "010"%char) && bool_decide (s' = EmptyString))
  end.

(** [re.match(r"^[a-zA-Z0-9\.\_\-]+$", name)] *)
Definition name_regex (s : string) : bool :=
  match s with
  | EmptyString => false
  | String c s' => name_char c && name_run s'
  end.

Definition validate_dna_name (name : string) : bool :=
  name_regex name && (3 <=? String.length name)%nat && (String.length name <=? 36)%nat.

(** [if not x] on a string value: absent or empty. *)
Definition falsy (o : option string) : bool :=
  match o with None | Some EmptyString => true | _ => false end.

Section Handlers.
Context {AP : AddressParser} {WD : WalletDeriver}.

(** [json.loads(payload)]; [None] is [JSONDecodeError]. *)
Variable json_loads : string -> option request.

(** [c.load_config().get("DISALLOWED_NAMES")]: [None] when the file or
    the key is missing ([load_config] then returns [{}]). *)
Variable DISALLOWED_NAMES : option (list string).

(** [Utils.is_tx_accepted(tx_hash, network)]: a query of the node's ledger. *)
Variable is_tx_accepted : string -> option string -> response.

(** [Utils.validate_json_data(data)] *)
Definition validate_json_data (data : string) : vresult :=
  match json_loads data with
  | None => Invalid VJsonDecode
  | Some j =>
      if falsy (rq_action j) then Invalid VNoAction
      else if decide (rq_action j = Some "add") then
        match p_name (rq_data j) with
        | None | Some EmptyString => Invalid VMissingName
        | Some name =>
            if negb (validate_dna_name name) then Invalid (VInvalidName name)
            else match DISALLOWED_NAMES with
                 | None => VRaise          (* [name in None]: TypeError *)
                 | Some dl =>
                     if decide (name ∈ dl) then Invalid (VDisallowed name)
                     else match p_wallet (rq_data j) with
                          | None | Some EmptyString => Invalid VMissingWallet
                          | Some a => if validate_address a then Valid
                                      else Invalid (VInvalidWallet a)
                          end
                 end
        end
      else Valid                          (* "update" and unknown actions *)
  end.

(** [handle_post_request(payload)] *)
Definition handle_post_request (payload : string) : gprog response :=
  match validate_json_data payload with
  | VRaise => mret (nok DProcessingError)
  | Invalid e => mret (nok (DValidation e))
  | Valid =>
      match json_loads payload with
      | None => mret (nok DProcessingError)
      | Some j =>
          if falsy (rq_action j) then mret (nok DActionMissing)
          else if decide (rq_action j = Some "add") then write_gdb_data (rq_data j)
          else if decide (rq_action j = Some "update") then update_gdb_data_old_name (rq_data j)
          else mret (nok DInvalidAction)
      end
  end.

(** [{k: v[0] for k, v in parse_qs(query).items()}]: the first value of
    each key; [parse_qs] drops blank values. *)
Definition query_params (q : list (string * string)) : gmap string string :=
  foldr (λ kv m, if decide (kv.2 = "") then m else <[kv.1 := kv.2]> m) ∅ q.

(** [handle_get_request(query)] *)
Definition handle_get_request (q : list (string * string)) : gprog response :=
  let qp := query_params q in
  match qp !! "tx_validate" with
  | Some tx => mret (is_tx_accepted tx (qp !! "network"))
  | None =>
  match qp !! "lookup" with
  | Some l => gdb_lookup l false false false
  | None =>
  match qp !! "lookup2" with
  | Some l => gdb_lookup l false false true
  | None =>
  match qp !! "by_telegram" with
  | Some l => gdb_lookup l true false false
  | None =>
  match qp !! "by_order" with
  | Some l => gdb_lookup l false true false
  | None =>
  match qp !! "all_delegations" with
  | Some _ => gdb_lookup "all_delegations" false false false
  | None => mret (nok DMissingQuery)
  end end end end end end.

(** [request_handler(request)]; [None] is an exception that escapes to
    the HTTP server: a POST without a body reads the unbound [payload]
    ([UnboundLocalError]). *)
Definition request_handler (rq : http_request) : gprog (option response) :=
  match req_body rq with
  | BadUtf8 => mret (Some (nok DInvalidJSON))
  | b =>
      if decide (method rq = "POST") then
        match b with
        | Text s => if decide (s = "") then mret None
                    else r ← handle_post_request s; mret (Some r)
        | _ => mret None
        end
      else if decide (method rq = "GET") then
        r ← handle_get_request (query rq); mret (Some r)
      else mret (Some (nok DInvalidMethod))
  end.

End Handlers.

(** ** Specification of the name rule *)

Definition NL : string := String "010"%char EmptyString.

(** Every character is in the class [[a-zA-Z0-9._-]]. *)
Fixpoint all_name_chars (s : string) : bool :=
  match s with
  | EmptyString => true
  | String c s' => name_char c && all_name_chars s'
  end.

(** ** Concrete inputs for the witnesses *)

(** The JSON bodies the witnesses send, by their text. *)
Definition demo_json (s : string) : option request :=
  if decide (s = "update-x") then Some (Request (Some "update") (demo_request "x!" "W1"))
  else if decide (s = "add-Admin") then Some (Request (Some "add") (demo_request "Admin" "W2"))
  else if decide (s = "add-admin") then Some (Request (Some "add") (demo_request "admin" "W2"))
  else if decide (s = "add-newline") then Some (Request (Some "add") (demo_request ("abc" +:+ NL) "W2"))
  else if decide (s = "add-bob") then Some (Request (Some "add") (demo_request "bob" "W2"))
  else None.

(** A ledger that accepts every transaction. *)
Definition demo_ledger (tx : string) (net : option string) : response :=
  send_json_response (Some MsgOK) None 0 None.

Section HandlersProofs.
Context {AP : AddressParser} {WD : WalletDeriver}.
Variable json_loads : string -> option request.
Variable DISALLOWED_NAMES : option (list string).
Variable is_tx_accepted : string -> option string -> response.

(** ** Lemmas *)

Lemma name_run_spec s :
  name_run s = true <->
  all_name_chars s = true \/ exists t, all_name_chars t = true /\ s = t +:+ NL.
Proof.
  induction s as [|c s IH]; simpl.
  - split; [by left|done].
  - rewrite orb_true_iff, !andb_true_iff, IH, !bool_decide_eq_true. split.
    + intros [[Hc [Ha | (t & Ht & ->)]] | [-> ->]].
      * left. by rewrite Hc, Ha.
      * right. exists (String c t). simpl. by rewrite Hc, Ht.
      * right. by exists "".
    + intros [[Hc Ha] | (t & Ht & Heq)]; [by auto|].
      destruct t as [|c' t]; simpl in Heq; injection Heq as -> ->; [by right|].
      simpl in Ht. apply andb_true_iff in Ht as [Hc Ht]. left. eauto.
Qed.

Lemma name_regex_spec s :
  name_regex s = true <->
  exists t, t <> "" /\ all_name_chars t = true /\ (s = t \/ s = t +:+ NL).
Proof.
  destruct s as [|c s]; simpl.
  - split; [done|]. intros (t & Hne & _ & [<- | Heq]); [done|]. by destruct t.
  - rewrite andb_true_iff, name_run_spec. split.
    + intros [Hc [Ha | (t & Ht & ->)]].
      * exists (String c s). simpl. rewrite Hc, Ha. auto.
      * exists (String c t). simpl. rewrite Hc, Ht. auto.
    + intros (t & Hne & Ht & [<- | Heq]).
      * simpl in Ht. apply andb_true_iff in Ht as [Hc Ha]. auto.
      * destruct t as [|c' t]; [done|]. simpl in Heq. injection Heq as -> ->.
        simpl in Ht. apply andb_true_iff in Ht as [Hc Ht]. eauto.
Qed.

Lemma is_ok_nok d : is_ok (nok d) = false.
Proof. reflexivity. Qed.

(** The first two checks of an "add" body. *)
Lemma validate_add s j :
  json_loads s = Some j -> rq_action j = Some "add" ->
  validate_json_data json_loads DISALLOWED_NAMES s =
  match p_name (rq_data j) with
  | None | Some EmptyString => Invalid VMissingName
  | Some name =>
      if negb (validate_dna_name name) then Invalid (VInvalidName name)
      else match DISALLOWED_NAMES with
           | None => VRaise
           | Some dl =>
               if decide (name ∈ dl) then Invalid (VDisallowed name)
               else match p_wallet (rq_data j) with
                    | None | Some EmptyString => Invalid VMissingWallet
                    | Some a => if validate_address a then Valid else Invalid (VInvalidWallet a)
                    end
           end
  end.
Proof. intros Hj Ha. unfold validate_json_data. by rewrite Hj, Ha. Qed.

Lemma handle_get_request_read_only q (w : gworld) :
  snd (run (handle_get_request is_tx_accepted q) w) = w.
Proof.
  unfold handle_get_request. cbv zeta.
  repeat case_match; try done; apply lookup_read_only.
Qed.

(** ** Properties of the request path *)

(** C23: [validate_dna_name] accepts exactly the strings of 3 to 36
    characters that are a non-empty run of [[a-zA-Z0-9._-]], optionally
    followed by one newline ([$] matches before a final newline): a name
    ending in a line feed passes. *)
Theorem validate_dna_name_spec s :
  validate_dna_name s = true <->
  (exists t, t <> "" /\ all_name_chars t = true /\ (s = t \/ s = t +:+ NL)) /\
  (3 <= String.length s <= 36)%nat.
Proof.
  unfold validate_dna_name. rewrite !andb_true_iff, !Nat.leb_le, name_regex_spec. tauto.
Qed.

(** C24: an "update" body passes [validate_json_data] whatever it holds:
    the request is exactly [update_gdb_data_old_name] of its data, so a
    name given in an update is registered without the name rule or the
    disallowed list. *)
Theorem post_update_skips_validation s j :
  json_loads s = Some j -> rq_action j = Some "update" ->
  handle_post_request json_loads DISALLOWED_NAMES s = update_gdb_data_old_name (rq_data j).
Proof.
  intros Hj Ha. unfold handle_post_request, validate_json_data. rewrite Hj, Ha.
  cbn [falsy]. by repeat case_decide; simplify_eq.
Qed.

(** C25: an "add" request that succeeds had a name that passes the name
    rule and is not on the configured disallowed list, and a wallet
    address the parser accepts. *)
Theorem post_add_validated s j (w : gworld) :
  json_loads s = Some j -> rq_action j = Some "add" ->
  is_ok (fst (run (handle_post_request json_loads DISALLOWED_NAMES s) w)) = true ->
  exists name dl a, p_name (rq_data j) = Some name /\ validate_dna_name name = true /\
    DISALLOWED_NAMES = Some dl /\ (name ∉ dl) /\
    p_wallet (rq_data j) = Some a /\ validate_address a = true.
Proof.
  intros Hj Ha. unfold handle_post_request. rewrite (validate_add s j Hj Ha).
  destruct (p_name _) as [[|c n]|]; [done| |done].
  destruct (validate_dna_name _) eqn:Hv; [|done].
  destruct DISALLOWED_NAMES as [dl|]; [|done].
  case_decide; [done|].
  destruct (p_wallet _) as [[|c' a]|]; [done| |done].
  destruct (validate_address _) eqn:Hva; [|done].
  intros _. eauto 10.
Qed.

(** C26: when the configuration has no [DISALLOWED_NAMES] (no
    [config.json]: [load_config] returns [{}]), [name in None] raises:
    every "add" with a well-formed name fails with "Error while
    processing action" and changes nothing. *)
Theorem post_add_without_config_fails s j name (w : gworld) :
  DISALLOWED_NAMES = None -> json_loads s = Some j -> rq_action j = Some "add" ->
  p_name (rq_data j) = Some name -> validate_dna_name name = true ->
  run (handle_post_request json_loads DISALLOWED_NAMES s) w = (nok DProcessingError, w).
Proof.
  intros Hc Hj Ha Hn Hv. unfold handle_post_request.
  rewrite (validate_add s j Hj Ha), Hn, Hc. destruct name as [|c n]; [done|]. by rewrite Hv.
Qed.

(** A request that is not a POST (a GET, another method, or a body
    that is not UTF-8) never changes the store, the clock or the uuid
    generator. *)
Theorem requests_other_than_post_read_only rq (w : gworld) :
  method rq <> "POST" ->
  snd (run (request_handler json_loads DISALLOWED_NAMES is_tx_accepted rq) w) = w.
Proof.
  intros Hm. unfold request_handler.
  destruct (req_body rq); try done; rewrite decide_False by done;
    (case_decide; [|done]); rewrite run_mbind;
    pose proof (handle_get_request_read_only (query rq) w) as Hr;
    destruct (run (handle_get_request _ _) w); simpl in *; by subst.
Qed.

(** A POST without a body raises [UnboundLocalError] out of
    [request_handler] ([payload] is only bound when the body is
    non-empty); the store is untouched. *)
Theorem post_without_body_raises rq (w : gworld) :
  method rq = "POST" -> req_body rq = NoBody ->
  run (request_handler json_loads DISALLOWED_NAMES is_tx_accepted rq) w = (None, w).
Proof. intros Hm Hb. unfold request_handler. rewrite Hb, Hm. by rewrite decide_True. Qed.

(** C20: "all_delegations" passes the name rule, so a wallet can
    register it, yet a GET that looks it up answers, whatever the store
    holds, the list of every delegation and leaves the store as it was:
    the record holding that name is never answered by a name lookup. *)
Theorem lookup_all_delegations_shadows_name rq (w : gworld) :
  method rq = "GET" -> req_body rq <> BadUtf8 ->
  query_params (query rq) !! "tx_validate" = None ->
  query_params (query rq) !! "lookup" = Some "all_delegations" ->
  validate_dna_name "all_delegations" = true /\
  run (request_handler json_loads DISALLOWED_NAMES is_tx_accepted rq) w =
    (Some (found (RDelegations (enrich_all (decode_all (map_to_list (w_store w)))))), w).
Proof.
  intros Hm Hb Htx Hl. split; [reflexivity|]. unfold request_handler. rewrite Hm.
  destruct (req_body rq); [| done |];
    rewrite decide_False, decide_True, run_mbind by done;
    unfold handle_get_request; cbv zeta; rewrite Htx, Hl, run_gdb_lookup, decide_True by done;
    reflexivity.
Qed.

End HandlersProofs.

(** A name with a trailing line feed passes validation and is
    registered as it is: "abc" followed by a newline becomes a name of
    the store. *)
Theorem post_add_newline_name_registered :
  validate_dna_name ("abc" +:+ NL) = true /\
  w_store (snd (run (handle_post_request (AP:=demo_parser) demo_json (Some []) "add-newline")
                    demo_world)) !! "0102"
  = Some (Stored (new_record "0102" (uuid_of 1) 3 ("abc" +:+ NL) 100 100 None)).
Proof. split; vm_compute; reflexivity. Qed.

(** The disallowed list is checked against the name as sent, but the
    name is registered lower-cased: with "admin" disallowed, "admin" is
    refused and "Admin" registers "admin". *)
Theorem disallowed_names_case_sensitive :
  fst (run (handle_post_request (AP:=demo_parser) demo_json (Some ["admin"]) "add-admin")
           demo_world) = nok (DValidation (VDisallowed "admin")) /\
  w_store (snd (run (handle_post_request (AP:=demo_parser) demo_json (Some ["admin"]) "add-Admin")
                    demo_world)) !! "0102"
  = Some (Stored (new_record "0102" (uuid_of 1) 3 "admin" 100 100 None)).
Proof. split; vm_compute; reflexivity. Qed.

(** ** Witnesses *)

Lemma post_update_skips_validation_witness :
  validate_dna_name "x!" = false /\
  handle_post_request (AP:=demo_parser) demo_json None "update-x" =
    update_gdb_data_old_name (AP:=demo_parser) (demo_request "x!" "W1") /\
  match w_store (snd (run (handle_post_request (AP:=demo_parser) demo_json None "update-x")
                          demo_world)) !! "abcd" with
  | Some (Stored r) => is_Some (registered_names r !! "x!")
  | _ => False
  end.
Proof.
  split; [reflexivity|]. split.
  - apply (post_update_skips_validation (AP:=demo_parser) demo_json None "update-x"
             (Request (Some "update") (demo_request "x!" "W1"))); reflexivity.
  - vm_compute. eexists. reflexivity.
Defined.

Lemma post_add_validated_witness :
  is_ok (fst (run (handle_post_request (AP:=demo_parser) demo_json (Some []) "add-bob")
                  demo_world)) = true /\
  exists name dl a, p_name (demo_request "bob" "W2") = Some name /\
    validate_dna_name name = true /\ Some [] = Some dl /\ (name ∉ dl) /\
    p_wallet (demo_request "bob" "W2") = Some a /\ validate_address (AP:=demo_parser) a = true.
Proof.
  assert (H : is_ok (fst (run (handle_post_request (AP:=demo_parser) demo_json (Some []) "add-bob")
                              demo_world)) = true) by (vm_compute; reflexivity).
  split; [exact H|].
  exact (post_add_validated (AP:=demo_parser) demo_json (Some []) "add-bob"
           (Request (Some "add") (demo_request "bob" "W2")) demo_world eq_refl eq_refl H).
Defined.

Lemma post_add_without_config_fails_witness :
  run (handle_post_request (AP:=demo_parser) demo_json None "add-bob") demo_world =
  (nok DProcessingError, demo_world).
Proof.
  apply (post_add_without_config_fails (AP:=demo_parser) demo_json None "add-bob"
           (Request (Some "add") (demo_request "bob" "W2")) "bob"); reflexivity.
Defined.

Lemma requests_other_than_post_read_only_witness :
  snd (run (request_handler (AP:=demo_parser) (WD:=demo_deriver) demo_json None demo_ledger
              (HttpRequest "GET" NoBody [("lookup", "alice")])) demo_world) = demo_world.
Proof.
  apply (requests_other_than_post_read_only (AP:=demo_parser) (WD:=demo_deriver)). done.
Defined.

Lemma post_without_body_raises_witness :
  run (request_handler (AP:=demo_parser) (WD:=demo_deriver) demo_json None demo_ledger
         (HttpRequest "POST" NoBody [])) demo_world = (None, demo_world).
Proof.
  apply (post_without_body_raises (AP:=demo_parser) (WD:=demo_deriver)); reflexivity.
Defined.

Lemma lookup_all_delegations_shadows_name_witness :
  validate_dna_name "all_delegations" = true /\
  run (request_handler (AP:=demo_parser) (WD:=demo_deriver) demo_json None demo_ledger
         (HttpRequest "GET" NoBody [("lookup", "all_delegations")])) demo_world =
    (Some (found (RDelegations (enrich_all (decode_all (map_to_list (w_store demo_world)))))), demo_world).
Proof.
  apply (lookup_all_delegations_shadows_name (AP:=demo_parser) (WD:=demo_deriver));
    [reflexivity|discriminate|reflexivity|reflexivity].
Defined.

End Handlers.
