(* ===== verification/Services.v ===== *)
(** * The configuration file and the ledger check

    [src/backend/config.py]: [Config.load_config] reads [config.json]
    next to the plugin ([get_config_file]) and answers [{}] when the file
    is missing or is not JSON; [save_config] writes it.  The file system
    is a map from paths to contents ([fs]) and JSON is an interface
    ([ConfigJson], with its round-trip law); a configuration holds the
    two keys the code reads, [DISALLOWED_NAMES] and [NET_IDS].

    [Utils.generate_wallet_addresses] reads [NET_IDS] and parses each
    network id with [int(net['id'], 16)] ([int_hex]); [Utils.is_tx_accepted]
    asks the node's ledger ([Ledger], an interface) whether a transaction
    is accepted.  Both are connected to the request path of [Handlers]. *)

From S2P Require Import Prelude Bytes Address Model Registry Sweeper Lookup Handlers.
Import Bytes Address Model Registry Sweeper Lookup Handlers.

Module Services.
Local Open Scope Z_scope.

(** ** [Config] *)

(** One entry of [NET_IDS]; [None] is a missing key ([KeyError]). *)
Record net_entry := NetEntry {
  net_name : option string;   (** [net['name']] *)
  net_id : option string      (** [net['id']] *)
}.

(** The keys of [config.json] the code reads; [None] is an absent key. *)
Record config := Config {
  cfg_disallowed : option (list string);   (** [DISALLOWED_NAMES] *)
  cfg_net_ids : option (list net_entry)    (** [NET_IDS] *)
}.

(** [{}] *)
Definition empty_config : config := Config None None.

(** [json.load] and [json.dump] of a configuration. *)
Class ConfigJson := {
  config_loads : string -> option config;
  config_dumps : config -> string;
  config_loads_dumps c : config_loads (config_dumps c) = Some c
}.

(** [os.path.join(a, b)] for a relative [b]. *)
Definition path_join (a b : string) : string :=
  if decide (a = "") then b else if String.prefix "/" (str_rev a) then a +:+ b else a +:+ "/" +:+ b.

(** [Config.get_config_file()], with the directory of the plugin. *)
Definition get_config_file (script_dir : string) : string := path_join script_dir "config.json".

Section ConfigFile.
Context `{ConfigJson}.

(** [Config.load_config()] *)
Definition load_config (fs : gmap string string) (script_dir : string) : config :=
  match fs !! get_config_file script_dir with
  | None => empty_config                              (* FileNotFoundError *)
  | Some text => default empty_config (config_loads text)   (* JSONDecodeError *)
  end.

(** [Config.save_config(config_data)] *)
Definition save_config (fs : gmap string string) (script_dir : string) (config_data : config) : gmap string string :=
  <[get_config_file script_dir := config_dumps config_data]> fs.

End ConfigFile.

(** ** [int(s, 16)] *)

(** The digits after the prefix; one [_] may precede each digit. *)
Fixpoint hex_digits (acc : Z) (cs : list ascii) : option Z :=
  match cs with
  | [] => Some acc
  | "_"%char :: c :: r => d ← digit_val c; hex_digits (16 * acc + d) r
  | c :: r => d ← digit_val c; hex_digits (16 * acc + d) r
  end.

(** [int(s, 16)]: surrounding whitespace, a sign, an optional [0x]
    prefix (after which an [_] may come), then hex digits with single
    underscores between them; [None] is the [ValueError]. *)
Definition int_hex (s : string) : option Z :=
  let cs := list_ascii_of_string (strip s) in
  let '(sg, cs1) := match cs with
                    | "-"%char :: r => (-1, r)
                    | "+"%char :: r => (1, r)
                    | _ => (1, cs)
                    end in
  let body := match cs1 with
              | "0"%char :: x :: r => if decide (x = "x"%char \/ x = "X"%char) then Some r else Some cs1
              | c :: _ => if decide (c = "_"%char) then None else Some cs1
              | [] => None
              end in
  match body with
  | None | Some [] => None
  | Some b => (λ n, sg * n) <$> hex_digits 0 b
  end.

(** ** [Utils.generate_wallet_addresses] *)

(** [(net['name'], int(net['id'], 16))] *)
Definition parse_net (net : net_entry) : option (string * Z) :=
  name ← net_name net; idt ← net_id net; id ← int_hex idt; Some (name, id).

Section Wallets.
Context `{Sha3}.

(** [Utils.generate_wallet_addresses(sign_id, public_hash)] with the
    configuration: the dict comprehension over
    [load_config().get("NET_IDS", [])], each entry evaluated in turn. *)
Definition generate_wallet_addresses (cfg : config) (sign_id : Z) (public_hash : string)
    : option (gmap string string) :=
  foldl (λ acc net,
           m ← acc; '(name, id) ← parse_net net; ph ← fromhex public_hash;
           a ← build_cf_address 1 id sign_id ph; Some (<[name := a]> m))
        (Some ∅) (default [] (cfg_net_ids cfg)).

End Wallets.

(** ** [Utils.is_tx_accepted] *)

(** What [CFNet(net).get_ledger().tx_by_hash(tx_hash)] gives. *)
Inductive tx_lookup :=
| TxAccepted        (** a transaction with [accepted] true *)
| TxNotAccepted     (** a transaction with [accepted] false *)
| TxNotFound        (** [ValueError] *)
| TxError.          (** any other exception *)

(** The node's ledgers; [None] for a network [CFNet] does not know. *)
Class Ledger := tx_by_hash : string -> string -> option tx_lookup.

Section Ledger.
Context `{Ledger}.

(** [Utils.is_tx_accepted(tx_hash, net)] *)
Definition is_tx_accepted (tx_hash : string) (net : option string) : response :=
  match tx_by_hash (default "Backbone" net) tx_hash with
  | Some TxAccepted => send_json_response (Some MsgOK) None 0 None
  | Some TxNotAccepted => send_json_response (Some MsgNOK) (Some DTxNotAccepted) (-1) None
  | Some TxNotFound => send_json_response (Some MsgNOK) (Some DTxNotFound) (-1) None
  | Some TxError | None => send_json_response (Some MsgNOK) (Some DSystemExploded) (-1) None
  end.

End Ledger.

(** ** Concrete inputs for the witnesses *)

(** A ledger of the "Backbone" network that accepted "tx1" and knows
    "tx2" as not accepted. *)
Definition demo_ledger : Ledger := λ net tx,
  if decide (net = "Backbone") then
    if decide (tx = "tx1") then Some TxAccepted
    else if decide (tx = "tx2") then Some TxNotAccepted else Some TxNotFound
  else None.

(** Two networks, the second configured twice: the later id wins. *)
Definition demo_config : config :=
  Config None (Some [NetEntry (Some "Backbone") (Some "0x0404202200000000");
                     NetEntry (Some "KelVPN") (Some "0x1");
                     NetEntry (Some "KelVPN") (Some "0x1807202300000000")]).

(** ** Lemmas *)

Section ConfigProofs.
Context `{ConfigJson}.

(** What [save_config] writes, [load_config] reads back. *)
Lemma load_save_config fs dir c : load_config (save_config fs dir c) dir = c.
Proof. unfold load_config, save_config. by rewrite lookup_insert_eq, config_loads_dumps. Qed.

(** Without [config.json], the configuration is [{}]. *)
Lemma load_config_missing fs dir : fs !! get_config_file dir = None -> load_config fs dir = empty_config.
Proof. unfold load_config. by intros ->. Qed.

End ConfigProofs.

Section WalletProofs.
Context `{Sha3}.

Lemma foldl_none {A B} (f : option A -> B -> option A) l :
  (forall b, f None b = None) -> foldl f None l = None.
Proof. intros Hf. induction l as [|b l IH]; simpl; [done|]. by rewrite Hf. Qed.

(** The comprehension from a partial dict [m]: when every entry left
    parses and every id is in range, the addresses are added over [m], a
    later entry of a name winning. *)
Lemma generate_wallet_addresses_foldl F sid ph l (m : gmap string string) :
  (forall m net, F (Some m) net =
     '(name, id) ← parse_net net; a ← build_cf_address 1 id sid ph; Some (<[name := a]> m)) ->
  (forall net, F None net = None) ->
  foldl F (Some m) l =
  nets ← mapM parse_net l;
  if bool_decide (Forall (λ ni, 0 <= ni.2 < 2 ^ 64 /\ 0 <= sid < 2 ^ 32) nets)
  then Some (list_to_map (rev (map (λ '(name, id),
               (name, b58encode (cf_raw 1 id sid ph ++ sha3_256 (cf_raw 1 id sid ph)))) nets)) ∪ m)
  else None.
Proof.
  intros HF HN. revert m. induction l as [|net l IH]; intros m; cbn [foldl mapM].
  { simpl. rewrite ?bool_decide_eq_true_2 by constructor. simpl. by rewrite (left_id_L ∅ (∪)). }
  rewrite HF. destruct (parse_net net) as [[name id]|]; simpl; [|by apply foldl_none].
  rewrite build_cf_address_eq.
  unfold cf_in_range. replace (256 ^ 8) with (2 ^ 64) by reflexivity.
  replace (256 ^ 4) with (2 ^ 32) by reflexivity.
  case_bool_decide as Hr; simpl.
  - rewrite IH. destruct (mapM parse_net l) as [nets|]; simpl; [|done].
    case_bool_decide as Hl; case_bool_decide as Hl'; rewrite ?Forall_cons in Hl'; simpl in *;
      try tauto.
    f_equal. rewrite ?map_cons, ?rev_cons, list_to_map_app, <- (assoc_L (∪)). simpl.
    by rewrite <- insert_union_l, (left_id_L ∅ (∪)).
  - rewrite foldl_none by done. destruct (mapM parse_net l) as [nets|]; simpl; [|done].
    rewrite bool_decide_eq_false_2; [done|]. rewrite Forall_cons. simpl. lia.
Qed.

(** C21: the addresses attached to a record stored under the hex of its
    public hash ([_get_public_hash]): when every entry of [NET_IDS] has a
    name and an id [int(id, 16)] parses, and every id fits in 64 bits and
    the signature type in 32, [generate_wallet_addresses] maps each
    network name to the base58 encoding of [version 1 ++ id ++ sign_id ++
    public hash ++ its SHA3-256], the last entry of a name winning; an
    entry that does not parse or an id or signature type out of range
    makes it raise. *)
Theorem generate_wallet_addresses_spec cfg sid ph :
  Forall byte_ok ph ->
  generate_wallet_addresses cfg sid (hex ph) =
  nets ← mapM parse_net (default [] (cfg_net_ids cfg));
  if bool_decide (Forall (λ ni, 0 <= ni.2 < 2 ^ 64 /\ 0 <= sid < 2 ^ 32) nets)
  then Some (list_to_map (rev (map (λ '(name, id),
               (name, b58encode (cf_raw 1 id sid ph ++ sha3_256 (cf_raw 1 id sid ph)))) nets)))
  else None.
Proof.
  intros Hph. unfold generate_wallet_addresses.
  rewrite (generate_wallet_addresses_foldl _ sid ph); [|intros m net; simpl; by rewrite fromhex_hex|done].
  destruct (mapM _ _); simpl; [|done]. by rewrite (right_id_L ∅ (∪)).
Qed.

End WalletProofs.

Section TxProofs.
Context {AP : AddressParser} {WD : WalletDeriver} `{Ledger}.
Variable json_loads : string -> option request.
Variable DISALLOWED_NAMES : option (list string).

(** C27: a GET with a [tx_validate] parameter answers what
    [Utils.is_tx_accepted] answers for that hash and the [network]
    parameter, without touching the registry; the answer has status 0
    exactly when the ledger of that network ("Backbone" when none is
    given) holds the transaction as accepted: a missing transaction, a
    rejected one, an unknown network and a ledger error all answer -1. *)
Theorem tx_validate_answers rq (w : gworld) h :
  method rq = "GET" -> req_body rq <> BadUtf8 ->
  query_params (query rq) !! "tx_validate" = Some h ->
  run (request_handler json_loads DISALLOWED_NAMES is_tx_accepted rq) w =
    (Some (is_tx_accepted h (query_params (query rq) !! "network")), w) /\
  (status_code (is_tx_accepted h (query_params (query rq) !! "network")) = 0 <->
   tx_by_hash (default "Backbone" (query_params (query rq) !! "network")) h = Some TxAccepted).
Proof.
  intros Hm Hb Htx. split.
  - unfold request_handler. rewrite Hm.
    destruct (req_body rq); [| done |];
      rewrite decide_False, decide_True, run_mbind_ret by done;
      unfold handle_get_request; cbv zeta; by rewrite Htx.
  - unfold is_tx_accepted. by destruct (tx_by_hash _ _) as [[]|].
Qed.

End TxProofs.

(** ** Witnesses *)

Lemma tx_validate_answers_witness :
  run (request_handler (AP:=demo_parser) (WD:=demo_deriver) demo_json None
         (is_tx_accepted (H:=demo_ledger)) (HttpRequest "GET" NoBody [("tx_validate", "tx1")]))
      demo_world =
    (Some (is_tx_accepted (H:=demo_ledger) "tx1" None), demo_world) /\
  (status_code (is_tx_accepted (H:=demo_ledger) "tx1" None) = 0 <->
   tx_by_hash (Ledger:=demo_ledger) "Backbone" "tx1" = Some TxAccepted).
Proof.
  exact (tx_validate_answers (AP:=demo_parser) (WD:=demo_deriver) (H:=demo_ledger) demo_json None
           (HttpRequest "GET" NoBody [("tx_validate", "tx1")]) demo_world "tx1"
           eq_refl ltac:(done) eq_refl).
Defined.

Lemma generate_wallet_addresses_spec_witness :
  Forall byte_ok [171; 205] /\
  generate_wallet_addresses (H:=demo_sha3) demo_config 3 (hex [171; 205]) =
  nets ← mapM parse_net (default [] (cfg_net_ids demo_config));
  if bool_decide (Forall (λ ni, 0 <= ni.2 < 2 ^ 64 /\ 0 <= 3 < 2 ^ 32) nets)
  then Some (list_to_map (rev (map (λ '(name, id),
               (name, b58encode (cf_raw 1 id 3 [171; 205] ++
                                 sha3_256 (Sha3:=demo_sha3) (cf_raw 1 id 3 [171; 205])))) nets)))
  else None.
Proof.
  assert (Hb : Forall byte_ok [171; 205]) by (repeat constructor; unfold byte_ok; lia).
  split; [exact Hb|]. exact (generate_wallet_addresses_spec (H:=demo_sha3) demo_config 3 _ Hb).
Defined.

End Services.
