(* ===== verification/Plugin.v ===== *)
(** * Plugin start-up: [src/backend/cpunk-gdb-server.py]

    Loading the plugin imports [handlers.py], whose module-level
    [gdb_ops = GlobalDBOps()] binds the GlobalDB group named by the
    [Config] constants ([config.py]) and starts the sweeper and backup
    daemon threads ([GlobalDBOps.__init__]).  The node then calls
    [init()], which starts a thread running [http_server()] (registering
    [request_handler] for the URI ["/cpunk_gdb"] and the methods POST and
    GET) and registers the CLI command ["dna_restore"]; [deinit()] only
    returns 0.  The node's side is a [runtime] record: the group, the
    threads started, the URI handlers and the CLI commands registered.

    How the node's HTTP server answers a request ([serve]) is the
    documented behaviour of [CFSimpleHTTPServer] and
    [CFSimpleHTTPRequestHandler]: the handler registered for the URI,
    called only for the methods it was registered with. *)

From S2P Require Import Prelude Bytes Model Registry Sweeper Backup Lookup Handlers.
Import Model Registry Handlers.

Module Plugin.
Local Open Scope Z_scope.

(** ** [Config] *)

Definition TEST_MODE : bool := false.
Definition PLUGIN_NAME : string := "cpunk-gdb-server".
Definition URL : string := "cpunk_gdb".
Definition GDB_GROUP_PROD : string := "cpunk.dna".
Definition GDB_GROUP_TEST : string := "local.dna".

(** ** The node's side of the plugin *)

(** The threads the plugin starts. *)
Inductive daemon := DSweeper | DBackup | DHttp.

#[export] Instance daemon_eq_dec : EqDecision daemon.
Proof. solve_decision. Defined.

Record runtime := Runtime {
  rt_group : option string;                   (** [self.gdb_group] *)
  rt_threads : list daemon;                   (** threads started, in order *)
  rt_uris : list (string * list string);      (** URI and methods of each [request_handler] registration *)
  rt_cli : list string                        (** registered CLI commands *)
}.

(** The node before the plugin is loaded. *)
Definition boot : runtime := Runtime None [] [] [].

Definition start_thread (d : daemon) (rt : runtime) : runtime :=
  Runtime (rt_group rt) (rt_threads rt ++ [d]) (rt_uris rt) (rt_cli rt).

(** [GlobalDBOps.__init__()] *)
Definition GlobalDBOps_init (rt : runtime) : runtime :=
  let rt' := Runtime (Some (if TEST_MODE then GDB_GROUP_TEST else GDB_GROUP_PROD))
                     (rt_threads rt) (rt_uris rt) (rt_cli rt) in
  start_thread DBackup (start_thread DSweeper rt').

(** [http_server()]: the handler for POST and GET on [/{Config.URL}]. *)
Definition http_server (rt : runtime) : runtime :=
  Runtime (rt_group rt) (rt_threads rt) (rt_uris rt ++ [("/" +:+ URL, ["POST"; "GET"])]) (rt_cli rt).

(** [init()]; [cli_ok] is whether [CFCliCommand(...).register()]
    succeeds.  The thread running [http_server] is started first; after
    an exception [init] logs it and returns [None]. *)
Definition init (cli_ok : bool) (rt : runtime) : runtime * option Z :=
  let rt1 := http_server (start_thread DHttp rt) in
  if cli_ok then (Runtime (rt_group rt1) (rt_threads rt1) (rt_uris rt1) (rt_cli rt1 ++ ["dna_restore"]), Some 0)
  else (rt1, None).

(** [deinit()] *)
Definition deinit (rt : runtime) : runtime * Z := (rt, 0).

(** Loading the plugin: the import of [handlers] creates [gdb_ops], then
    the node calls [init]. *)
Definition load_plugin (cli_ok : bool) : runtime * option Z := init cli_ok (GlobalDBOps_init boot).

(** ** The node's HTTP server *)

(** What the server does with a request. *)
Inductive http_answer :=
| Handled (r : option response)   (** the handler ran; [None]: it raised *)
| NoHandler                       (** no handler for the URI *)
| MethodNotAllowed.               (** the handler does not take the method *)

Section Serve.
Context {AP : AddressParser} {WD : WalletDeriver}.
Variable json_loads : string -> option request.
Variable DISALLOWED_NAMES : option (list string).
Variable is_tx_accepted : string -> option string -> response.

(** The first registration for [uri] answers the request. *)
Definition serve (rt : runtime) (uri : string) (rq : http_request) : gprog http_answer :=
  match List.find (λ um, bool_decide (um.1 = uri)) (rt_uris rt) with
  | None => mret NoHandler
  | Some (_, methods) =>
      if decide (method rq ∈ methods)
      then r ← request_handler json_loads DISALLOWED_NAMES is_tx_accepted rq; mret (Handled r)
      else mret MethodNotAllowed
  end.

End Serve.

(** ** Properties of start-up *)

Section PluginProofs.
Context {AP : AddressParser} {WD : WalletDeriver}.
Variable json_loads : string -> option request.
Variable DISALLOWED_NAMES : option (list string).
Variable is_tx_accepted : string -> option string -> response.

(** However the CLI registration goes, the loaded plugin works on
    the production group "cpunk.dna", has started exactly the sweeper,
    the backup and the HTTP threads, and its server passes a request for
    ["/cpunk_gdb"] to [request_handler] exactly when it is a POST or a
    GET, answering other methods itself: [request_handler]'s "Invalid
    request method!" is never reached through the server.  [init]
    returns 0 only when the CLI command was registered. *)
Theorem load_plugin_routes cli_ok rq (w : gworld) :
  let rt := fst (load_plugin cli_ok) in
  rt_group rt = Some "cpunk.dna" /\ rt_threads rt = [DSweeper; DBackup; DHttp] /\
  snd (load_plugin cli_ok) = (if cli_ok then Some 0 else None) /\
  run (serve json_loads DISALLOWED_NAMES is_tx_accepted rt "/cpunk_gdb" rq) w =
    if decide (method rq = "POST" \/ method rq = "GET")
    then (Handled (fst (run (request_handler json_loads DISALLOWED_NAMES is_tx_accepted rq) w)),
          snd (run (request_handler json_loads DISALLOWED_NAMES is_tx_accepted rq) w))
    else (MethodNotAllowed, w).
Proof.
  intros rt. assert (Hrt : rt_uris rt = [("/cpunk_gdb", ["POST"; "GET"])]) by (subst rt; by destruct cli_ok).
  split; [subst rt; by destruct cli_ok|]. split; [subst rt; by destruct cli_ok|].
  split; [by destruct cli_ok|].
  unfold serve. rewrite Hrt. simpl.
  assert (Hiff : method rq ∈ ["POST"; "GET"] <-> method rq = "POST" \/ method rq = "GET")
    by (rewrite !elem_of_cons, elem_of_nil; tauto).
  case_decide as Hm; case_decide as Hm'; [by rewrite run_mbind_ret|tauto|tauto|done].
Qed.

End PluginProofs.

End Plugin.
