(* ===== verification/System.v ===== *)
(** * The node as a transition system

    The plugin runs three kinds of actors against one GlobalDB group
    ([src/backend/gdb_ops.py], [handlers.py]): HTTP requests
    ([request_handler]), the sweeper thread ([remove_expired_gdb_entries],
    one [sweep_cycle] per iteration) and the backup thread
    ([backup_dna_data], one [backup_cycle] per iteration); the clock
    advances between them.  Here each actor step runs atomically; the
    interleavings inside a step are the subject of [Concurrency].  The CLI
    restore ([restore_dna_data_from_file]) is an administrator's action,
    kept apart in [admin_step].  Theorems: the registry invariant on every
    reachable state, the liveness of expiry (the sweeper's next step
    makes an expired name unreachable by lookup), and that a restore
    gives a name two owners whenever the snapshot holds a name that has
    since passed to another record. *)

From S2P Require Import Prelude Bytes Model Registry Sweeper Backup Lookup Handlers.
Import Model Registry Sweeper Backup Lookup Handlers.

Module System.
Local Open Scope Z_scope.

(** The state of the node: the group, the clock and the uuid generator,
    and the state of the backup thread. *)
Record node := Node {
  n_world : gworld;
  n_backup : bstate
}.

Section System.
Context {AP : AddressParser} {WD : WalletDeriver}.
Variable json_loads : string -> option request.
Variable DISALLOWED_NAMES : option (list string).
Variable is_tx_accepted : string -> option string -> response.

(** One step of one actor. *)
Inductive step : node -> node -> Prop :=
| StepRequest n rq :
    step n (Node (snd (run (request_handler json_loads DISALLOWED_NAMES is_tx_accepted rq)
                           (n_world n)))
                 (n_backup n))
| StepSweep n :
    step n (Node (snd (run sweep_cycle (n_world n))) (n_backup n))
| StepBackup n :
    step n (Node (snd (run (backup_cycle (n_backup n)) (n_world n)))
                 (fst (run (backup_cycle (n_backup n)) (n_world n))))
| StepTick n dt :
    0 <= dt ->
    step n (Node (World (w_store (n_world n)) (w_clock (n_world n) + dt) (w_next (n_world n)))
                 (n_backup n)).

(** The administrator restores the backup written at time [t]. *)
Inductive admin_step : node -> node -> Prop :=
| StepRestore n t data :
    b_dir (n_backup n) !! t = Some data ->
    admin_step n (Node (snd (run (restore_dna_data data) (n_world n))) (n_backup n)).

End System.

(** The invariant of the registry: names have one owner, are lower case,
    and every record sits under its own public hash. *)
Definition node_inv (n : node) : Prop :=
  names_unique (w_store (n_world n)) /\ store_wf (w_store (n_world n)).

(** A freshly installed node: an empty group. *)
Definition fresh_node (t0 : Z) (b0 : bstate) : node := Node (World ∅ t0 0) b0.

(** ** Concrete inputs for the witnesses *)

(** Bob registers, and the backup and sweeper threads run once. *)
Definition demo_node : node :=
  let n0 := fresh_node 100 (backup_init [] ∅ true) in
  let w1 := snd (run (request_handler (AP:=demo_parser) (WD:=demo_deriver) demo_json (Some [])
                        demo_ledger (HttpRequest "POST" (Text "add-bob") [])) (n_world n0)) in
  let b2 := fst (run (backup_cycle (n_backup n0)) w1) in
  Node (snd (run sweep_cycle w1)) b2.

(** A year after [demo_world]'s snapshot, "alice" expired and was swept,
    and "W2" registered "alice". *)
Definition demo_reregistered_world : gworld :=
  snd (run (write_gdb_data (AP:=demo_parser) (demo_request "alice" "W2")) demo_swept_world).

(** Bob registers on a fresh node; a year and a day pass. *)
Definition demo_bob_node : node :=
  let n0 := fresh_node 100 (backup_init [] ∅ true) in
  Node (snd (run (request_handler (AP:=demo_parser) (WD:=demo_deriver) demo_json (Some [])
                    demo_ledger (HttpRequest "POST" (Text "add-bob") [])) (n_world n0)))
       (n_backup n0).

Definition demo_late_node : node :=
  Node (World (w_store (n_world demo_bob_node)) (w_clock (n_world demo_bob_node) + (LEASE + 1))
              (w_next (n_world demo_bob_node)))
       (n_backup demo_bob_node).

Section SystemProofs.
Context {AP : AddressParser} {WD : WalletDeriver}.
Variable json_loads : string -> option request.
Variable DISALLOWED_NAMES : option (list string).
Variable is_tx_accepted : string -> option string -> response.

(** ** Lemmas *)

Lemma node_inv_fresh t0 b0 : node_inv (fresh_node t0 b0).
Proof. split; [|split]; intros k; simpl; intros *; rewrite lookup_empty; done. Qed.

Lemma store_inv_post s (w : gworld) :
  names_unique (w_store w) -> store_wf (w_store w) ->
  names_unique (w_store (snd (run (handle_post_request json_loads DISALLOWED_NAMES s) w))) /\
  store_wf (w_store (snd (run (handle_post_request json_loads DISALLOWED_NAMES s) w))).
Proof.
  intros U Hwf. unfold handle_post_request.
  destruct (validate_json_data _ _ _); [|done|done].
  destruct (json_loads s) as [j|]; [|done].
  destruct (falsy _); [done|].
  case_decide; [split; [by apply run_write_names_unique|by apply run_write_wf]|].
  case_decide; [split; [by apply run_update_names_unique|by apply run_update_wf]|done].
Qed.

Lemma step_request_inv rq (w : gworld) :
  names_unique (w_store w) -> store_wf (w_store w) ->
  names_unique (w_store (snd (run (request_handler json_loads DISALLOWED_NAMES is_tx_accepted rq) w))) /\
  store_wf (w_store (snd (run (request_handler json_loads DISALLOWED_NAMES is_tx_accepted rq) w))).
Proof.
  intros U Hwf. unfold request_handler.
  destruct (req_body rq) as [| |t]; try done;
    (case_decide; [|case_decide; [|done]]); rewrite ?run_mbind_ret; simpl;
    rewrite ?handle_get_request_read_only; try done.
  case_decide; [done|]. rewrite run_mbind_ret. by apply store_inv_post.
Qed.

Lemma step_inv n n' :
  step json_loads DISALLOWED_NAMES is_tx_accepted n n' -> node_inv n -> node_inv n'.
Proof.
  intros Hs [U Hwf]. destruct Hs as [n rq|n|n|n dt Hdt]; unfold node_inv; simpl.
  - by apply step_request_inv.
  - split; [by eapply names_unique_shrinks, run_sweep_cycle_shrinks
           |by eapply store_wf_shrinks, run_sweep_cycle_shrinks].
  - done.
  - done.
Qed.

Lemma rtc_step_inv n n' :
  rtc (step json_loads DISALLOWED_NAMES is_tx_accepted) n n' -> node_inv n -> node_inv n'.
Proof. induction 1; eauto using step_inv. Qed.

(** ** Properties of the node *)

(** C29: in every state a freshly installed node reaches by any sequence
    of requests (of any method and body), sweeper cycles, backup cycles
    and clock advances, every name has at most one owner, every name is
    lower case and every record sits under its own public hash. *)
Theorem reachable_node_inv t0 b0 n :
  rtc (step json_loads DISALLOWED_NAMES is_tx_accepted) (fresh_node t0 b0) n -> node_inv n.
Proof. intros Hr. exact (rtc_step_inv _ _ Hr (node_inv_fresh t0 b0)). Qed.

(** C22: expiry is live: in every state a fresh node reaches, a name
    whose lease has expired (an aware expiry before the clock), in a
    store without naive expiries, stops being found at the sweeper's next
    cycle: after that step, a by-name lookup of it in any letter case
    answers "not found". *)
Theorem expired_name_eventually_not_found t0 b0 n k r nm l lk :
  rtc (step json_loads DISALLOWED_NAMES is_tx_accepted) (fresh_node t0 b0) n ->
  no_naive (w_store (n_world n)) ->
  w_store (n_world n) !! k = Some (Stored r) -> registered_names r !! nm = Some l ->
  expired_at (w_clock (n_world n)) l = true ->
  str_lower lk = nm -> lk <> "all_delegations" -> validate_address lk = false ->
  exists n', step json_loads DISALLOWED_NAMES is_tx_accepted n n' /\
    fst (run (gdb_lookup lk false false false) (n_world n')) = nok (DNameNotFound lk).
Proof.
  intros Hr Hnv Hk Hn He Hl Hd Hv.
  destruct (rtc_step_inv _ _ Hr (node_inv_fresh t0 b0)) as [U [Hlow _]].
  eexists. split; [apply StepSweep|]. cbn [n_world]. rewrite run_sweep_cycle by done. cbn [snd w_store with_store w_clock].
  rewrite run_gdb_lookup, decide_False by done. rewrite Hv. simpl.
  destruct (first_record _ _) as [[k' r']|] eqn:Hf; [exfalso|done].
  apply first_record_some in Hf as [Hin Hp]. apply in_decode_all_lookup in Hin.
  destruct (matched_names false lk r') as [|n' ns] eqn:Hm; [done|].
  assert (Hn' : In n' (matched_names false lk r')) by (rewrite Hm; left; done).
  apply matched_names_exact in Hn' as [[l' Hsome] Heq].
  pose proof (swept_name_gone _ _ _ _ _ _ U Hk Hn He _ _ Hin) as Hgone.
  apply sweep_spec_lookup in Hin as (r0 & Hk0 & ->).
  rewrite swept_lookup in Hsome, Hgone.
  destruct (registered_names r0 !! n') as [l0|] eqn:H0; [|done].
  rewrite (Hlow _ _ _ Hk0 (ltac:(by eexists))), Hl in Heq. subst n'.
  rewrite H0 in Hgone. simpl in *. congruence.
Qed.

End SystemProofs.

(** C30: [restore_dna_data] checks nothing: when a snapshot holds a
    name under one public hash and, since it was taken, the name has
    passed to a record the snapshot does not hold (it expired, was swept
    and another wallet registered it), restoring it gives the name two
    owners. *)
Theorem restore_breaks_names_unique (data : snapshot) (w : gworld) k r k' r' nm :
  NoDup data.*1 ->
  list_to_map (M := gmap string identity) data !! k = Some r -> is_Some (registered_names r !! nm) ->
  w_store w !! k' = Some (Stored r') -> is_Some (registered_names r' !! nm) -> k' ∉ data.*1 ->
  ~ names_unique (w_store (snd (run (restore_dna_data data) w))).
Proof.
  intros Hnd Hk Hn Hk' Hn' Hout.
  assert (Hne : k <> k').
  { intros <-. apply Hout, list_elem_of_fmap. exists (k, r). split; [done|].
    by apply elem_of_list_to_map_2. }
  apply (not_names_unique_intro _ k k' nm Hne); unfold holds_name;
    rewrite restore_overwrites by done.
  - rewrite Hk. by apply bool_decide_eq_true.
  - rewrite not_elem_of_list_to_map_1 by done. rewrite Hk'. by apply bool_decide_eq_true.
Qed.

(** ** Witnesses *)

Lemma reachable_node_inv_witness :
  rtc (step (AP:=demo_parser) (WD:=demo_deriver) demo_json (Some []) demo_ledger)
      (fresh_node 100 (backup_init [] ∅ true)) demo_node /\
  node_inv demo_node.
Proof.
  assert (Hr : rtc (step (AP:=demo_parser) (WD:=demo_deriver) demo_json (Some []) demo_ledger)
                   (fresh_node 100 (backup_init [] ∅ true)) demo_node).
  { eapply rtc_l; [apply (StepRequest _ _ _ _ (HttpRequest "POST" (Text "add-bob") []))|].
    eapply rtc_l; [apply StepBackup|].
    eapply rtc_l; [apply StepSweep|].
    apply rtc_refl. }
  split; [exact Hr|]. exact (reachable_node_inv (AP:=demo_parser) (WD:=demo_deriver) _ _ _ _ _ _ Hr).
Defined.


Lemma expired_name_eventually_not_found_witness :
  rtc (step (AP:=demo_parser) (WD:=demo_deriver) demo_json (Some []) demo_ledger)
      (fresh_node 100 (backup_init [] ∅ true)) demo_late_node /\
  exists n', step (AP:=demo_parser) (WD:=demo_deriver) demo_json (Some []) demo_ledger demo_late_node n' /\
    fst (run (gdb_lookup (AP:=demo_parser) (WD:=demo_deriver) "BOB" false false false) (n_world n')) =
    nok (DNameNotFound "BOB").
Proof.
  assert (Hr : rtc (step (AP:=demo_parser) (WD:=demo_deriver) demo_json (Some []) demo_ledger)
                   (fresh_node 100 (backup_init [] ∅ true)) demo_late_node).
  { eapply rtc_l; [apply (StepRequest _ _ _ _ (HttpRequest "POST" (Text "add-bob") []))|].
    eapply rtc_l; [apply (StepTick _ _ _ _ (LEASE + 1)); unfold LEASE, days, USEC_PER_DAY; lia|].
    apply rtc_refl. }
  split; [exact Hr|].
  apply (expired_name_eventually_not_found (AP:=demo_parser) (WD:=demo_deriver) _ _ _ _ _ _
           "0102" (new_record "0102" (uuid_of 0) 3 "bob" 100 100 None) "bob"
           (Lease (Aware 100) (Aware (100 + LEASE)) None) "BOB" Hr);
    [apply no_naiveb_sound|..]; vm_compute; reflexivity || congruence.
Defined.

Lemma restore_breaks_names_unique_witness :
  names_unique (w_store demo_reregistered_world) /\
  ~ names_unique (w_store (snd (run (restore_dna_data demo_snapshot) demo_reregistered_world))).
Proof.
  split; [apply names_uniqueb_sound; vm_compute; reflexivity|].
  destruct (w_store demo_reregistered_world !! "0102") as [[r'|raw]|] eqn:E;
    [|vm_compute in E; discriminate..].
  apply (restore_breaks_names_unique demo_snapshot demo_reregistered_world "abcd" demo_alice "0102" r' "alice").
  - apply NoDup_singleton.
  - reflexivity.
  - apply (bool_decide_unpack _). vm_compute. reflexivity.
  - exact E.
  - vm_compute in E. injection E as <-. apply (bool_decide_unpack _). vm_compute. reflexivity.
  - apply not_elem_of_cons. split; [discriminate|apply not_elem_of_nil].
Defined.

End System.
