(* ===== verification/Concurrency.v ===== *)
(** * Interleavings of the actors

    The HTTP server runs each request on its own thread, next to the
    sweeper and backup threads ([GlobalDBOps.__init__]).  Only single
    GlobalDB calls ([get], [set], [items]) are atomic: a handler written
    as a [prog] is a sequence of such primitives, and threads interleave
    between them.  [exec1] runs one primitive of a program and [sched]
    runs a list of threads under a schedule (the index of the thread that
    moves at each step).  [exec_n] running one thread alone computes what
    [run] computes (the atomic semantics used everywhere else); two
    interleaved "add" requests, or the sweeper and an "update", do not.
    A sweeper cycle run alone terminates within a bound on its steps. *)

From S2P Require Import Prelude Bytes Model Registry Sweeper.
Import Model Registry Sweeper.

Module Concurrency.
Local Open Scope Z_scope.

Section Step.
Context {V : Type}.

(** One primitive of [p]; [None] once [p] has returned. *)
Definition exec1 {A} (p : prog V A) (w : world V) : option (prog V A * world V) :=
  match p with
  | Ret _ => None
  | Get k c => Some (c (w_store w !! k), w)
  | Put k v c => Some (c, with_store w (<[k:=v]> (w_store w)))
  | Items c => Some (c (map_to_list (w_store w)), w)
  | Now c => Some (c (w_clock w), w)
  | Fresh c => Some (c (uuid_of (w_next w)), World (w_store w) (w_clock w) (N.succ (w_next w)))
  end.

(** [n] primitives of [p] run alone. *)
Fixpoint exec_n {A} (n : nat) (p : prog V A) (w : world V) : prog V A * world V :=
  match n with
  | O => (p, w)
  | S n' => match exec1 p w with
            | None => (p, w)
            | Some (p', w') => exec_n n' p' w'
            end
  end.

(** The number of primitives [run p w] executes. *)
Fixpoint cost {A} (p : prog V A) (w : world V) : nat :=
  match p with
  | Ret _ => O
  | Get k c => S (cost (c (w_store w !! k)) w)
  | Put k v c => S (cost c (with_store w (<[k:=v]> (w_store w))))
  | Items c => S (cost (c (map_to_list (w_store w))) w)
  | Now c => S (cost (c (w_clock w)) w)
  | Fresh c => S (cost (c (uuid_of (w_next w))) (World (w_store w) (w_clock w) (N.succ (w_next w))))
  end.

End Step.

(** A running actor of the node: a request handler or the sweeper. *)
Inductive thread :=
| TReq (p : gprog response)
| TSweep (p : gprog outcome).

Definition exec_thread (t : thread) (w : gworld) : option (thread * gworld) :=
  match t with
  | TReq p => (λ '(p', w'), (TReq p', w')) <$> exec1 p w
  | TSweep p => (λ '(p', w'), (TSweep p', w')) <$> exec1 p w
  end.

(** Run the threads [ts] under the schedule [s]: at each step the thread
    of the given index runs one primitive (a finished or missing thread
    does nothing). *)
Fixpoint sched (s : list nat) (w : gworld) (ts : list thread) : gworld * list thread :=
  match s with
  | [] => (w, ts)
  | i :: s' =>
      match ts !! i ≫= λ t, exec_thread t w with
      | Some (t', w') => sched s' w' (<[i := t']> ts)
      | None => sched s' w ts
      end
  end.

(** The answer of a finished request: its status code. *)
Definition answer (t : thread) : option Z :=
  match t with
  | TReq (Ret r) => Some (status_code r)
  | _ => None
  end.

(** ** Concrete inputs *)

(** "W1" (owner of "alice") and "W2" (no record) both ask for "carol". *)
Definition race_threads : list thread :=
  [TReq (write_gdb_data (AP:=demo_parser) (demo_request "carol" "W1"));
   TReq (write_gdb_data (AP:=demo_parser) (demo_request "carol" "W2"))].

(** The two requests alternate, one primitive each. *)
Definition race_sched : list nat := List.concat (repeat [0%nat; 1%nat] 20).

(** The first request runs to completion before the second starts. *)
Definition serial_sched : list nat := repeat 0%nat 20 ++ repeat 1%nat 20.

(** A year and a day after [demo_world]: "alice" has expired. *)
Definition late_world : gworld := World (w_store demo_world) (100 + LEASE + 1) 1.

(** "W1" sets its bio while the sweeper removes its expired name. *)
Definition bio_payload : payload :=
  Payload None (Some "W1") None None None None (Some "hi") None None None None.

Definition lost_update_threads : list thread :=
  [TSweep sweep_cycle; TReq (update_gdb_data_old_name (AP:=demo_parser) bio_payload)].

(** The sweeper reads the clock and the group, the update runs, then the
    sweeper writes back. *)
Definition lost_update_sched : list nat := [0%nat; 0%nat] ++ repeat 1%nat 20 ++ repeat 0%nat 5.

(** The sweeper runs a whole cycle, then the update. *)
Definition sweep_first_sched : list nat := repeat 0%nat 5 ++ repeat 1%nat 20.

(** The [bio] of the record under [k]. *)
Definition bio_at (w : gworld) (k : string) : option string :=
  match w_store w !! k with
  | Some (Stored r) => Some (bio r)
  | _ => None
  end.

(** ** Lemmas *)

Section StepProofs.
Context {V : Type}.

Lemma exec_n_run {A} (p : prog V A) w n :
  (cost p w <= n)%nat -> exec_n n p w = (Ret (fst (run p w)), snd (run p w)).
Proof.
  revert w n.
  induction p as [a|k c IH|k v c IH|c IH|c IH|c IH]; intros w [|n] Hn; simpl in *;
    try done; try lia; apply IH; lia.
Qed.

End StepProofs.

(** The sweeper's loop runs at most one primitive per record, whatever
    the world. *)
Lemma cost_sweep_items now l (w : gworld) : (cost (sweep_items now l) w <= List.length l)%nat.
Proof.
  revert w. induction l as [|[k v] l IH]; intros w; simpl; [lia|].
  destruct (scan_expired now _) as [[|n ex]|]; simpl; try lia;
    match goal with |- context [cost (sweep_items now l) ?w'] => specialize (IH w') end; lia.
Qed.

Lemma cost_sweep_cycle (w : gworld) :
  (cost sweep_cycle w <= 2 + List.length (decode_all (map_to_list (w_store w))))%nat.
Proof.
  unfold sweep_cycle. simpl.
  destruct (decode_all _) as [|kv l] eqn:Hd; simpl; [lia|].
  pose proof (cost_sweep_items (w_clock w) (kv :: l) w) as Hc. simpl in *. lia.
Qed.

Lemma sched_app s1 s2 w ts :
  sched (s1 ++ s2) w ts = let '(w', ts') := sched s1 w ts in sched s2 w' ts'.
Proof.
  revert w ts. induction s1 as [|i s1 IH]; intros w ts; simpl; [done|].
  destruct (ts !! i ≫= _) as [[t' w']|]; apply IH.
Qed.

(** A request thread running alone. *)
Lemma sched_alone i n (p : gprog response) w ts :
  ts !! i = Some (TReq p) ->
  sched (repeat i n) w ts = (snd (exec_n n p w), <[i := TReq (fst (exec_n n p w))]> ts).
Proof.
  revert p w ts. induction n as [|n IH]; intros p w ts Hi; simpl.
  - by rewrite list_insert_id.
  - rewrite Hi. destruct p as [a|k c|k v c|c|c|c]; simpl;
      [rewrite (IH (Ret a)) by done; destruct n; simpl; by rewrite list_insert_id|idtac ..];
      (erewrite IH; [by rewrite list_insert_insert_eq
                    |apply list_lookup_insert_eq; by eapply lookup_lt_Some]).
Qed.

(** ** Properties of interleaved execution *)

(** When requests run one after the other, the interleaving
    semantics computes what the atomic semantics [run] computes: the
    first request's answer and world, then the second's from there.  This
    is what justifies the atomic steps of [System]. *)
Theorem serial_schedule_is_atomic (p0 p1 : gprog response) (w : gworld) n0 n1 :
  (cost p0 w <= n0)%nat -> (cost p1 (snd (run p0 w)) <= n1)%nat ->
  sched (repeat 0%nat n0 ++ repeat 1%nat n1) w [TReq p0; TReq p1] =
  (snd (run p1 (snd (run p0 w))),
   [TReq (Ret (fst (run p0 w))); TReq (Ret (fst (run p1 (snd (run p0 w)))))]).
Proof.
  intros H0 H1. rewrite sched_app, (sched_alone 0 n0 p0) by done.
  rewrite exec_n_run by done. simpl.
  rewrite (sched_alone 1 n1 p1) by done. rewrite exec_n_run by done. done.
Qed.

(** C14: the sweeper thread's cycle terminates, with a bound: run alone
    in the interleaving semantics, it has finished after two primitives
    (the clock and the group read) plus one per decodable record, and its
    result and world are those of the atomic [run]. *)
Theorem sweeper_cycle_terminates (w : gworld) :
  exec_n (2 + List.length (decode_all (map_to_list (w_store w)))) sweep_cycle w =
  (Ret (fst (run sweep_cycle w)), snd (run sweep_cycle w)).
Proof. apply exec_n_run, cost_sweep_cycle. Qed.

(** The uniqueness check and the write of "add" are separate
    GlobalDB calls.  Run one after the other, the second of two requests
    for "carol" fails with NameTaken; interleaved, both answer status 0
    and "carol" ends up with two owners. *)
Theorem concurrent_adds_break_uniqueness :
  names_unique (w_store demo_world) /\
  map answer (snd (sched serial_sched demo_world race_threads)) = [Some 0; Some (-1)] /\
  map answer (snd (sched race_sched demo_world race_threads)) = [Some 0; Some 0] /\
  ~ names_unique (w_store (fst (sched race_sched demo_world race_threads))).
Proof.
  split; [apply names_uniqueb_sound; vm_compute; reflexivity|].
  split; [vm_compute; reflexivity|]. split; [vm_compute; reflexivity|].
  apply (not_names_unique_intro _ "abcd" "0102" "carol"); [done|vm_compute; reflexivity..].
Qed.

(** The sweeper writes back the record it read at the start of its
    cycle.  An update of "W1"'s bio that completes (status 0) between the
    sweeper's read and its write is lost; with the sweeper's cycle run
    first, the bio is kept. *)
Theorem sweeper_loses_concurrent_update :
  bio_at (fst (sched sweep_first_sched late_world lost_update_threads)) "abcd" = Some "hi" /\
  map answer (snd (sched lost_update_sched late_world lost_update_threads)) = [None; Some 0] /\
  bio_at (fst (sched lost_update_sched late_world lost_update_threads)) "abcd" = Some "".
Proof. repeat split; vm_compute; reflexivity. Qed.

(** ** Witnesses *)

Lemma serial_schedule_is_atomic_witness :
  (cost (write_gdb_data (AP:=demo_parser) (demo_request "carol" "W1")) demo_world <= 20)%nat /\
  (cost (write_gdb_data (AP:=demo_parser) (demo_request "carol" "W2"))
        (snd (run (write_gdb_data (AP:=demo_parser) (demo_request "carol" "W1")) demo_world))
     <= 20)%nat /\
  sched serial_sched demo_world race_threads =
  (snd (run (write_gdb_data (AP:=demo_parser) (demo_request "carol" "W2"))
            (snd (run (write_gdb_data (AP:=demo_parser) (demo_request "carol" "W1")) demo_world))),
   [TReq (Ret (fst (run (write_gdb_data (AP:=demo_parser) (demo_request "carol" "W1")) demo_world)));
    TReq (Ret (fst (run (write_gdb_data (AP:=demo_parser) (demo_request "carol" "W2"))
                        (snd (run (write_gdb_data (AP:=demo_parser) (demo_request "carol" "W1"))
                                  demo_world)))))]).
Proof.
  assert (H0 : (cost (write_gdb_data (AP:=demo_parser) (demo_request "carol" "W1")) demo_world
                <= 20)%nat) by (apply Nat.leb_le; vm_compute; reflexivity).
  assert (H1 : (cost (write_gdb_data (AP:=demo_parser) (demo_request "carol" "W2"))
                  (snd (run (write_gdb_data (AP:=demo_parser) (demo_request "carol" "W1")) demo_world))
                <= 20)%nat) by (apply Nat.leb_le; vm_compute; reflexivity).
  split; [exact H0|]. split; [exact H1|].
  exact (serial_schedule_is_atomic _ _ demo_world 20 20 H0 H1).
Defined.

End Concurrency.
