(* ===== verification/Bot.v ===== *)
(** * The Telegram verification bot: [src/cpunk.club/cpunkverifybot.py]

    The bot answers Telegram updates and talks to the registry over HTTP
    ([API_URL]): "whoami?" queries [?by_telegram=<username>]; any other
    text that is not a command is a verification attempt, which queries
    [?lookup=<text>] and, when the record's Telegram profile is
    [<username>-unverified], POSTs an "update" that sets the profile to
    [<username>].  Each handler is a [gprog] of the registry: its HTTP
    calls are [Handlers.request_handler] run against the same world, so
    the theorems compose the bot with the backend.  This composition is
    an assumption: [API_URL] is a deployed host, and the comment of the
    update (line 221) says its body follows a [dna-proxy.php] that is not
    in the repository and may rewrite the request before the backend
    sees it; what the bot does through such a proxy is not modelled.  The reply sent back
    to the user is a value of [reply], one constructor per message
    template, with the parts the code computes.

    Telegram's dispatch (which [CommandHandler] matches an update) is the
    section variable [command_of]; [json.dumps] of the update body is the
    section variable [json_dumps_update], whose decoding by the backend's
    [json_loads] is a hypothesis of the theorems that need it.  Strings
    are UTF-8 byte strings: [str.strip], [str.lower] and [str.isalpha]
    act on ASCII, slicing counts bytes. *)

From S2P Require Import Prelude Bytes Model Registry Sweeper Lookup Handlers.
Import Bytes Model Registry Sweeper Lookup Handlers.

Module Bot.
Local Open Scope Z_scope.

(** ** Telegram objects *)

Record tg_user := TgUser {
  tg_username : option string        (** [user.username] *)
}.

Record tg_message := TgMessage {
  m_text : option string;             (** [message.text] *)
  m_from_user : option tg_user        (** [message.from_user] *)
}.

Record tg_update := TgUpdate {
  u_channel_post : option tg_message; (** [update.channel_post] *)
  u_message : option tg_message       (** [update.message] *)
}.

(** What the bot sends back, one constructor per reply template. *)
Inductive reply :=
| NoUsername                          (** "I couldn't identify your Telegram username. ..." *)
| IdentityCheck (user primary : string) (others : list string)
    (wallets dinos : list (string * string))
                                      (** the HTML "Identity Check for @{username}" *)
| NoNicknames (user : string)         (** "@{username} has no DNA nicknames registered." *)
| NoRegistration (user : string) (error_msg : string)   (** "@{username}: {error_msg}" *)
| ServiceError                        (** "Error connecting to the DNA service. ..." *)
| NickNotFound (nick : string)        (** "Error: DNA nickname '{dna_nickname}' was not found ..." *)
| VerifySuccess (user nick : string)  (** "Verification successful! ..." *)
| VerifyIncomplete                    (** "Verification process started but could not be completed. ..." *)
| NoPending (nick : string)           (** "... doesn't have a Telegram account pending verification." *)
| AlreadyVerified (nick handle : string)  (** "... is already verified as @{telegram_handle}." *)
| PendingOther (nick pending_user : string) (** "... pending verification for a different ... (@{pending_user})" *)
| VerifyError                         (** "Error processing verification. ..." *)
| Welcome                             (** the text of [start] *)
| HelpText                            (** the text of [help_command] *)
| VerifyInstructions.                 (** the text of [verify_command] *)

(** ** String operations of the bot *)

(** [str.isalpha()] of one character. *)
Definition is_alpha (c : ascii) : bool :=
  let n := nat_of_ascii c in ((65 <=? n) && (n <=? 90))%nat || ((97 <=? n) && (n <=? 122))%nat.

(** [str.startswith(p)] and [str.endswith(p)] *)
Definition startswith (p s : string) : bool := String.prefix p s.
Definition endswith (p s : string) : bool := String.prefix (str_rev p) (str_rev s).

(** [s.replace(old, "")]: every non-overlapping occurrence, left to
    right; [skip] characters of a match are still to be dropped. *)
Fixpoint remove_all_from (old : string) (skip : nat) (s : string) : string :=
  match s with
  | EmptyString => EmptyString
  | String c s' =>
      match skip with
      | S k => remove_all_from old k s'
      | O => if String.prefix old s && negb (String.eqb old "")
             then remove_all_from old (String.length old - 1) s'
             else String c (remove_all_from old 0 s')
      end
  end.

Definition remove_all (old s : string) : string := remove_all_from old 0 s.

(** [f"{address[:8]}...{address[-8:]}"] *)
Definition short_address (a : string) : string :=
  String.substring 0 8 a +:+ "..." +:+ String.substring (String.length a - 8) 8 a.

(** [is_command(text)] *)
Definition is_command (t : string) : bool :=
  startswith "/" t && (1 <? String.length t)%nat &&
  match String.get 1 t with Some c => is_alpha c | None => false end.

(** ** The URL the bot requests *)

(** [s.split(c)] *)
Fixpoint split_on (c : ascii) (s : string) : list string :=
  match s with
  | EmptyString => [EmptyString]
  | String c' s' =>
      if decide (c' = c) then EmptyString :: split_on c s'
      else match split_on c s' with
           | x :: xs => String c' x :: xs
           | [] => [String c' EmptyString]
           end
  end.

(** [s.split(c, 1)] when [c] occurs. *)
Fixpoint split_first (c : ascii) (s : string) : option (string * string) :=
  match s with
  | EmptyString => None
  | String c' s' =>
      if decide (c' = c) then Some (EmptyString, s')
      else (λ '(a, b), (String c' a, b)) <$> split_first c s'
  end.

(** [urllib.parse.unquote]: a [%] and two hex digits is that byte; any
    other [%] stays. *)
Fixpoint unquote (s : string) : string :=
  match s with
  | EmptyString => EmptyString
  | String c t =>
      match c, t with
      | "%"%char, String h1 (String h2 r) =>
          match digit_val h1, digit_val h2 with
          | Some a, Some b => String (ascii_of_nat (Z.to_nat (16 * a + b))) (unquote r)
          | _, _ => String c (unquote t)
          end
      | _, _ => String c (unquote t)
      end
  end.

(** ['+'] is a space in a query. *)
Definition plus_to_space (s : string) : string :=
  string_of_list_ascii (map (λ c, if decide (c = "+"%char) then " "%char else c)
                            (list_ascii_of_string s)).

(** [parse_qsl(query)]: the [&]-separated fields, each split at its first
    [=]; a field without [=] is dropped. *)
Definition parse_qsl (q : string) : list (string * string) :=
  omap (λ f, (λ '(k, v), (unquote (plus_to_space k), unquote (plus_to_space v)))
               <$> split_first "=" f)
       (split_on "&" q).

(** The query the server reads from [f"{API_URL}/?{q}"]: the URL
    fragment starts at the first [#]. *)
Definition url_query (q : string) : list (string * string) :=
  parse_qsl (default q (fst <$> split_first "#" q)).

(** ** The backend's answer as the bot reads it *)

(** A value of the JSON object [send_json_response] writes. *)
Inductive jfield := FCode (z : Z) | FStr (s : string) | FData (d : rdata) | FDesc (d : desc).

Definition msg_text (m : status_msg) : string :=
  match m with MsgOK => "OK" | MsgNOK => "NOK" end.

(** [data.get(k)] on [response_dict] (lines 8-17 of
    [response_helpers.py]): its keys are [status_code], [response_data],
    [message] and [description]. *)
Definition response_get (r : response) (k : string) : option jfield :=
  if decide (k = "status_code") then Some (FCode (status_code r))
  else if decide (k = "response_data") then FData <$> response_data r
  else if decide (k = "message") then FStr ∘ msg_text <$> message r
  else if decide (k = "description") then FDesc <$> description r
  else None.

(** Python truthiness of [data.get(k)]. *)
Definition field_truthy (f : option jfield) : bool :=
  match f with
  | None => false
  | Some (FCode z) => bool_decide (z <> 0)
  | Some (FStr s) => bool_decide (s <> "")
  | Some _ => true
  end.

(** [data.get(k) == 0] and [data.get(k) == "ok"] *)
Definition field_is_code (f : option jfield) (z : Z) : bool :=
  match f with Some (FCode z') => bool_decide (z' = z) | _ => false end.

Definition field_is_str (f : option jfield) (s : string) : bool :=
  match f with Some (FStr s') => bool_decide (s' = s) | _ => false end.

(** The record a [response_data] object describes, and its
    [wallet_addresses]; [None] when the data is a list, whose [.get]
    raises [AttributeError]. *)
Definition rd_fields (d : rdata) : option (identity * gmap string string) :=
  match d with
  | RRecord r => Some (r, ∅)
  | RView v => Some (v_record v, v_wallet_addresses v)
  | RNames _ | RDelegations _ => None
  end.

(** [response_data.get("socials", {}).get("telegram", {}).get("profile", "")] *)
Definition telegram_handle (pd : identity) : string := default "" (socials pd !! "telegram").

(** [message_obj.from_user.username if message_obj.from_user else None] *)
Definition username_of (m : tg_message) : option string :=
  m_from_user m ≫= tg_username.

(** The body of [update_verification_status], as the backend decodes it:
    [{"action": "update", "name": dna_nickname,
      "socials": {"telegram": {"profile": username}}}] and no wallet. *)
Definition update_request (nick user : string) : request :=
  Request (Some "update")
          (Payload (Some nick) None None None (Some {[ "telegram" := Some user ]})
                   None None None None None None).

(** The two lines of a wallet section: [f"• {network}: <code>{short_address}</code>"]. *)
Definition wallet_lines (m : gmap string string) : list (string * string) :=
  map (λ '(k, a), (k, short_address a)) (map_to_list m).

(** The dinosaur wallets with a truthy address, as listed when
    [any(dino_wallets.get(key) for key in dino_wallets)]. *)
Definition dino_lines (m : gmap string string) : list (string * string) :=
  wallet_lines (filter (λ ka, ka.2 <> "") m).

(** The names of a record, [list(registered_names.keys())]. *)
Definition names_list (pd : identity) : list string := map fst (map_to_list (registered_names pd)).

(** The [names_list] branch of [process_whoami] (lines 95-132). *)
Definition identity_reply (user : string) (pd : identity) (wa : gmap string string) : reply :=
  match names_list pd with
  | [] => NoNicknames user
  | primary :: others => IdentityCheck user primary others (wallet_lines wa) (dino_lines (dinosaur_wallets pd))
  end.

(** How [process_whoami] reads the answer to [?by_telegram=] (lines
    85-136); [None] is an answer that is not JSON, whose [response.json()]
    raises. *)
Definition whoami_reply (user : string) (r : option response) : reply :=
  match r with
  | None => ServiceError
  | Some r =>
      let error_msg := match response_get r "error" with
                       | Some (FStr e) => e
                       | _ => "No DNA registration found"
                       end in
      if field_is_code (response_get r "status_code") 0 then
        match response_get r "response_data" with
        | Some (FData d) =>
            match rd_fields d with
            | Some (pd, wa) => identity_reply user pd wa
            | None => ServiceError
            end
        | _ => NoRegistration user error_msg
        end
      else NoRegistration user error_msg
  end.

(** [update_verification_status]'s test of the answer (lines 237-247):
    HTTP 200 and [result.get("success") or result.get("status") == "ok"
    or result.get("status_code") == 0]. *)
Definition update_ok (r : option response) : bool :=
  match r with
  | None => false
  | Some r => field_truthy (response_get r "success")
              || field_is_str (response_get r "status") "ok"
              || field_is_code (response_get r "status_code") 0
  end.

Section BotHandlers.
Context {AP : AddressParser} {WD : WalletDeriver}.
Variable json_loads : string -> option request.
Variable DISALLOWED_NAMES : option (list string).
Variable is_tx_accepted : string -> option string -> response.

(** [json.dumps(update_data)] for a nickname and a username. *)
Variable json_dumps_update : string -> string -> string.

(** The command a [CommandHandler] of [main] recognises in an update. *)
Variable command_of : tg_update -> option string.

(** [requests.get(f"{API_URL}/?{q}")]: the backend's [request_handler]
    on a GET without a body. *)
Definition api_get (q : string) : gprog (option response) :=
  request_handler json_loads DISALLOWED_NAMES is_tx_accepted (HttpRequest "GET" NoBody (url_query q)).

(** [requests.post(API_UPDATE_URL, json=update_data)] *)
Definition api_post (body : string) : gprog (option response) :=
  request_handler json_loads DISALLOWED_NAMES is_tx_accepted (HttpRequest "POST" (Text body) []).

(** A handler that always replies. *)
Definition sent (p : gprog reply) : gprog (option reply) := p ≫= λ rp, mret (Some rp).

(** [process_whoami(message_obj)] *)
Definition process_whoami (m : tg_message) : gprog reply :=
  match username_of m with
  | None | Some EmptyString => mret NoUsername
  | Some user =>
      r ← api_get ("by_telegram=" +:+ user);
      mret (whoami_reply user r)
  end.

(** [update_verification_status(username, dna_nickname)] *)
Definition update_verification_status (user nick : string) : gprog bool :=
  r ← api_post (json_dumps_update nick user);
  mret (update_ok r).

(** The branches on the record's Telegram handle (lines 164-210). *)
Definition verify_record (user nick : string) (pd : identity) : gprog reply :=
  let telegram_handle := telegram_handle pd in
  if decide (str_lower telegram_handle = str_lower (user +:+ "-unverified")) then
    update_verification_status user nick ≫= λ updated : bool,
      mret (if updated then VerifySuccess user nick else VerifyIncomplete)
  else if decide (telegram_handle = "") then mret (NoPending nick)
  else if negb (endswith "-unverified" telegram_handle) then mret (AlreadyVerified nick telegram_handle)
  else mret (PendingOther nick (remove_all "-unverified" telegram_handle)).

(** [process_verification_attempt(message_obj, dna_nickname)]; [None]:
    without [from_user] the first line raises and nothing is sent. *)
Definition process_verification_attempt (m : tg_message) (nick : string) : gprog (option reply) :=
  match m_from_user m with
  | None => mret None
  | Some fu =>
  match tg_username fu with
  | None | Some EmptyString => mret (Some NoUsername)
  | Some user =>
      r ← api_get ("lookup=" +:+ nick);
      match r with
      | None => mret (Some VerifyError)
      | Some r =>
          if negb (field_is_code (response_get r "status_code") 0)
          then mret (Some (NickNotFound nick))
          else match response_get r "response_data" with
               | Some (FData d) =>
                   match rd_fields d with
                   | Some (pd, _) => sent (verify_record user nick pd)
                   | None => mret (Some VerifyError)
                   end
               | _ => mret (Some (NickNotFound nick))
               end
      end
  end
  end.

(** [universal_handler(update, context)] *)
Definition universal_handler (upd : tg_update) : gprog (option reply) :=
  let message_obj := match u_channel_post upd with Some m => Some m | None => u_message upd end in
  match message_obj with
  | None => mret None
  | Some m =>
      match m_text m with
      | None | Some EmptyString => mret None
      | Some text =>
          let message_text := strip text in
          if decide (str_lower message_text = "whoami?") then sent (process_whoami m)
          else if negb (falsy (username_of m)) && negb (startswith "/" message_text)
                  && negb (is_command message_text)
          then process_verification_attempt m message_text
          else mret None
      end
  end.

(** [whoami_command(update, context)] *)
Definition whoami_command (upd : tg_update) : gprog (option reply) :=
  match u_channel_post upd with
  | Some m => sent (process_whoami m)
  | None => match u_message upd with
            | Some m => sent (process_whoami m)
            | None => mret None
            end
  end.

(** [update.message.reply_text(...)] of [start], [help_command] and
    [verify_command]; without [update.message] it raises. *)
Definition reply_to_message (upd : tg_update) (rp : reply) : gprog (option reply) :=
  mret (match u_message upd with Some _ => Some rp | None => None end).

(** The handlers [main] installs: the four commands, then
    [universal_handler] for every other update. *)
Definition handle_update (upd : tg_update) : gprog (option reply) :=
  match command_of upd with
  | Some "start" => reply_to_message upd Welcome
  | Some "help" => reply_to_message upd HelpText
  | Some "whoami" => whoami_command upd
  | Some "verify" => reply_to_message upd VerifyInstructions
  | _ => universal_handler upd
  end.

End BotHandlers.

(** ** Specification of [process_whoami] *)

(** The characters the URL ([#]) and [parse_qsl] ([&], [=], [+], [%])
    interpret. *)
Definition url_special (c : ascii) : bool :=
  bool_decide (c ∈ ["&"; "#"; "="; "+"; "%"]%char).

(** A query value that reaches the server as it is written, as every
    Telegram username ([A-Za-z0-9_]) does. *)
Definition plain (s : string) : Prop :=
  forall c, c ∈ list_ascii_of_string s -> url_special c = false.

(** A decision procedure for [plain]. *)
Definition plainb (s : string) : bool := forallb (λ c, negb (url_special c)) (list_ascii_of_string s).

(** What "whoami?" answers, read off the store: the first record whose
    Telegram profile is the username, its names and its addresses. *)
Definition whoami_spec {WD : WalletDeriver} (s : store) (user : string) : reply :=
  match first_record (telegram_match user) (decode_all (map_to_list s)) with
  | Some (ph, pd) => identity_reply user pd (generate_wallet_addresses (sign_id pd) ph)
  | None => NoRegistration user "No DNA registration found"
  end.

(** ** Concrete inputs for the witnesses *)

(** A JSON text for the witnesses: each character of the nickname
    escaped by ["a"], ["b"] after it, then the username. *)
Fixpoint demo_enc (n : string) : string :=
  match n with
  | EmptyString => String "b" EmptyString
  | String c n' => String "a" (String c (demo_enc n'))
  end.

Definition demo_dumps (nick user : string) : string := demo_enc nick +:+ user.

Fixpoint demo_dec (s : string) : option (string * string) :=
  match s with
  | String "a" (String c r) => (λ '(n, u), (String c n, u)) <$> demo_dec r
  | String "b" r => Some (EmptyString, r)
  | _ => None
  end.

(** The backend's [json.loads] for the witnesses: the bot's update bodies,
    and the bodies of [Handlers.demo_json]. *)
Definition demo_bot_json (s : string) : option request :=
  match demo_dec s with
  | Some (n, u) => Some (update_request n u)
  | None => demo_json s
  end.

(** "W1" (owner of "alice") started the verification of "Bob". *)
Definition demo_pending_world : gworld :=
  snd (run (update_gdb_data_old_name (AP:=demo_parser)
              (Payload None (Some "W1") None None (Some {[ "telegram" := Some "Bob-unverified" ]})
                       None None None None None None)) demo_world).

(** "@bob" sends " alice " to the bot. *)
Definition demo_bob_update : tg_update :=
  TgUpdate None (Some (TgMessage (Some " alice ") (Some (TgUser (Some "bob"))))).

(** "@alice_tg" asks "whoami?" (her profile is set in [demo_tg_world]). *)
Definition demo_alice_msg : tg_message := TgMessage (Some "whoami?") (Some (TgUser (Some "alice_tg"))).

(** No command handler matches. *)
Definition demo_no_command (_ : tg_update) : option string := None.

(** A bot handler never changes the registry and never reports a
    successful verification. *)
Definition bot_safe {AP : AddressParser} (p : gprog (option reply)) : Prop :=
  forall w, snd (run p w) = w /\ forall user nick, fst (run p w) <> Some (VerifySuccess user nick).

(** The same for a handler that always replies. *)
Definition reply_safe {AP : AddressParser} (p : gprog reply) : Prop :=
  forall w, snd (run p w) = w /\ forall user nick, fst (run p w) <> VerifySuccess user nick.


(** ** Lemmas on the URL *)

Lemma plain_cons c s : plain (String c s) <-> url_special c = false /\ plain s.
Proof.
  unfold plain. simpl. split.
  - intros H. split; [apply H; left|intros c' Hc'; apply H; by right].
  - intros [Hc H] c' [->|Hc']%elem_of_cons; auto.
Qed.

Lemma split_first_none c s :
  url_special c = true -> plain s -> split_first c s = None.
Proof.
  intros Hc. induction s as [|c' s IH]; intros Hp; [done|].
  apply plain_cons in Hp as [Hc' Hp]. simpl.
  rewrite decide_False by congruence. by rewrite IH.
Qed.

Lemma split_on_plain c s : url_special c = true -> plain s -> split_on c s = [s].
Proof.
  intros Hc. induction s as [|c' s IH]; intros Hp; [done|].
  apply plain_cons in Hp as [Hc' Hp]. simpl.
  rewrite decide_False by congruence. by rewrite IH.
Qed.

Lemma split_first_eq k v : plain k -> split_first "=" (k +:+ String "=" v) = Some (k, v).
Proof.
  induction k as [|c k IH]; intros Hp; simpl; [done|].
  apply plain_cons in Hp as [Hc Hp].
  rewrite decide_False by (intros ->; done). by rewrite IH.
Qed.

Lemma plus_to_space_plain s : plain s -> plus_to_space s = s.
Proof.
  unfold plus_to_space. induction s as [|c s IH]; intros Hp; simpl; [done|].
  apply plain_cons in Hp as [Hc Hp]. rewrite decide_False by (intros ->; done).
  f_equal. by apply IH.
Qed.

Lemma unquote_cons c t : c <> "%"%char -> unquote (String c t) = String c (unquote t).
Proof. intros Hc. destruct c as [[] [] [] [] [] [] [] []]; try reflexivity. done. Qed.

Lemma unquote_plain s : plain s -> unquote s = s.
Proof.
  induction s as [|c s IH]; intros Hp; [done|].
  apply plain_cons in Hp as [Hc Hp]. rewrite unquote_cons by (intros ->; done).
  by rewrite IH.
Qed.

Lemma plain_app s1 s2 : plain s1 -> plain s2 -> plain (s1 +:+ s2).
Proof.
  induction s1 as [|c s1 IH]; intros H1 H2; simpl; [done|].
  apply plain_cons in H1 as [Hc H1]. apply plain_cons. auto.
Qed.

Lemma plainb_plain s : plainb s = true -> plain s.
Proof.
  unfold plainb, plain. rewrite forallb_forall. intros H c Hc.
  apply list_elem_of_In, H in Hc. by apply negb_true_iff.
Qed.

(** A plain [key=value] reaches [handle_get_request] as that one pair. *)
Lemma url_query_plain k v :
  plain k -> plain v -> url_query (k +:+ String "=" v) = [(k, v)].
Proof.
  intros Hk Hv. unfold url_query.
  assert (Hkv : split_first "#" (k +:+ String "=" v) = None).
  { induction k as [|c k IH]; simpl.
    - by rewrite split_first_none.
    - apply plain_cons in Hk as [Hc Hk]. rewrite decide_False by (intros ->; done).
      by rewrite IH. }
  rewrite Hkv. simpl. unfold parse_qsl.
  assert (Hs : split_on "&" (k +:+ String "=" v) = [k +:+ String "=" v]).
  { clear Hkv. induction k as [|c k IH]; simpl.
    - by rewrite split_on_plain.
    - apply plain_cons in Hk as [Hc Hk]. rewrite decide_False by (intros ->; done).
      by rewrite IH. }
  rewrite Hs. simpl. rewrite split_first_eq by done. simpl.
  by rewrite !plus_to_space_plain, !unquote_plain.
Qed.

Section BotProofs.
Context {AP : AddressParser} {WD : WalletDeriver}.
Variable json_loads : string -> option request.
Variable DISALLOWED_NAMES : option (list string).
Variable is_tx_accepted : string -> option string -> response.
Variable json_dumps_update : string -> string -> string.
Variable command_of : tg_update -> option string.

Local Abbreviation api_get := (api_get json_loads DISALLOWED_NAMES is_tx_accepted).
Local Abbreviation api_post := (api_post json_loads DISALLOWED_NAMES is_tx_accepted).

(** ** Lemmas *)

Lemma run_api_get q (w : gworld) :
  run (api_get q) w = (Some (fst (run (handle_get_request is_tx_accepted (url_query q)) w)), w).
Proof.
  unfold Bot.api_get, request_handler. simpl.
  by rewrite run_mbind_ret, handle_get_request_read_only.
Qed.

(** The backend's answer to the bot's "update": the payload has no
    wallet, so [_get_public_hash] fails and nothing is written. *)
Lemma run_api_post_update nick user (w : gworld) :
  json_loads (json_dumps_update nick user) = Some (update_request nick user) ->
  update_ok (fst (run (api_post (json_dumps_update nick user)) w)) = false /\
  snd (run (api_post (json_dumps_update nick user)) w) = w.
Proof.
  intros Hj. unfold Bot.api_post, request_handler. simpl.
  case_decide; [done|].
  rewrite run_mbind_ret. unfold handle_post_request, validate_json_data. rewrite Hj.
  cbn [falsy rq_action rq_data].
  repeat case_decide; simplify_eq; done.
Qed.

Lemma bot_safe_ret o : (forall user nick, o <> Some (VerifySuccess user nick)) -> bot_safe (mret o).
Proof. intros Ho w. split; [done|]. apply Ho. Qed.

Lemma reply_safe_ret rp : (forall user nick, rp <> VerifySuccess user nick) -> reply_safe (mret rp).
Proof. intros Ho w. split; [done|]. apply Ho. Qed.

Lemma sent_safe p : reply_safe p -> bot_safe (sent p).
Proof.
  intros Hp w. unfold sent. rewrite run_mbind_ret. destruct (Hp w) as [Hw Hn].
  split; [done|]. intros u n [= Heq]. by apply (Hn u n).
Qed.

Lemma whoami_reply_not_success user r u n : whoami_reply user r <> VerifySuccess u n.
Proof.
  unfold whoami_reply, identity_reply.
  destruct r as [r|]; [|done]. case_match; [|done].
  destruct (response_get r "response_data") as [[| |d|]|]; try done.
  destruct (rd_fields d) as [[pd wa]|]; [|done]. by destruct (names_list pd).
Qed.

(** The GET of the bot changes nothing: what follows runs in the same world. *)
Lemma bot_safe_api_get q k :
  (forall r, bot_safe (k r)) -> bot_safe (api_get q ≫= k).
Proof. intros Hk w. rewrite run_mbind, run_api_get. exact (Hk _ w). Qed.

Lemma process_whoami_safe m : reply_safe (process_whoami json_loads DISALLOWED_NAMES is_tx_accepted m).
Proof.
  unfold process_whoami.
  destruct (username_of m) as [[|c u]|]; try by apply reply_safe_ret.
  intros w. rewrite run_mbind_ret, run_api_get. split; [done|]. apply whoami_reply_not_success.
Qed.

(** C28: composed with the backend, "whoami?" from a user with a
    username answers what [whoami_spec] reads off the store: the
    Telegram lookup's first record with that profile, its names (the
    first one as primary) and its derived addresses, or the default
    "No DNA registration found" (the backend's answers have no ["error"]
    key); the registry is unchanged.  The username must reach the server
    as written and must not be "all_delegations", which the lookup
    answers with the delegation list. *)
Theorem whoami_answers_telegram_record m user (w : gworld) :
  username_of m = Some user -> user <> "" -> plain user -> user <> "all_delegations" ->
  run (process_whoami json_loads DISALLOWED_NAMES is_tx_accepted m) w =
  (whoami_spec (w_store w) user, w).
Proof.
  intros Hu Hne Hp Hd. unfold process_whoami. rewrite Hu.
  destruct user as [|c u]; [done|].
  rewrite run_mbind_ret, run_api_get.
  change ("by_telegram=" +:+ String c u) with ("by_telegram" +:+ String "=" (String c u)).
  rewrite url_query_plain by (done || by apply plainb_plain).
  unfold handle_get_request, query_params. simpl.
  rewrite !lookup_insert_ne by done. rewrite !lookup_empty, lookup_insert_eq. cbn iota.
  rewrite run_gdb_lookup, decide_False by done. simpl.
  unfold whoami_spec. by destruct (first_record _ _) as [[ph pd]|].
Qed.

Section Verification.
(** [json.loads(json.dumps(update_data))] gives the update back. *)
Hypothesis loads_dumps_update : forall nick user,
  json_loads (json_dumps_update nick user) = Some (update_request nick user).

Lemma verify_record_safe user nick pd :
  reply_safe (verify_record json_loads DISALLOWED_NAMES is_tx_accepted json_dumps_update user nick pd).
Proof.
  unfold verify_record. case_decide.
  - intros w. unfold update_verification_status. rewrite !run_mbind.
    destruct (run_api_post_update nick user w (loads_dumps_update nick user)) as [Hok Hw].
    destruct (run (Bot.api_post _ _ _ _) w) as [r w'] eqn:Hr. simpl in *. by rewrite Hok.
  - case_decide; [by apply reply_safe_ret|].
    destruct (negb _); by apply reply_safe_ret.
Qed.

Lemma process_verification_attempt_safe m nick :
  bot_safe (process_verification_attempt json_loads DISALLOWED_NAMES is_tx_accepted
              json_dumps_update m nick).
Proof.
  unfold process_verification_attempt.
  destruct (m_from_user m) as [fu|]; [|by apply bot_safe_ret].
  destruct (tg_username fu) as [[|c u]|]; try by apply bot_safe_ret.
  apply bot_safe_api_get. intros [r|]; [|by apply bot_safe_ret].
  destruct (negb _); [by apply bot_safe_ret|].
  destruct (response_get r "response_data") as [[| |d|]|]; try by apply bot_safe_ret.
  destruct (rd_fields d) as [[pd wa]|]; [|by apply bot_safe_ret].
  by apply sent_safe, verify_record_safe.
Qed.

Lemma universal_handler_safe upd :
  bot_safe (universal_handler json_loads DISALLOWED_NAMES is_tx_accepted json_dumps_update upd).
Proof.
  unfold universal_handler.
  destruct (match u_channel_post upd with Some m => Some m | None => u_message upd end)
    as [m|]; [|by apply bot_safe_ret].
  destruct (m_text m) as [[|c t]|]; try by apply bot_safe_ret.
  case_decide; [by apply sent_safe, process_whoami_safe|].
  destruct (_ && _); [by apply process_verification_attempt_safe|by apply bot_safe_ret].
Qed.

Lemma whoami_command_safe upd :
  bot_safe (whoami_command json_loads DISALLOWED_NAMES is_tx_accepted upd).
Proof.
  unfold whoami_command.
  destruct (u_channel_post upd); [by apply sent_safe, process_whoami_safe|].
  destruct (u_message upd); [by apply sent_safe, process_whoami_safe|by apply bot_safe_ret].
Qed.

(** ** Properties of the bot *)

(** Composed directly with the backend (no proxy between them), the
    bot never changes the registry and never tells a user that the verification succeeded, whatever the
    update and the state of the registry: the "update" it POSTs carries
    no wallet, so [update_gdb_data_old_name] answers "Failed to parse
    wallet address!" (status -1) and [update_verification_status]
    returns [False]. *)
Theorem bot_never_verifies upd (w : gworld) :
  snd (run (handle_update json_loads DISALLOWED_NAMES is_tx_accepted json_dumps_update command_of upd) w) = w /\
  forall user nick,
    fst (run (handle_update json_loads DISALLOWED_NAMES is_tx_accepted json_dumps_update command_of upd) w)
    <> Some (VerifySuccess user nick).
Proof.
  revert w. change (bot_safe (handle_update json_loads DISALLOWED_NAMES is_tx_accepted
                                json_dumps_update command_of upd)).
  unfold handle_update, reply_to_message.
  repeat (case_match; try by apply bot_safe_ret);
    solve [apply whoami_command_safe | apply universal_handler_safe].
Qed.
End Verification.

End BotProofs.

(** The nickname is put in the URL without quoting: a [#] starts the
    fragment and the backend looks up what precedes it. *)
Lemma nickname_fragment_dropped : url_query ("lookup=" +:+ "alice#x") = [("lookup", "alice")].
Proof. reflexivity. Qed.

(** ** Witnesses *)

Lemma demo_dec_enc n u : demo_dec (demo_enc n +:+ u) = Some (n, u).
Proof. induction n as [|c n IH]; simpl; [done|]. by rewrite IH. Qed.

Lemma demo_bot_json_dumps nick user :
  demo_bot_json (demo_dumps nick user) = Some (update_request nick user).
Proof. unfold demo_bot_json, demo_dumps. by rewrite demo_dec_enc. Qed.

Lemma bot_never_verifies_witness :
  fst (run (handle_update (AP:=demo_parser) (WD:=demo_deriver) demo_bot_json (Some []) demo_ledger
              demo_dumps demo_no_command demo_bob_update) demo_pending_world) = Some VerifyIncomplete /\
  snd (run (handle_update (AP:=demo_parser) (WD:=demo_deriver) demo_bot_json (Some []) demo_ledger
              demo_dumps demo_no_command demo_bob_update) demo_pending_world) = demo_pending_world /\
  forall user nick,
    fst (run (handle_update (AP:=demo_parser) (WD:=demo_deriver) demo_bot_json (Some []) demo_ledger
                demo_dumps demo_no_command demo_bob_update) demo_pending_world)
    <> Some (VerifySuccess user nick).
Proof.
  split; [vm_compute; reflexivity|].
  exact (bot_never_verifies (AP:=demo_parser) (WD:=demo_deriver) demo_bot_json (Some []) demo_ledger
           demo_dumps demo_no_command demo_bot_json_dumps demo_bob_update demo_pending_world).
Defined.

Lemma whoami_answers_telegram_record_witness :
  run (process_whoami (AP:=demo_parser) (WD:=demo_deriver) demo_json None demo_ledger demo_alice_msg)
      demo_tg_world =
  (whoami_spec (WD:=demo_deriver) (w_store demo_tg_world) "alice_tg", demo_tg_world) /\
  whoami_spec (WD:=demo_deriver) (w_store demo_tg_world) "alice_tg" =
  IdentityCheck "alice_tg" "alice" [] [("Backbone", "abcd...abcd")] [].
Proof.
  split; [|vm_compute; reflexivity].
  apply (whoami_answers_telegram_record (AP:=demo_parser) (WD:=demo_deriver)); try done.
  apply plainb_plain. reflexivity.
Defined.

End Bot.
